(** * Gnoke Library: the database engine and the catalogue and loan repository

    A shallow embedding of [db-core.js] (module [DB]) and [db-library.js]
    (module [DBLib]).  The SQL text that the JavaScript hands to sql.js is
    embedded as functions over a typed image of the four tables; the
    engine's module-level variables ([_db], [_SQL], [_dirty]) and the
    IndexedDB entry become one explicit state record threaded through a
    state-and-exception monad.  [await] is sequencing: the program has one
    thread of control and no two operations interleave.

    Embedded: [query], [run], [transaction], [_runInTx], [persist],
    [restoreDB] and [today] of the engine; the book, category and loan
    operations, the listings, the history and statistics queries and
    [getSetting] of the repository.  The engine states considered are those in
    which [init] has installed a handle.

    Also embedded: the notifier of [notification.js] (module [Notify]), over
    a record of what it reads and writes in the browser, and [esc] and
    [handleBorrowerChange] of [app.js] (module [App]).

    Not embedded: [init] and the schema check, which read [sqlite_master]
    of a seed file that the sources do not contain; [saveSetting] and
    [resetToFresh], whose statements are outside the ones modelled;
    [exportDB], [formatDate] and the rendering of the page, which are the
    browser's; the service worker. *)

From Stdlib Require Import ZArith List String Ascii Bool Lia Sorted Permutation.
Import ListNotations.

Open Scope string_scope.
Open Scope Z_scope.

(** ** JavaScript exceptions *)

(** Every exception of the program is an [Error] object carrying a message:
    the ones the program creates with [new Error(...)] and the ones sql.js
    raises from SQLite's error text. *)
Inductive Error := Err (message : string).

(** How a call ends: it returns a value or it throws. *)
Inductive Outcome (A : Type) :=
| Returned (a : A)
| Threw (e : Error).
Arguments Returned {A} a.
Arguments Threw {A} e.

(** ** JavaScript numbers and strings, as far as the program uses them *)
Module JS.

(** The numbers that occur are integers in the safe range and [NaN], the
    result of [parseInt] on text without digits. *)
Inductive Number :=
| NaN
| Int (z : Z).

(** [a < b]; false as soon as one side is [NaN]. *)
Definition lt (a b : Number) : bool :=
  match a, b with
  | Int x, Int y => x <? y
  | _, _ => false
  end.

(** [a - b] *)
Definition sub (a b : Number) : Number :=
  match a, b with
  | Int x, Int y => Int (x - y)
  | _, _ => NaN
  end.

(** [a + b] *)
Definition add (a b : Number) : Number :=
  match a, b with
  | Int x, Int y => Int (x + y)
  | _, _ => NaN
  end.

(** The character of a decimal digit. *)
Definition digit (n : Z) : ascii := ascii_of_N (Z.to_N (48 + n)).

Fixpoint digits (fuel : nat) (n : Z) (acc : string) : string :=
  match fuel with
  | O => acc
  | S f =>
      if n <? 10 then String (digit n) acc
      else digits f (n / 10) (String (digit (n mod 10)) acc)
  end.

(** [String(n)], [n.toString()] and [n] inside a template literal, for an
    integer: its decimal digits, with a minus sign when negative.  A number
    has no more decimal digits than binary ones. *)
Definition Number_toString (n : Z) : string :=
  if n <? 0
  then String "-" (digits (S (Z.to_nat (Z.log2 (- n)))) (- n) EmptyString)
  else digits (S (Z.to_nat (Z.log2 n))) n EmptyString.

Definition toString (n : Number) : string :=
  match n with
  | NaN => "NaN"
  | Int z => Number_toString z
  end.

Fixpoint repeat_char (n : nat) (c : ascii) : string :=
  match n with
  | O => EmptyString
  | S k => String c (repeat_char k c)
  end.

(** [s.padStart(len, c)] for a one-character filler. *)
Definition padStart (len : nat) (c : ascii) (s : string) : string :=
  repeat_char (len - String.length s) c ++ s.

(** White space that [parseInt] skips; of the characters the standard
    lists, the ASCII ones. *)
Definition is_white (c : ascii) : bool :=
  let n := N_of_ascii c in
  ((9 <=? n) && (n <=? 13) || (n =? 32))%N.

Fixpoint skip_white (s : string) : string :=
  match s with
  | String c r => if is_white c then skip_white r else s
  | EmptyString => EmptyString
  end.

(** The value of [c] as a digit in the given radix (10 or 16). *)
Definition digit_value (radix : Z) (c : ascii) : option Z :=
  let n := Z.of_N (N_of_ascii c) in
  if (48 <=? n) && (n <=? 57) then Some (n - 48)
  else if radix =? 16 then
    if (97 <=? n) && (n <=? 102) then Some (n - 87)
    else if (65 <=? n) && (n <=? 70) then Some (n - 55)
    else None
  else None.

(** The value of the longest prefix of digits; [None] when there is no
    digit at all. *)
Fixpoint parse_digits (radix : Z) (s : string) (acc : option Z) : option Z :=
  match s with
  | String c r =>
      match digit_value radix c with
      | Some v =>
          parse_digits radix r
            (Some (match acc with Some a => a * radix + v | None => v end))
      | None => acc
      end
  | EmptyString => acc
  end.

(** [parseInt(s)] without a radix: white space, a sign, [0x] for
    hexadecimal, then digits up to the first character that is none. *)
Definition parseInt (s : string) : Number :=
  let s1 := skip_white s in
  let signed :=
    match s1 with
    | String c r =>
        if Ascii.eqb c "-" then (true, r)
        else if Ascii.eqb c "+" then (false, r)
        else (false, s1)
    | EmptyString => (false, s1)
    end in
  let s2 := snd signed in
  let based :=
    match s2 with
    | String c (String x r) =>
        if Ascii.eqb c "0" && (Ascii.eqb x "x" || Ascii.eqb x "X")
        then (16, r) else (10, s2)
    | _ => (10, s2)
    end in
  match parse_digits (fst based) (snd based) None with
  | None => NaN
  | Some v => Int (if fst signed then - v else v)
  end.

(** [s.replace(/c/g, by)]: every occurrence of the character [c] is
    replaced. *)
Fixpoint replace_all (c : ascii) (by_ : string) (s : string) : string :=
  match s with
  | EmptyString => EmptyString
  | String x r =>
      if Ascii.eqb x c then by_ ++ replace_all c by_ r
      else String x (replace_all c by_ r)
  end.

End JS.

(** ** The SQL layer: what sql.js does with the statements of the program *)
Module Sql.

(** *** Scalar functions used by the statements *)

(** [LOWER(X)]: SQLite folds the twenty-six upper-case ASCII letters only. *)
Definition lower_char (c : ascii) : ascii :=
  let n := N_of_ascii c in
  if ((65 <=? n) && (n <=? 90))%N then ascii_of_N (n + 32) else c.

Fixpoint LOWER (s : string) : string :=
  match s with
  | EmptyString => EmptyString
  | String c r => String (lower_char c) (LOWER r)
  end.

Definition is_space (c : ascii) : bool := Ascii.eqb c " ".

Fixpoint ltrim (s : string) : string :=
  match s with
  | String c r => if is_space c then ltrim r else s
  | EmptyString => EmptyString
  end.

Fixpoint rtrim (s : string) : string :=
  match s with
  | EmptyString => EmptyString
  | String c r =>
      match rtrim r with
      | EmptyString => if is_space c then EmptyString else String c EmptyString
      | r' => String c r'
      end
  end.

(** [TRIM(X)]: removes spaces (0x20) from both ends. *)
Definition TRIM (s : string) : string := rtrim (ltrim s).

(** The comparison key [LOWER(TRIM(X))] that the repository applies to
    both sides of its equality tests. *)
Definition normalized (s : string) : string := LOWER (TRIM s).
Arguments normalized : simpl never.

(** [X LIKE P] with SQLite's defaults: [%] matches any run of characters,
    [_] exactly one, anything else itself up to ASCII case; no escape
    character.  The first argument is the pattern. *)
Fixpoint like (p s : string) : bool :=
  match p with
  | EmptyString => match s with EmptyString => true | _ => false end
  | String c p' =>
      if Ascii.eqb c "%" then
        (fix skip (t : string) : bool :=
           like p' t || match t with
                        | EmptyString => false
                        | String _ t' => skip t'
                        end) s
      else
        match s with
        | EmptyString => false
        | String d s' =>
            (Ascii.eqb c "_" || Ascii.eqb (lower_char c) (lower_char d))
            && like p' s'
        end
  end.

(** A nullable TEXT operand: NULL makes the comparison NULL, which a
    WHERE clause treats as false. *)
Definition like_null (p : string) (x : option string) : bool :=
  match x with Some s => like p s | None => false end.

(** *** Rows and tables *)

Record Book := {
  bk_id    : Z;
  title    : string;
  author   : string;
  isbn     : option string;
  category : string;
  copies   : Z
}.

Record Category := {
  cat_id : Z;
  name   : string
}.

Record Borrow := {
  b_id        : Z;
  book_id     : Z;
  borrower    : string;
  date_out    : string;
  due_date    : string;
  return_date : option string
}.

Record Setting := {
  key   : string;
  value : string
}.

(** Modelled from the spec: the schema lives in [data/library.db], which
    is a binary file outside the sources.  Section 3 of the specification
    gives the columns above.  Whether [borrows.book_id] is declared
    [REFERENCES books(id)], and with which [ON DELETE] action, cannot be
    read from the program, so the declaration is a field of the database
    image: [None] is a plain integer column. *)
Inductive OnDelete := Restrict | Cascade.

Record Database := {
  books      : list Book;
  categories : list Category;
  borrows    : list Borrow;
  settings   : list Setting;
  borrows_fk : option OnDelete
}.

Definition with_books (d : Database) (l : list Book) : Database :=
  {| books := l; categories := categories d; borrows := borrows d;
     settings := settings d; borrows_fk := borrows_fk d |}.

Definition with_categories (d : Database) (l : list Category) : Database :=
  {| books := books d; categories := l; borrows := borrows d;
     settings := settings d; borrows_fk := borrows_fk d |}.

Definition with_borrows (d : Database) (l : list Borrow) : Database :=
  {| books := books d; categories := categories d; borrows := l;
     settings := settings d; borrows_fk := borrows_fk d |}.

Definition with_settings (d : Database) (l : list Setting) : Database :=
  {| books := books d; categories := categories d; borrows := borrows d;
     settings := l; borrows_fk := borrows_fk d |}.

(** The rowid SQLite gives to a row inserted without an explicit key:
    one more than the largest in the table, 1 for an empty table. *)
Definition next_id (ids : list Z) : Z :=
  match ids with
  | [] => 1
  | i :: rest => fold_right Z.max i rest + 1
  end.

Definition has_book (id : Z) (d : Database) : bool :=
  existsb (fun bk => bk_id bk =? id) (books d).

(** *** The mutating statements issued by [db-library.js] *)

Inductive Stmt :=
(** [INSERT INTO books (title, author, isbn, category, copies) VALUES (?, ?, ?, ?, ?)] *)
| InsertBook (t a i c : string) (n : Z)
(** [UPDATE books SET copies = copies + ? WHERE id = ?]; the two statements
    of the loan cycle, [copies - 1] and [copies + 1], are this one at
    [-1] and [1]. *)
| UpdateCopies (delta id : Z)
(** [UPDATE books SET title = ?, author = ?, category = ? WHERE id = ?] *)
| UpdateBook (t a c : string) (id : Z)
(** [DELETE FROM books WHERE id = ?] *)
| DeleteBook (id : Z)
(** [INSERT INTO categories (name) VALUES (?)] *)
| InsertCategory (n : string)
(** [UPDATE categories SET name = ? WHERE id = ?] *)
| UpdateCategoryName (n : string) (id : Z)
(** [UPDATE books SET category = ? WHERE LOWER(TRIM(category)) = LOWER(TRIM(?))] *)
| UpdateBooksCategory (n old : string)
(** [DELETE FROM categories WHERE id = ?] *)
| DeleteCategory (id : Z)
(** [INSERT INTO borrows (book_id, borrower, date_out, due_date) VALUES (?, ?, ?, ?)] *)
| InsertBorrow (bk : Z) (who out due : string)
(** [UPDATE borrows SET return_date = ? WHERE id = ?] *)
| UpdateReturnDate (ret : string) (id : Z).

(** What one statement leaves behind: the new tables, the number of rows
    it changed, and the rowid of the row it inserted, if it inserted one;
    or SQLite's error, in which case the statement changed nothing. *)
Inductive Exec :=
| Done (d : Database) (changed : Z) (rowid : option Z)
| Failed (msg : string).

Definition count {A} (f : A -> bool) (l : list A) : Z :=
  Z.of_nat (List.length (filter f l)).

Definition set_copies (bk : Book) (n : Z) : Book :=
  {| bk_id := bk_id bk; title := title bk; author := author bk;
     isbn := isbn bk; category := category bk; copies := n |}.

Definition set_category (bk : Book) (c : string) : Book :=
  {| bk_id := bk_id bk; title := title bk; author := author bk;
     isbn := isbn bk; category := c; copies := copies bk |}.

Definition set_return_date (b : Borrow) (r : option string) : Borrow :=
  {| b_id := b_id b; book_id := book_id b; borrower := borrower b;
     date_out := date_out b; due_date := due_date b; return_date := r |}.

(** [UPDATE t SET ... WHERE p]: the rows that satisfy [p] are rewritten
    in place, the others are kept. *)
Definition update {A} (p : A -> bool) (f : A -> A) (l : list A) : list A :=
  map (fun r => if p r then f r else r) l.

(** [DELETE FROM t WHERE p]. *)
Definition delete {A} (p : A -> bool) (l : list A) : list A :=
  filter (fun r => negb (p r)) l.

(** A borrow row that points at one of the book rows selected by [p]. *)
Definition refers_to (p : Book -> bool) (d : Database) (b : Borrow) : bool :=
  existsb (fun bk => p bk && (bk_id bk =? book_id b)) (books d).

(** Deleting book rows under the declared foreign key.  [fk] is the
    connection's [PRAGMA foreign_keys]. *)
Definition delete_books (fk : bool) (p : Book -> bool) (d : Database) : Exec :=
  let gone := count p (books d) in
  match (if fk then borrows_fk d else None) with
  | None => Done (with_books d (delete p (books d))) gone None
  | Some Restrict =>
      if existsb (refers_to p d) (borrows d)
      then Failed "FOREIGN KEY constraint failed"
      else Done (with_books d (delete p (books d))) gone None
  | Some Cascade =>
      Done (with_borrows (with_books d (delete p (books d)))
                         (delete (refers_to p d) (borrows d))) gone None
  end.

Definition exec (fk : bool) (s : Stmt) (d : Database) : Exec :=
  match s with
  | InsertBook t a i c n =>
      let id := next_id (map bk_id (books d)) in
      Done (with_books d (books d ++
              [{| bk_id := id; title := t; author := a; isbn := Some i;
                  category := c; copies := n |}])) 1 (Some id)
  | UpdateCopies delta id =>
      Done (with_books d (update (fun bk => bk_id bk =? id)
                                 (fun bk => set_copies bk (copies bk + delta))
                                 (books d)))
           (count (fun bk => bk_id bk =? id) (books d)) None
  | UpdateBook t a c id =>
      Done (with_books d (update (fun bk => bk_id bk =? id)
              (fun bk => {| bk_id := bk_id bk; title := t; author := a;
                            isbn := isbn bk; category := c; copies := copies bk |})
              (books d)))
           (count (fun bk => bk_id bk =? id) (books d)) None
  | DeleteBook id => delete_books fk (fun bk => bk_id bk =? id) d
  | InsertCategory n =>
      let id := next_id (map cat_id (categories d)) in
      Done (with_categories d (categories d ++ [{| cat_id := id; name := n |}]))
           1 (Some id)
  | UpdateCategoryName n id =>
      Done (with_categories d (update (fun c => cat_id c =? id)
              (fun c => {| cat_id := cat_id c; name := n |}) (categories d)))
           (count (fun c => cat_id c =? id) (categories d)) None
  | UpdateBooksCategory n old =>
      let hit bk := (normalized (category bk) =? normalized old)%string in
      Done (with_books d (update hit (fun bk => set_category bk n) (books d)))
           (count hit (books d)) None
  | DeleteCategory id =>
      Done (with_categories d (delete (fun c => cat_id c =? id) (categories d)))
           (count (fun c => cat_id c =? id) (categories d)) None
  | InsertBorrow bk who out due =>
      let id := next_id (map b_id (borrows d)) in
      match (if fk then borrows_fk d else None) with
      | Some _ =>
          if has_book bk d
          then Done (with_borrows d (borrows d ++
                 [{| b_id := id; book_id := bk; borrower := who; date_out := out;
                     due_date := due; return_date := None |}])) 1 (Some id)
          else Failed "FOREIGN KEY constraint failed"
      | None =>
          Done (with_borrows d (borrows d ++
                 [{| b_id := id; book_id := bk; borrower := who; date_out := out;
                     due_date := due; return_date := None |}])) 1 (Some id)
      end
  | UpdateReturnDate ret id =>
      Done (with_borrows d (update (fun b => b_id b =? id)
              (fun b => set_return_date b (Some ret)) (borrows d)))
           (count (fun b => b_id b =? id) (borrows d)) None
  end.

(** *** The sql.js [Database] object *)

(** A serialised database file, as [export()] produces it and as the
    constructor reads it: either the image of some database, or bytes
    that SQLite does not accept as a database. *)
Inductive Blob :=
| Image (d : Database)
| Malformed (bytes : string).

(** The handle held in [_db].  [saved] is the state to which ROLLBACK
    returns, present exactly while a transaction is open. *)
Record Conn := {
  data              : Database;
  saved             : option Database;
  open              : bool;
  foreign_keys      : bool;
  last_insert_rowid : Z;
  rows_modified     : Z
}.

Inductive Command :=
| BEGIN
| COMMIT
| ROLLBACK
| PRAGMA_foreign_keys_ON
| Statement (s : Stmt).

(** [new SQL.Database(uint8)]: the handle on a parsed image, foreign keys
    off as SQLite has them by default.  Bytes that are not a database make
    the parse step fail; the failure is placed in the constructor, the first
    program point at which it can surface. *)
Definition Database_new (b : Blob) : Outcome Conn :=
  match b with
  | Image d =>
      Returned {| data := d; saved := None; open := true; foreign_keys := false;
                  last_insert_rowid := 0; rows_modified := 0 |}
  | Malformed _ => Threw (Err "file is not a database")
  end.

Definition set_data (c : Conn) (d : Database) (tx : option Database) : Conn :=
  {| data := d; saved := tx; open := open c; foreign_keys := foreign_keys c;
     last_insert_rowid := last_insert_rowid c; rows_modified := rows_modified c |}.

(** [db.run(sql, params)]: the handle after the call and how the call
    ended.  A statement that fails leaves the handle as it was. *)
Definition db_run (q : Command) (c : Conn) : Conn * Outcome unit :=
  if negb (open c) then (c, Threw (Err "Database closed")) else
  match q with
  | BEGIN =>
      match saved c with
      | Some _ => (c, Threw (Err "cannot start a transaction within a transaction"))
      | None => (set_data c (data c) (Some (data c)), Returned tt)
      end
  | COMMIT =>
      match saved c with
      | Some _ => (set_data c (data c) None, Returned tt)
      | None => (c, Threw (Err "cannot commit - no transaction is active"))
      end
  | ROLLBACK =>
      match saved c with
      | Some d0 => (set_data c d0 None, Returned tt)
      | None => (c, Threw (Err "cannot rollback - no transaction is active"))
      end
  | PRAGMA_foreign_keys_ON =>
      (* the pragma is a no-op inside a transaction *)
      match saved c with
      | Some _ => (c, Returned tt)
      | None =>
          ({| data := data c; saved := None; open := open c; foreign_keys := true;
              last_insert_rowid := last_insert_rowid c;
              rows_modified := rows_modified c |}, Returned tt)
      end
  | Statement s =>
      match exec (foreign_keys c) s (data c) with
      | Done d n rowid =>
          ({| data := d; saved := saved c; open := open c;
              foreign_keys := foreign_keys c;
              last_insert_rowid :=
                match rowid with Some i => i | None => last_insert_rowid c end;
              rows_modified := n |}, Returned tt)
      | Failed msg => (c, Threw (Err msg))
      end
  end.

(** [db.export()] *)
Definition db_export (c : Conn) : Outcome Blob :=
  if open c then Returned (Image (data c)) else Threw (Err "Database closed").

(** [db.close()]: an open transaction is rolled back; closing twice is
    harmless. *)
Definition db_close (c : Conn) : Conn :=
  {| data := match saved c with Some d0 => d0 | None => data c end;
     saved := None; open := false; foreign_keys := foreign_keys c;
     last_insert_rowid := last_insert_rowid c; rows_modified := rows_modified c |}.

End Sql.

(** ** [db-core.js]: the engine *)
Module DB.
Import Sql.

(** The module-level variables of [db-core.js] together with the single
    IndexedDB entry (store [db_file], key [library.db]) that the engine
    reads and writes. *)
Record Engine := {
  _db    : option Conn;
  _SQL   : bool;
  _dirty : bool;
  idb    : option Blob
}.

(** Computations of the program: they read and update the engine and
    either return or throw.  The effects made before a throw stay. *)
Definition M (A : Type) : Type := Engine -> Engine * Outcome A.

Definition ret {A} (a : A) : M A := fun s => (s, Returned a).

Definition throw {A} (e : Error) : M A := fun s => (s, Threw e).

Definition bind {A B} (m : M A) (k : A -> M B) : M B :=
  fun s => match m s with
           | (s', Returned a) => k a s'
           | (s', Threw e) => (s', Threw e)
           end.

(** [try { m } catch (err) { h err }] *)
Definition try_catch {A} (m : M A) (h : Error -> M A) : M A :=
  fun s => match m s with
           | (s', Threw e) => h e s'
           | r => r
           end.

Declare Scope js_scope.
Delimit Scope js_scope with js.
Notation "x <- m ;; k" := (bind m (fun x => k))
  (at level 100, m at next level, right associativity) : js_scope.
Notation "m ;; k" := (bind m (fun _ => k))
  (at level 100, right associativity) : js_scope.
Open Scope js_scope.

Definition set_db (c : option Conn) : M unit :=
  fun s => ({| _db := c; _SQL := _SQL s; _dirty := _dirty s; idb := idb s |},
            Returned tt).

Definition set_dirty (b : bool) : M unit :=
  fun s => ({| _db := _db s; _SQL := _SQL s; _dirty := b; idb := idb s |},
            Returned tt).

(** [if (!_db) throw new Error('[DB] Not initialised.')] *)
Definition require_db : M Conn :=
  fun s => match _db s with
           | Some c => (s, Returned c)
           | None => (s, Threw (Err "[DB] Not initialised."))
           end.

(** [_db.run(sql, params)] on the shared handle: the handle is updated
    in place whether or not the call throws.  A null [_db] is a
    [TypeError]. *)
Definition _db_run (q : Command) : M unit :=
  fun s => match _db s with
           | Some c =>
               let (c', r) := db_run q c in
               ({| _db := Some c'; _SQL := _SQL s; _dirty := _dirty s; idb := idb s |}, r)
           | None => (s, Threw (Err "Cannot read properties of null"))
           end.

(** [_saveToIDB(uint8)] *)
Definition _saveToIDB (b : Blob) : M unit :=
  fun s => ({| _db := _db s; _SQL := _SQL s; _dirty := _dirty s; idb := Some b |},
            Returned tt).

(** [_db.export()] *)
Definition _db_export : M Blob :=
  fun s => match _db s with
           | Some c => (s, db_export c)
           | None => (s, Threw (Err "Cannot read properties of null"))
           end.

(** [persist()] *)
Definition persist : M unit :=
  fun s =>
    match _db s with
    | None => (s, Returned tt)
    | Some _ =>
        if negb (_dirty s) then (s, Returned tt)
        else (b <- _db_export ;; _saveToIDB b ;; set_dirty false) s
    end.

(** [query(sql, params)]: the SELECT is given by its meaning, a function
    from the tables to the rows it returns. *)
Definition query {A} (select : Database -> list A) : M (list A) :=
  c <- require_db ;;
  if open c then ret (select (data c)) else throw (Err "Database closed").

(** The pair returned by [run] and by the transaction-scoped executor. *)
Record RunResult := {
  changes         : Z;
  lastInsertRowid : Z
}.

Definition run_result : M RunResult :=
  c <- require_db ;;
  ret {| changes := rows_modified c; lastInsertRowid := last_insert_rowid c |}.

(** [run(sql, params)] *)
Definition run (q : Stmt) : M RunResult :=
  require_db ;;
  _db_run (Statement q) ;;
  set_dirty true ;;
  r <- run_result ;;
  persist ;;
  ret r.

(** [_runInTx(sql, params)] *)
Definition _runInTx (q : Stmt) : M RunResult :=
  _db_run (Statement q) ;;
  run_result.

(** The body handed to [transaction]: a function of the executor [tx].
    What it can do with the engine is call [tx], look at what the call
    returned, and in the end return or throw. *)
Inductive TxBody :=
| Return
| Raise (e : Error)
| Tx (q : Stmt) (k : RunResult -> TxBody).

(** [await fn(_runInTx)] *)
Fixpoint call_body (fn : TxBody) : M unit :=
  match fn with
  | Return => ret tt
  | Raise e => throw e
  | Tx q k => r <- _runInTx q ;; call_body (k r)
  end.

(** [transaction(fn)] *)
Definition transaction (fn : TxBody) : M unit :=
  require_db ;;
  try_catch
    (_db_run BEGIN ;;
     call_body fn ;;
     _db_run COMMIT ;;
     set_dirty true ;;
     persist)
    (fun err => _db_run ROLLBACK ;; throw err).

(** [restoreDB(file)]; [file.arrayBuffer()] is the blob itself. *)
Definition restoreDB (file : Blob) : M unit :=
  let uint8 := file in
  (fun s => match _db s with
            | Some c => set_db (Some (db_close c)) s
            | None => (s, Returned tt)
            end) ;;
  (fun s => if _SQL s then
              match Database_new uint8 with
              | Returned c => set_db (Some c) s
              | Threw e => (s, Threw e)
              end
            else (s, Threw (Err "Cannot read properties of null"))) ;;
  _db_run PRAGMA_foreign_keys_ON ;;
  b <- _db_export ;;
  _saveToIDB b.

(** The live database as a caller of the engine finds it between two
    operations: a handle is installed, it is open, and no transaction is
    in progress on it. *)
Definition live (s : Engine) : option Database :=
  match _db s with
  | Some c =>
      match saved c with
      | None => if open c then Some (data c) else None
      | Some _ => None
      end
  | None => None
  end.

(** [PRAGMA foreign_keys] of the installed handle. *)
Definition pragma (s : Engine) : bool :=
  match _db s with
  | Some c => foreign_keys c
  | None => false
  end.


(** The handle just after BEGIN. *)
Definition begun (c : Conn) : Conn := set_data c (data c) (Some (data c)).

(** The engine with another handle in [_db]. *)
Definition with_conn (s : Engine) (c : Conn) : Engine :=
  {| _db := Some c; _SQL := _SQL s; _dirty := _dirty s; idb := idb s |}.

(** The engine once the handle [c] has been persisted. *)
Definition persisted (s : Engine) (c : Conn) : Engine :=
  {| _db := Some c; _SQL := _SQL s; _dirty := false; idb := Some (Image (data c)) |}.

Definition result_of (c : Conn) : RunResult :=
  {| changes := rows_modified c; lastInsertRowid := last_insert_rowid c |}.

(** What a body does to the handle alone; [call_body] is shown below to
    do exactly this to [_db] and nothing to the rest of the engine. *)
Fixpoint body_run (fn : TxBody) (c : Conn) : Conn * Outcome unit :=
  match fn with
  | Return => (c, Returned tt)
  | Raise e => (c, Threw e)
  | Tx q k =>
      match db_run (Statement q) c with
      | (c', Returned _) => body_run (k (result_of c')) c'
      | (c', Threw e) => (c', Threw e)
      end
  end.

(** How the body ends when it is run inside a transaction begun on [s]. *)
Definition body_outcome (fn : TxBody) (s : Engine) : Outcome unit :=
  snd ((_db_run BEGIN ;; call_body fn) s).

(** A body that issues the statements of a list in order and looks at none
    of their results. *)
Fixpoint statements (qs : list Stmt) : TxBody :=
  match qs with
  | [] => Return
  | q :: rest => Tx q (fun _ => statements rest)
  end.

(** The statements of a list applied one after the other to the tables,
    up to the first that SQLite rejects. *)
Fixpoint exec_all (fk : bool) (qs : list Stmt) (d : Database) : Outcome Database :=
  match qs with
  | [] => Returned d
  | q :: rest =>
      match exec fk q d with
      | Done d' _ _ => exec_all fk rest d'
      | Failed msg => Threw (Err msg)
      end
  end.

(** *** Utilities *)

(** What [new Date()] gives [today]: the year, the month counted from 0
    and the day of the month of the local calendar. *)
Record Date := {
  getFullYear : Z;
  getMonth    : Z;
  getDate     : Z
}.

(** [today()], of the date that [new Date()] returned. *)
Definition today (d : Date) : string :=
  JS.Number_toString (getFullYear d) ++ "-"
  ++ JS.padStart 2 "0" (JS.Number_toString (getMonth d + 1)) ++ "-"
  ++ JS.padStart 2 "0" (JS.Number_toString (getDate d)).

(** A date of the calendar with a year of four digits. *)
Definition calendar (d : Date) : Prop :=
  1000 <= getFullYear d <= 9999 /\ 0 <= getMonth d <= 11 /\ 1 <= getDate d <= 31.

(** [d1] is an earlier day than [d2]. *)
Definition earlier (d1 d2 : Date) : Prop :=
  getFullYear d1 < getFullYear d2
  \/ (getFullYear d1 = getFullYear d2
      /\ (getMonth d1 < getMonth d2
          \/ (getMonth d1 = getMonth d2 /\ getDate d1 < getDate d2))).

End DB.

(** ** [db-library.js]: the catalogue and loan repository *)
Module DBLib.
Import Sql DB.

(** *** Books *)

(** [SELECT * FROM books WHERE id = ?] *)
Definition book_by_id (id : Z) (d : Database) : list Book :=
  filter (fun bk => bk_id bk =? id) (books d).

(** [getBook(id)] *)
Definition getBook (id : Z) : M (option Book) :=
  rows <- query (book_by_id id) ;;
  ret (hd_error rows).

(** [LOWER(TRIM(title)) = LOWER(TRIM(?)) AND LOWER(TRIM(isbn)) = LOWER(TRIM(?))];
    a NULL isbn makes the conjunction NULL. *)
Definition same_title_isbn (t i : string) (bk : Book) : bool :=
  (normalized (title bk) =? normalized t)%string
  && match isbn bk with
     | Some x => (normalized x =? normalized i)%string
     | None => false
     end.

Definition books_like (t i : string) (d : Database) : list Book :=
  filter (same_title_isbn t i) (books d).

(** The object [{ id, merged, copies }] returned by [addBook]. *)
Record Added := {
  added_id     : Z;
  added_merged : bool;
  added_copies : Z
}.

(** [addBook({ title, author, isbn = '', category, copies = 1 })]; an
    argument left out is [None] and takes its default. *)
Definition addBook (title author : string) (isbn : option string)
           (category : string) (copies : option Z) : M Added :=
  let isbn := match isbn with Some i => i | None => "" end in
  let copies := match copies with Some n => n | None => 1 end in
  rows <- query (books_like title isbn) ;;
  match rows with
  | existing :: _ =>
      run (UpdateCopies copies (bk_id existing)) ;;
      ret {| added_id := bk_id existing; added_merged := true;
             added_copies := Sql.copies existing + copies |}
  | [] =>
      result <- run (InsertBook title author isbn category copies) ;;
      ret {| added_id := lastInsertRowid result; added_merged := false;
             added_copies := copies |}
  end.

(** [updateBook(id, { title, author, category })] *)
Definition updateBook (id : Z) (title author category : string) : M unit :=
  run (UpdateBook title author category id) ;; ret tt.

Definition is_null {A} (x : option A) : bool :=
  match x with None => true | Some _ => false end.

(** [SELECT id FROM borrows WHERE book_id = ? AND return_date IS NULL LIMIT 1] *)
Definition active_loan_of (id : Z) (d : Database) : list Z :=
  firstn 1 (map b_id (filter (fun b => (book_id b =? id) && is_null (return_date b))
                             (borrows d))).

(** [deleteBook(id)] *)
Definition deleteBook (id : Z) : M unit :=
  active <- query (active_loan_of id) ;;
  match active with
  | _ :: _ => throw (Err "Book has active loans — return all copies first.")
  | [] => run (DeleteBook id) ;; ret tt
  end.

(** *** Categories *)

(** [SELECT id FROM categories WHERE LOWER(TRIM(name)) = LOWER(TRIM(?))] *)
Definition category_named (n : string) (d : Database) : list Z :=
  map cat_id (filter (fun c => (normalized (name c) =? normalized n)%string)
                     (categories d)).

(** [addCategory(name)] *)
Definition addCategory (n : string) : M Z :=
  rows <- query (category_named n) ;;
  match rows with
  | _ :: _ => throw (Err "Category already exists.")
  | [] => result <- run (InsertCategory n) ;; ret (lastInsertRowid result)
  end.

(** [SELECT id FROM categories
     WHERE LOWER(TRIM(name)) = LOWER(TRIM(?)) AND id != ?] *)
Definition other_category_named (n : string) (id : Z) (d : Database) : list Z :=
  map cat_id
      (filter (fun c => (normalized (name c) =? normalized n)%string
                        && negb (cat_id c =? id))
              (categories d)).

(** [SELECT name FROM categories WHERE id = ?] *)
Definition category_name (id : Z) (d : Database) : list string :=
  map name (filter (fun c => cat_id c =? id) (categories d)).

(** [updateCategory(id, newName)] *)
Definition updateCategory (id : Z) (newName : string) : M unit :=
  dup <- query (other_category_named newName id) ;;
  match dup with
  | _ :: _ => throw (Err "Category name already exists.")
  | [] =>
      old <- query (category_name id) ;;
      match old with
      | [] => throw (Err "Category not found.")
      | old_name :: _ =>
          transaction
            (Tx (UpdateCategoryName newName id) (fun _ =>
             Tx (UpdateBooksCategory newName old_name) (fun _ =>
             Return)))
      end
  end.

(** [SELECT id FROM books WHERE LOWER(TRIM(category)) = LOWER(TRIM(?)) LIMIT 1] *)
Definition book_in_category (n : string) (d : Database) : list Z :=
  firstn 1 (map bk_id
                (filter (fun bk => (normalized (category bk) =? normalized n)%string)
                        (books d))).

(** [deleteCategory(id)] *)
Definition deleteCategory (id : Z) : M unit :=
  cat <- query (category_name id) ;;
  match cat with
  | [] => throw (Err "Category not found.")
  | cat_name :: _ =>
      used <- query (book_in_category cat_name) ;;
      match used with
      | _ :: _ => throw (Err "Category is used by one or more books.")
      | [] => run (DeleteCategory id) ;; ret tt
      end
  end.

(** *** Borrows *)

(** [recordBorrow({ bookId, borrower, dateOut, dueDate })] *)
Definition recordBorrow (bookId : Z) (borrower dateOut dueDate : string) : M unit :=
  book <- getBook bookId ;;
  match book with
  | None => throw (Err "Book not found.")
  | Some book =>
      if Sql.copies book <? 1 then throw (Err "No copies available.")
      else
        transaction
          (Tx (InsertBorrow bookId borrower dateOut dueDate) (fun _ =>
           Tx (UpdateCopies (-1) bookId) (fun _ =>
           Return)))
  end.

(** [recordReturn({ borrowId, bookId, returnDate })] *)
Definition recordReturn (borrowId bookId : Z) (returnDate : string) : M unit :=
  transaction
    (Tx (UpdateReturnDate returnDate borrowId) (fun _ =>
     Tx (UpdateCopies 1 bookId) (fun _ =>
     Return))).

(** [FROM borrows b JOIN books bk ON bk.id = b.book_id]: every borrow row
    paired with every book row that carries its [book_id]. *)
Definition borrows_join_books (d : Database) : list (Borrow * Book) :=
  flat_map (fun b => map (fun bk => (b, bk))
                         (filter (fun bk => bk_id bk =? book_id b) (books d)))
           (borrows d).

(** [ORDER BY]: a stable insertion sort; [before x y] says that [x] must
    come strictly before [y]. *)
Fixpoint insert_sorted {A} (before : A -> A -> bool) (x : A) (l : list A) : list A :=
  match l with
  | [] => [x]
  | y :: r => if before y x then y :: insert_sorted before x r else x :: l
  end.

Definition order_by {A} (before : A -> A -> bool) (l : list A) : list A :=
  fold_right (insert_sorted before) [] l.

(** A row of the history listing. *)
Record HistoryRow := {
  h_id          : Z;
  h_borrower    : string;
  h_date_out    : string;
  h_due_date    : string;
  h_return_date : option string;
  h_book_title  : string;
  h_book_id     : Z
}.

(** The SELECT of [getAllBorrows], [t] being the pattern. *)
Definition history (t : string) (d : Database) : list HistoryRow :=
  map (fun r : Borrow * Book =>
         let (b, bk) := r in
         {| h_id := b_id b; h_borrower := borrower b; h_date_out := date_out b;
            h_due_date := due_date b; h_return_date := return_date b;
            h_book_title := title bk; h_book_id := bk_id bk |})
      (order_by (fun x y => String.ltb (date_out (fst y)) (date_out (fst x)))
         (filter (fun r : Borrow * Book =>
                    let (b, bk) := r in
                    like t (borrower b) || like t (title bk) || like_null t (isbn bk))
                 (borrows_join_books d))).

(** [getAllBorrows(search = '')] *)
Definition getAllBorrows (search : option string) : M (list HistoryRow) :=
  let search := match search with Some x => x | None => "" end in
  let t := "%" ++ search ++ "%" in
  query (history t).

(** *** Stats *)

(** [DB.query(...)[0]?.n || 0] *)
Definition first_n (rows : list Z) : Z :=
  match rows with
  | n :: _ => n
  | [] => 0
  end.

Definition is_open (b : Borrow) : bool := is_null (return_date b).

(** [SELECT COALESCE(SUM(copies),0) AS n FROM books] *)
Definition sum_copies (d : Database) : list Z :=
  [fold_right Z.add 0 (map Sql.copies (books d))].

(** [SELECT COUNT( * ) AS n FROM books] *)
Definition count_books (d : Database) : list Z :=
  [Z.of_nat (List.length (books d))].

(** [SELECT COUNT( * ) AS n FROM borrows WHERE return_date IS NULL] *)
Definition count_active (d : Database) : list Z :=
  [count is_open (borrows d)].

(** [SELECT COUNT( * ) AS n FROM borrows WHERE return_date IS NOT NULL] *)
Definition count_returned (d : Database) : list Z :=
  [count (fun b => negb (is_open b)) (borrows d)].

Definition is_overdue (today : string) (b : Borrow) : bool :=
  is_open b && String.ltb (due_date b) today.

(** [SELECT COUNT( * ) AS n FROM borrows
     WHERE return_date IS NULL AND due_date < ?] *)
Definition count_overdue (today : string) (d : Database) : list Z :=
  [count (is_overdue today) (borrows d)].

Record TopBook := {
  top_title    : string;
  top_author   : string;
  borrow_count : Z
}.

(** [GROUP BY b.book_id]: the distinct keys in ascending order, each with
    its rows of the join. *)
Definition group_by_book (j : list (Borrow * Book)) : list (list (Borrow * Book)) :=
  map (fun k => filter (fun r : Borrow * Book => book_id (fst r) =? k) j)
      (order_by Z.ltb (nodup Z.eq_dec (map (fun r : Borrow * Book => book_id (fst r)) j))).

(** The SELECT of [topBooks]. *)
Definition top_books (d : Database) : list TopBook :=
  firstn 5
    (order_by (fun x y => borrow_count y <? borrow_count x)
       (flat_map (fun g : list (Borrow * Book) =>
                    match g with
                    | (_, bk) :: _ =>
                        [{| top_title := title bk; top_author := author bk;
                            borrow_count := Z.of_nat (List.length g) |}]
                    | [] => []
                    end)
                 (group_by_book (borrows_join_books d)))).

Record DueRow := {
  due_borrower : string;
  due_title    : string
}.

(** The SELECT of [dueToday]. *)
Definition due_on (today : string) (d : Database) : list DueRow :=
  map (fun r : Borrow * Book =>
         {| due_borrower := borrower (fst r); due_title := title (snd r) |})
      (filter (fun r : Borrow * Book =>
                 is_open (fst r) && (due_date (fst r) =? today)%string)
              (borrows_join_books d)).

Record Stats := {
  totalCopies   : Z;
  totalTitles   : Z;
  activeLoans   : Z;
  returnedLoans : Z;
  overdueCount  : Z;
  topBooks      : list TopBook;
  dueToday      : list DueRow
}.

(** [getStats()]; [today] is what [DB.today()] reads from the clock. *)
Definition getStats (today : string) : M Stats :=
  totalCopies   <- query sum_copies ;;
  totalTitles   <- query count_books ;;
  activeLoans   <- query count_active ;;
  returnedLoans <- query count_returned ;;
  overdueCount  <- query (count_overdue today) ;;
  topBooks      <- query top_books ;;
  dueToday      <- query (due_on today) ;;
  ret {| totalCopies := first_n totalCopies; totalTitles := first_n totalTitles;
         activeLoans := first_n activeLoans; returnedLoans := first_n returnedLoans;
         overdueCount := first_n overdueCount; topBooks := topBooks;
         dueToday := dueToday |}.

(** *** Auxiliary definitions for the statements below *)

(** The tables after the two statements of [updateCategory]. *)
Definition renamed (id : Z) (newName old_name : string) (d : Database) : Database :=
  with_books
    (with_categories d
       (update (fun c => cat_id c =? id)
               (fun c => {| cat_id := cat_id c; name := newName |}) (categories d)))
    (update (fun bk => (normalized (Sql.category bk) =? normalized old_name)%string)
            (fun bk => set_category bk newName) (books d)).

(** The invariant of the categories table in the data model: a name,
    compared under [LOWER(TRIM(.))], belongs to one category id. *)
Definition names_unique (d : Database) : Prop :=
  forall c1 c2,
    In c1 (categories d) -> In c2 (categories d) ->
    normalized (name c1) = normalized (name c2) -> cat_id c1 = cat_id c2.

(** The arguments of one call of [addBook]. *)
Record BookArgs := {
  a_title    : string;
  a_author   : string;
  a_isbn     : option string;
  a_category : string;
  a_copies   : option Z
}.

Definition isbn_of (a : BookArgs) : string :=
  match a_isbn a with Some i => i | None => "" end.

Definition copies_of (a : BookArgs) : Z :=
  match a_copies a with Some n => n | None => 1 end.


(** A sequence of [addBook] calls, each awaited before the next. *)
Fixpoint addBooks (calls : list BookArgs) : M (list Added) :=
  match calls with
  | [] => ret []
  | a :: rest =>
      r <- addBook (a_title a) (a_author a) (a_isbn a) (a_category a) (a_copies a) ;;
      rs <- addBooks rest ;;
      ret (r :: rs)
  end.

(** *** The remaining queries *)

(** [SELECT * FROM books ORDER BY title ASC] *)
Definition all_books (d : Database) : list Book :=
  order_by (fun x y => String.ltb (title x) (title y)) (books d).

(** [getAllBooks()] *)
Definition getAllBooks : M (list Book) := query all_books.

(** [SELECT * FROM books
     WHERE title LIKE ? OR author LIKE ? OR isbn LIKE ? OR category LIKE ?
     ORDER BY title ASC] *)
Definition books_matching (t : string) (d : Database) : list Book :=
  order_by (fun x y => String.ltb (title x) (title y))
    (filter (fun bk => like t (title bk) || like t (author bk)
                       || like_null t (isbn bk) || like t (Sql.category bk))
            (books d)).

(** [searchBooks(term)] *)
Definition searchBooks (term : string) : M (list Book) :=
  let t := "%" ++ term ++ "%" in
  query (books_matching t).

(** [SELECT * FROM categories ORDER BY name ASC] *)
Definition all_categories (d : Database) : list Category :=
  order_by (fun x y => String.ltb (name x) (name y)) (categories d).

(** [getAllCategories()] *)
Definition getAllCategories : M (list Category) := query all_categories.

(** A row of the listings of open loans. *)
Record ActiveRow := {
  act_id         : Z;
  act_borrower   : string;
  act_date_out   : string;
  act_due_date   : string;
  act_book_id    : Z;
  act_book_title : string
}.

Definition active_row (r : Borrow * Book) : ActiveRow :=
  {| act_id := b_id (fst r); act_borrower := borrower (fst r);
     act_date_out := date_out (fst r); act_due_date := due_date (fst r);
     act_book_id := bk_id (snd r); act_book_title := title (snd r) |}.

(** The SELECT of [getActiveBorrows]:
    [... FROM borrows b JOIN books bk ON bk.id = b.book_id
     WHERE b.return_date IS NULL ORDER BY b.due_date ASC] *)
Definition active_borrows (d : Database) : list ActiveRow :=
  map active_row
      (order_by (fun x y => String.ltb (due_date (fst x)) (due_date (fst y)))
         (filter (fun r : Borrow * Book => is_open (fst r))
                 (borrows_join_books d))).

(** [getActiveBorrows()] *)
Definition getActiveBorrows : M (list ActiveRow) := query active_borrows.

(** The same SELECT with [AND b.borrower = ?]. *)
Definition active_borrows_of (who : string) (d : Database) : list ActiveRow :=
  map active_row
      (order_by (fun x y => String.ltb (due_date (fst x)) (due_date (fst y)))
         (filter (fun r : Borrow * Book =>
                    is_open (fst r) && (borrower (fst r) =? who)%string)
                 (borrows_join_books d))).

(** [getActiveBorrowsByBorrower(borrower)] *)
Definition getActiveBorrowsByBorrower (who : string) : M (list ActiveRow) :=
  query (active_borrows_of who).

(** [SELECT DISTINCT borrower FROM borrows
     WHERE return_date IS NULL ORDER BY borrower ASC] *)
Definition open_borrowers (d : Database) : list string :=
  order_by String.ltb
    (nodup string_dec (map borrower (filter is_open (borrows d)))).

(** [getUniqueBorrowers()]: the rows, each reduced to its one column. *)
Definition getUniqueBorrowers : M (list string) := query open_borrowers.

(** [SELECT value FROM settings WHERE key = ?] *)
Definition setting_value (k : string) (d : Database) : list string :=
  map value (filter (fun x => (key x =? k)%string) (settings d)).

(** [getSetting(key)] *)
Definition getSetting (k : string) : M (option string) :=
  rows <- query (setting_value k) ;;
  ret (hd_error rows).

(** *** Sequences of calls *)

(** One call of a mutating operation of the repository. *)
Inductive Call :=
| Call_addBook (a : BookArgs)
| Call_updateBook (id : Z) (title author category : string)
| Call_deleteBook (id : Z)
| Call_addCategory (n : string)
| Call_updateCategory (id : Z) (newName : string)
| Call_deleteCategory (id : Z)
| Call_recordBorrow (bookId : Z) (who dateOut dueDate : string)
| Call_recordReturn (borrowId bookId : Z) (returnDate : string).

Definition perform (c : Call) : M unit :=
  match c with
  | Call_addBook a =>
      addBook (a_title a) (a_author a) (a_isbn a) (a_category a) (a_copies a) ;; ret tt
  | Call_updateBook id t a c => updateBook id t a c
  | Call_deleteBook id => deleteBook id
  | Call_addCategory n => addCategory n ;; ret tt
  | Call_updateCategory id n => updateCategory id n
  | Call_deleteCategory id => deleteCategory id
  | Call_recordBorrow bk who out due => recordBorrow bk who out due
  | Call_recordReturn b bk ret_ => recordReturn b bk ret_
  end.

(** The calls made one after the other; as the page does, a call that
    throws is reported and the next one is made on the engine as the failed
    call left it. *)
Definition session (calls : list Call) (s : Engine) : Engine :=
  fold_left (fun s c => fst (perform c s)) calls s.

(** Rows are identified by their ids. *)
Definition ids_unique (d : Database) : Prop :=
  NoDup (map bk_id (books d))
  /\ NoDup (map cat_id (categories d))
  /\ NoDup (map b_id (borrows d)).

Definition copies_nonneg (d : Database) : Prop :=
  forall bk, In bk (books d) -> 0 <= Sql.copies bk.

Definition consistent (d : Database) : Prop :=
  ids_unique d /\ copies_nonneg d /\ names_unique d.

(** What the callers see to: no book is added with a negative number of
    copies. *)
Definition sensible (c : Call) : Prop :=
  match c with
  | Call_addBook a => 0 <= copies_of a
  | _ => True
  end.

(** The copies of a book on the shelf and out on loan. *)
Definition on_shelf (id : Z) (d : Database) : Z :=
  fold_right Z.add 0 (map Sql.copies (filter (fun bk => bk_id bk =? id) (books d))).

Definition on_loan (id : Z) (d : Database) : Z :=
  count (fun b => is_open b && (book_id b =? id)) (borrows d).

(** *** What a search term selects *)

(** The characters that [LIKE] reads as wild cards. *)
Fixpoint has_wildcard (s : string) : bool :=
  match s with
  | EmptyString => false
  | String c r => Ascii.eqb c "%" || Ascii.eqb c "_" || has_wildcard r
  end.

(** [term] occurs in [s], up to the case of the ASCII letters. *)
Definition occurs_in (term s : string) : Prop :=
  exists pre mid post, s = pre ++ mid ++ post /\ LOWER mid = LOWER term.

(** The four columns that [searchBooks] looks at. *)
Definition book_mentions (term : string) (bk : Book) : Prop :=
  occurs_in term (title bk)
  \/ occurs_in term (author bk)
  \/ (exists i, isbn bk = Some i /\ occurs_in term i)
  \/ occurs_in term (Sql.category bk).

(** The three columns that [getAllBorrows] looks at. *)
Definition loan_mentions (term : string) (b : Borrow) (bk : Book) : Prop :=
  occurs_in term (borrower b)
  \/ occurs_in term (title bk)
  \/ (exists i, isbn bk = Some i /\ occurs_in term i).

End DBLib.

(** ** [notification.js]: the overdue alerts *)
Module Notify.
Import Sql DB DBLib.

Definition KEYS_ASKED : string := "gnoke_notif_permission_asked".
Definition KEYS_LAST_FIRED : string := "gnoke_notif_last_fired".
Definition KEYS_MUTED_UNTIL : string := "gnoke_notif_muted_until".

Definition HOUR_MS : Z := 60 * 60 * 1000.
Definition DAY_MS : Z := 24 * HOUR_MS.
Definition ASK_GAP_MS : Z := 7 * DAY_MS.

(** [Notification.permission] *)
Inductive Permission :=
| granted
| default
| denied.

(** A [Notification] object, by its title and body; icon, badge and tag are
    the same for all of them. *)
Record Notification := {
  n_title : string;
  n_body  : string
}.

(** The button [#notif-mute-btn]. *)
Record Button := {
  textContent  : string;
  btn_title    : string;
  class_muted  : bool;
  display_none : bool
}.

(** What the notifier reads and writes in the browser: [localStorage], the
    successive values of [Date.now()], of which [ticks] have been read, the
    [Notification] interface (whether [window] has it, its permission,
    whether its constructor works on this platform), the objects
    constructed so far, the mute button, and whether the document holds the
    card [#notif-prompt] and an element [.pages]. *)
Record Page := {
  localStorage           : list (string * string);
  clock                  : nat -> Z;
  ticks                  : nat;
  Notification_in_window : bool;
  permission             : Permission;
  constructible          : bool;
  notifications          : list Notification;
  button                 : option Button;
  prompt                 : bool;
  pages                  : bool
}.

Definition with_storage (p : Page) (l : list (string * string)) : Page :=
  {| localStorage := l; clock := clock p; ticks := ticks p;
     Notification_in_window := Notification_in_window p; permission := permission p;
     constructible := constructible p; notifications := notifications p;
     button := button p; prompt := prompt p; pages := pages p |}.

Definition with_ticks (p : Page) (n : nat) : Page :=
  {| localStorage := localStorage p; clock := clock p; ticks := n;
     Notification_in_window := Notification_in_window p; permission := permission p;
     constructible := constructible p; notifications := notifications p;
     button := button p; prompt := prompt p; pages := pages p |}.

Definition with_permission (p : Page) (x : Permission) : Page :=
  {| localStorage := localStorage p; clock := clock p; ticks := ticks p;
     Notification_in_window := Notification_in_window p; permission := x;
     constructible := constructible p; notifications := notifications p;
     button := button p; prompt := prompt p; pages := pages p |}.

Definition with_notifications (p : Page) (l : list Notification) : Page :=
  {| localStorage := localStorage p; clock := clock p; ticks := ticks p;
     Notification_in_window := Notification_in_window p; permission := permission p;
     constructible := constructible p; notifications := l;
     button := button p; prompt := prompt p; pages := pages p |}.

Definition with_button (p : Page) (b : option Button) : Page :=
  {| localStorage := localStorage p; clock := clock p; ticks := ticks p;
     Notification_in_window := Notification_in_window p; permission := permission p;
     constructible := constructible p; notifications := notifications p;
     button := b; prompt := prompt p; pages := pages p |}.

Definition with_prompt (p : Page) (b : bool) : Page :=
  {| localStorage := localStorage p; clock := clock p; ticks := ticks p;
     Notification_in_window := Notification_in_window p; permission := permission p;
     constructible := constructible p; notifications := notifications p;
     button := button p; prompt := b; pages := pages p |}.

(** [Date.now()] *)
Definition Date_now (p : Page) : Z * Page :=
  (clock p (ticks p), with_ticks p (S (ticks p))).

(** [localStorage.getItem(k)] *)
Definition getItem (k : string) (p : Page) : option string :=
  option_map snd (find (fun kv => (fst kv =? k)%string) (localStorage p)).

(** [localStorage.setItem(k, v)] *)
Definition setItem (k v : string) (p : Page) : Page :=
  with_storage p
    ((k, v) :: filter (fun kv => negb (fst kv =? k)%string) (localStorage p)).

(** [localStorage.removeItem(k)] *)
Definition removeItem (k : string) (p : Page) : Page :=
  with_storage p (filter (fun kv => negb (fst kv =? k)%string) (localStorage p)).

(** [parseInt(localStorage.getItem(k) || '0')] *)
Definition stored_time (k : string) (p : Page) : JS.Number :=
  JS.parseInt match getItem k p with
              | Some (String c r) => String c r
              | _ => "0"
              end.

(** [n || 0] for a number. *)
Definition or_zero (n : Z) : Z := if n =? 0 then 0 else n.

(** [_getOverdueCount()]; what it reads is the engine, and the date that
    [DB.today()] prints. *)
Definition _getOverdueCount (today : string) (s : Engine) : Z :=
  match getStats today s with
  | (_, Returned stats) => or_zero (overdueCount stats)
  | (_, Threw _) => 0
  end.

(** [SELECT COUNT( * ) AS n FROM borrows
     WHERE return_date IS NULL AND due_date > ? AND due_date <= ?] *)
Definition count_due_soon (today soon : string) (d : Database) : list Z :=
  [count (fun b => is_open b && String.ltb today (due_date b)
                   && String.leb (due_date b) soon)
         (borrows d)].

(** [_getDueSoonCount()]; [soon] is the date three days from now, printed
    as [today] is. *)
Definition _getDueSoonCount (today soon : string) (s : Engine) : Z :=
  match query (count_due_soon today soon) s with
  | (_, Returned rows) => or_zero (first_n rows)
  | (_, Threw _) => 0
  end.

(** The title and body that [_fireNotification] chooses; [None] where it
    returns with nothing to report. *)
Definition title_and_body (overdueCount dueSoonCount : Z) : option Notification :=
  if (0 <? overdueCount) && (0 <? dueSoonCount) then
    Some {| n_title := "📚 " ++ JS.Number_toString overdueCount ++ " overdue · "
                       ++ JS.Number_toString dueSoonCount ++ " due soon";
            n_body := "Open Gnoke Library to review borrowing records." |}
  else if 0 <? overdueCount then
    Some {| n_title := "📚 " ++ JS.Number_toString overdueCount ++ " book"
                       ++ (if 1 <? overdueCount then "s" else "") ++ " overdue";
            n_body := "Some loans have passed their due date." |}
  else if 0 <? dueSoonCount then
    Some {| n_title := "📚 " ++ JS.Number_toString dueSoonCount ++ " book"
                       ++ (if 1 <? dueSoonCount then "s" else "") ++ " due soon";
            n_body := "Some loans are due within 3 days." |}
  else None.

(** [_fireNotification(overdueCount, dueSoonCount)]; a constructor that
    throws is caught, and the time stamp is not written. *)
Definition _fireNotification (overdueCount dueSoonCount : Z) (p : Page) : Page :=
  match title_and_body overdueCount dueSoonCount with
  | None => p
  | Some n =>
      if constructible p then
        let p1 := with_notifications p (notifications p ++ [n]) in
        let (now, p2) := Date_now p1 in
        setItem KEYS_LAST_FIRED (JS.Number_toString now) p2
      else p
  end.

(** [_maybeFireNotification()] *)
Definition _maybeFireNotification (s : Engine) (today soon : string) (p : Page) : Page :=
  let mutedUntil := stored_time KEYS_MUTED_UNTIL p in
  let (now, p) := Date_now p in
  if JS.lt (JS.Int now) mutedUntil then p
  else
    let lastFired := stored_time KEYS_LAST_FIRED p in
    let (now, p) := Date_now p in
    let elapsed := JS.sub (JS.Int now) lastFired in
    if JS.lt elapsed (JS.Int HOUR_MS) then p
    else
      let overdue := _getOverdueCount today s in
      let dueSoon := _getDueSoonCount today soon s in
      if (overdue =? 0) && (dueSoon =? 0) then p
      else _fireNotification overdue dueSoon p.

(** [_showPrompt()] *)
Definition _showPrompt (p : Page) : Page :=
  if prompt p then p
  else if pages p then with_prompt p true
  else p.

(** [_maybeShowPrompt()] *)
Definition _maybeShowPrompt (s : Engine) (today soon : string) (p : Page) : Page :=
  let lastAsked := stored_time KEYS_ASKED p in
  let (now, p) := Date_now p in
  if JS.lt (JS.sub (JS.Int now) lastAsked) (JS.Int ASK_GAP_MS) then p
  else
    let overdue := _getOverdueCount today s in
    let dueSoon := _getDueSoonCount today soon s in
    if (overdue =? 0) && (dueSoon =? 0) then p
    else _showPrompt p.

(** [_updateBellUI()] *)
Definition _updateBellUI (p : Page) : Page :=
  match button p with
  | None => p
  | Some btn =>
      let mutedUntil := stored_time KEYS_MUTED_UNTIL p in
      let (now, p) := Date_now p in
      let isMuted := JS.lt (JS.Int now) mutedUntil in
      with_button p
        (Some {| textContent := if isMuted then "🔕" else "🔔";
                 btn_title := if isMuted then "Notifications muted — tap to unmute"
                              else "Mute notifications for 24 hours";
                 class_muted := isMuted;
                 display_none :=
                   if negb (Notification_in_window p)
                      || match permission p with denied => true | _ => false end
                   then true else display_none btn |})
  end.

(** [init()] *)
Definition init (s : Engine) (today soon : string) (p : Page) : Page :=
  let p := _updateBellUI p in
  if negb (Notification_in_window p) then p
  else
    match permission p with
    | granted => _maybeFireNotification s today soon p
    | default => _maybeShowPrompt s today soon p
    | denied => p
    end.

(** [dismissPrompt()] *)
Definition dismissPrompt (p : Page) : Page :=
  let p := with_prompt p false in
  let (now, p) := Date_now p in
  setItem KEYS_ASKED (JS.Number_toString now) p.

(** [requestPermission()]; [answer] is what the user answers to the
    browser's dialog, which is shown only while the permission is
    [default]: a permission already granted or denied is the result as it
    is.  Without the interface the call throws, and the error is caught. *)
Definition requestPermission (s : Engine) (today soon : string) (answer : Permission)
           (p : Page) : Page :=
  let p := dismissPrompt p in
  let (now, p) := Date_now p in
  let p := setItem KEYS_ASKED (JS.Number_toString now) p in
  if Notification_in_window p then
    let result := match permission p with default => answer | x => x end in
    let p := with_permission p result in
    match result with
    | granted => _updateBellUI (_maybeFireNotification s today soon p)
    | _ => p
    end
  else p.

(** [toggleMute()] *)
Definition toggleMute (p : Page) : Page :=
  let mutedUntil := stored_time KEYS_MUTED_UNTIL p in
  let (now, p) := Date_now p in
  let isMuted := JS.lt (JS.Int now) mutedUntil in
  let p :=
    if isMuted then removeItem KEYS_MUTED_UNTIL p
    else
      let (now, p) := Date_now p in
      setItem KEYS_MUTED_UNTIL (JS.Number_toString (now + DAY_MS)) p in
  _updateBellUI p.

End Notify.

(** ** [app.js]: what the page writes and offers *)
Module App.
Import Sql DB DBLib.

(** [esc(str)] *)
Definition esc (str : string) : string :=
  match str with
  | EmptyString => EmptyString
  | _ =>
      JS.replace_all "034" "&quot;"
        (JS.replace_all ">" "&gt;"
           (JS.replace_all "<" "&lt;"
              (JS.replace_all "&" "&amp;" str)))
  end.

(** What [esc] makes of one character. *)
Definition esc_char (c : ascii) : string :=
  if Ascii.eqb c "&" then "&amp;"
  else if Ascii.eqb c "<" then "&lt;"
  else if Ascii.eqb c ">" then "&gt;"
  else if Ascii.eqb c "034" then "&quot;"
  else String c EmptyString.

Fixpoint occurs (c : ascii) (s : string) : bool :=
  match s with
  | EmptyString => false
  | String x r => Ascii.eqb x c || occurs c r
  end.

(** An [<option>] of the select [#return-book-select]: its value, its text
    and its [data-book-id]. *)
Record SelectOption := {
  opt_value       : string;
  opt_textContent : string;
  opt_bookId      : option string
}.

(** [handleBorrowerChange()], by the options that it leaves in the select;
    [borrower] is the value of [#return-borrower-select], empty when nothing
    is selected. *)
Definition handleBorrowerChange (borrower : string) : M (list SelectOption) :=
  let placeholder :=
    {| opt_value := ""; opt_textContent := "Select Book"; opt_bookId := None |} in
  match borrower with
  | EmptyString => ret [placeholder]
  | _ =>
      borrows <- getActiveBorrowsByBorrower borrower ;;
      ret (placeholder
           :: map (fun b => {| opt_value := JS.Number_toString (act_id b);
                               opt_textContent := act_book_title b;
                               opt_bookId := Some (JS.Number_toString (act_book_id b)) |})
                  borrows)
  end.

End App.

(** ** A small library, used to run the operations on concrete data *)
Module Example.
Import Sql DB DBLib.

Definition dune : Book :=
  {| bk_id := 1; title := "Dune"; author := "Frank Herbert"; isbn := Some "123";
     category := "Sci-Fi"; copies := 2 |}.

Definition emma : Book :=
  {| bk_id := 2; title := "Emma"; author := "Jane Austen"; isbn := Some "456";
     category := "classics "; copies := 0 |}.

(** Loan 1 is open on Emma, loan 2 is a closed loan of Dune, loans 3 and 4
    refer to a book (id 9) that is no longer in the catalogue. *)
Definition loans : list Borrow :=
  [ {| b_id := 1; book_id := 2; borrower := "Ben"; date_out := "2025-01-02";
       due_date := "2025-01-20"; return_date := None |};
    {| b_id := 2; book_id := 1; borrower := "Ada"; date_out := "2025-01-01";
       due_date := "2025-01-15"; return_date := Some "2025-01-10" |};
    {| b_id := 3; book_id := 9; borrower := "Cy"; date_out := "2024-12-01";
       due_date := "2024-12-15"; return_date := Some "2024-12-10" |};
    {| b_id := 4; book_id := 9; borrower := "Di"; date_out := "2024-12-05";
       due_date := "2024-12-19"; return_date := None |} ].

Definition seed : Database :=
  {| books := [dune; emma];
     categories := [ {| cat_id := 1; name := "Sci-Fi" |};
                     {| cat_id := 2; name := "Classics" |} ];
     borrows := loans;
     settings := [];
     borrows_fk := None |}.

(** The engine after [init] has adopted [seed]. *)
Definition started (d : Database) : Engine :=
  {| _db := Some {| data := d; saved := None; open := true; foreign_keys := true;
                    last_insert_rowid := 0; rows_modified := 0 |};
     _SQL := true; _dirty := false; idb := Some (Image d) |}.

Definition s0 : Engine := started seed.

(** The engine before [init]. *)
Definition unstarted : Engine :=
  {| _db := None; _SQL := false; _dirty := false; idb := None |}.

(** The example with the foreign key of [borrows.book_id] declared. *)
Definition seed_fk (a : OnDelete) : Database :=
  {| books := books seed; categories := categories seed; borrows := borrows seed;
     settings := settings seed; borrows_fk := Some a |}.

(** A page on which notifications are permitted, at a time when nothing has
    been stored yet; the clock advances by one second per reading. *)
Definition page0 : Notify.Page :=
  {| Notify.localStorage := [];
     Notify.clock := fun n => 1700000000000 + 1000 * Z.of_nat n;
     Notify.ticks := 0;
     Notify.Notification_in_window := true;
     Notify.permission := Notify.granted;
     Notify.constructible := true;
     Notify.notifications := [];
     Notify.button := Some {| Notify.textContent := "🔔";
                              Notify.btn_title := "Mute notifications for 24 hours";
                              Notify.class_muted := false;
                              Notify.display_none := false |};
     Notify.prompt := false;
     Notify.pages := true |}.

(** A library whose only open loan is due on 20 January 2025. *)
Definition due_on_the_20th : Database :=
  {| books := [dune; emma];
     categories := categories seed;
     borrows := [ {| b_id := 1; book_id := 2; borrower := "Ben";
                     date_out := "2025-01-02"; due_date := "2025-01-20";
                     return_date := None |};
                  {| b_id := 2; book_id := 1; borrower := "Ada";
                     date_out := "2025-01-01"; due_date := "2025-01-15";
                     return_date := Some "2025-01-10" |} ];
     settings := [];
     borrows_fk := None |}.

End Example.

(** ** Properties *)

Import Sql DB DBLib.

(** *** The scalar functions on a few strings *)

Example normalized_examples :
  normalized "  DuNe " = "dune"
  /\ normalized "Dune" = normalized " dune"
  /\ normalized "du ne" <> normalized "dune".
Proof. repeat split. discriminate. Qed.

(** What the two functions leave alone: a tab is not a space, and a letter
    outside ASCII (here the two bytes of a capital E with acute accent and
    those of the small one) has no lower case for SQLite. *)
Example normalized_limits :
  normalized (String "009" "dune") <> normalized "dune"
  /\ normalized (String "195" (String "137" "cole"))
     <> normalized (String "195" (String "169" "cole")).
Proof. split; discriminate. Qed.

Example like_examples :
  like "%un%" "DUNE" = true
  /\ like "%%" "" = true
  /\ like "_une" "Dune" = true
  /\ like "%z%" "Dune" = false.
Proof. repeat split. Qed.

(** *** Lists and rows *)

Lemma update_id {A} (p : A -> bool) (f : A -> A) (l : list A) :
  (forall x, p x = true -> f x = x) -> update p f l = l.
Proof.
  intros Hf. unfold update. induction l as [|x l IH]; cbn; [reflexivity|].
  rewrite IH. destruct (p x) eqn:E; [rewrite (Hf x E)|]; reflexivity.
Qed.

Lemma update_update {A} (p : A -> bool) (f g : A -> A) (l : list A) :
  (forall x, p (f x) = p x) ->
  update p g (update p f l) = update p (fun x => g (f x)) l.
Proof.
  intros Hp. unfold update. rewrite map_map. apply map_ext. intros x.
  destruct (p x) eqn:E; [rewrite Hp, E|rewrite E]; reflexivity.
Qed.

Lemma filter_update {A} (p q : A -> bool) (f : A -> A) (l : list A) :
  (forall x, p (f x) = p x) ->
  filter p (update q f l) = update q f (filter p l).
Proof.
  intros Hp. unfold update. induction l as [|x l IH]; cbn; [reflexivity|].
  destruct (q x) eqn:Q.
  - rewrite Hp. destruct (p x); cbn; [rewrite Q|]; now rewrite IH.
  - destruct (p x); cbn; [rewrite Q|]; now rewrite IH.
Qed.

Lemma filter_nil {A} (p : A -> bool) (l : list A) :
  (forall x, In x l -> p x = false) -> filter p l = [].
Proof.
  induction l as [|x l IH]; cbn; intros H; [reflexivity|].
  rewrite (H x (or_introl eq_refl)). apply IH. intros y Hy. apply H. now right.
Qed.

Lemma hd_error_filter {A} (p : A -> bool) (l : list A) :
  hd_error (filter p l) = find p l.
Proof.
  induction l as [|x l IH]; cbn; [reflexivity|].
  destruct (p x); [reflexivity|exact IH].
Qed.

Lemma find_none_iff {A} (p : A -> bool) (l : list A) :
  find p l = None <-> forall x, In x l -> p x = false.
Proof.
  split.
  - intros H x Hx. exact (find_none p l H x Hx).
  - induction l as [|x l IH]; cbn; intros H; [reflexivity|].
    rewrite (H x (or_introl eq_refl)). apply IH. intros y Hy. apply H. now right.
Qed.

Lemma count_middle {A} (p : A -> bool) (pre post : list A) (x : A) :
  count p (pre ++ x :: post) = count p (pre ++ post) + (if p x then 1 else 0).
Proof.
  unfold count. rewrite !filter_app. cbn [filter].
  destruct (p x); rewrite !length_app; cbn [List.length]; lia.
Qed.

Lemma insert_sorted_In {A} (before : A -> A -> bool) (x y : A) (l : list A) :
  In x (insert_sorted before y l) -> x = y \/ In x l.
Proof.
  induction l as [|z l IH]; cbn.
  - intros [<-|[]]. now left.
  - destruct (before z y); cbn.
    + intros [<-|H]; [right; now left|].
      destruct (IH H) as [->|H']; [now left|right; now right].
    + intros [<-|H]; [now left|now right].
Qed.

Lemma order_by_In {A} (before : A -> A -> bool) (x : A) (l : list A) :
  In x (order_by before l) -> In x l.
Proof.
  unfold order_by. induction l as [|y l IH]; cbn; [auto|].
  intros H. destruct (insert_sorted_In _ _ _ _ H) as [->|H']; [now left|].
  right. now apply IH.
Qed.

Lemma set_copies_back (bk : Book) :
  set_copies (set_copies bk (copies bk - 1))
             (copies (set_copies bk (copies bk - 1)) + 1) = bk.
Proof.
  destruct bk as [i t a sb c n]. unfold set_copies; cbn. f_equal. lia.
Qed.

(** *** Sequencing *)

Lemma bind_returned {A B} (m : M A) (k : A -> M B) (s s' : Engine) (a : A) :
  m s = (s', Returned a) -> bind m k s = k a s'.
Proof. intros H. unfold bind. now rewrite H. Qed.

Lemma bind_threw {A B} (m : M A) (k : A -> M B) (s s' : Engine) (e : Error) :
  m s = (s', Threw e) -> bind m k s = (s', Threw e).
Proof. intros H. unfold bind. now rewrite H. Qed.

(** *** Statements and transactions, seen from the handle *)

Lemma _db_run_conn (q : Command) (s : Engine) (c : Conn) :
  _db s = Some c ->
  _db_run q s = (with_conn s (fst (db_run q c)), snd (db_run q c)).
Proof.
  intros H. unfold _db_run. rewrite H. now destruct (db_run q c).
Qed.

Lemma run_result_conn (s : Engine) (c : Conn) :
  _db s = Some c -> run_result s = (s, Returned (result_of c)).
Proof.
  intros H. unfold run_result, bind, require_db. now rewrite H.
Qed.

Lemma _runInTx_conn (q : Stmt) (s : Engine) (c : Conn) :
  _db s = Some c ->
  _runInTx q s =
  match db_run (Statement q) c with
  | (c', Returned _) => (with_conn s c', Returned (result_of c'))
  | (c', Threw e) => (with_conn s c', Threw e)
  end.
Proof.
  intros H. unfold _runInTx, bind. rewrite (_db_run_conn _ _ _ H).
  destruct (db_run (Statement q) c) as [c' [[]|e]]; cbn [fst snd]; [|reflexivity].
  now rewrite (run_result_conn (with_conn s c') c').
Qed.

Lemma with_conn_twice (s : Engine) (c c' : Conn) :
  with_conn (with_conn s c) c' = with_conn s c'.
Proof. reflexivity. Qed.

Lemma call_body_conn (fn : TxBody) :
  forall (s : Engine) (c : Conn),
    _db s = Some c ->
    call_body fn s = (with_conn s (fst (body_run fn c)), snd (body_run fn c)).
Proof.
  induction fn as [|e|q k IH]; intros s c H; cbn.
  - unfold ret, with_conn. destruct s; cbn in *. now rewrite H.
  - unfold throw, with_conn. destruct s; cbn in *. now rewrite H.
  - unfold bind. rewrite (_runInTx_conn _ _ _ H).
    destruct (db_run (Statement q) c) as [c' [[]|e]]; [|reflexivity].
    rewrite (IH (result_of c') (with_conn s c') c' eq_refl).
    now rewrite with_conn_twice.
Qed.

Lemma db_run_statement_keeps (q : Stmt) (c : Conn) :
  open c = true ->
  let c' := fst (db_run (Statement q) c) in
  open c' = true /\ saved c' = saved c /\ foreign_keys c' = foreign_keys c.
Proof.
  intros Ho. unfold db_run. rewrite Ho. cbn.
  destruct (exec (foreign_keys c) q (data c)); cbn; auto.
Qed.

Lemma db_run_done (q : Stmt) (c : Conn) (d' : Database) (n : Z) (r : option Z) :
  open c = true ->
  exec (foreign_keys c) q (data c) = Done d' n r ->
  exists c',
    db_run (Statement q) c = (c', Returned tt)
    /\ data c' = d' /\ open c' = true /\ saved c' = saved c
    /\ foreign_keys c' = foreign_keys c
    /\ (forall i, r = Some i -> last_insert_rowid c' = i).
Proof.
  intros Ho E. unfold db_run. rewrite Ho, E. cbn.
  eexists. split; [reflexivity|]. cbn. repeat split. now intros i ->.
Qed.

(** Inside a transaction a body can neither close the handle nor lose the
    state that ROLLBACK returns to. *)
Lemma body_run_keeps (fn : TxBody) :
  forall c : Conn,
    open c = true ->
    let c' := fst (body_run fn c) in
    open c' = true /\ saved c' = saved c /\ foreign_keys c' = foreign_keys c.
Proof.
  induction fn as [|e|q k IH]; intros c Ho; cbn; auto.
  destruct (db_run_statement_keeps q c Ho) as (Ho' & Hs' & Hf').
  destruct (db_run (Statement q) c) as [c' [[]|e]]; cbn in *; auto.
  destruct (IH (result_of c') c' Ho') as (? & ? & ?).
  repeat split; congruence.
Qed.

Lemma BEGIN_conn (s : Engine) (c : Conn) :
  _db s = Some c -> open c = true -> saved c = None ->
  _db_run BEGIN s = (with_conn s (begun c), Returned tt).
Proof.
  intros H Ho Hs. rewrite (_db_run_conn _ _ _ H). unfold db_run. now rewrite Ho, Hs.
Qed.

(** [transaction] on an open handle that is not inside a transaction:
    either the body returns and its effect is committed and persisted, or
    it throws and the handle is taken back to where it was. *)
Lemma transaction_conn (fn : TxBody) (s : Engine) (c : Conn) :
  _db s = Some c -> open c = true -> saved c = None ->
  transaction fn s =
  match body_run fn (begun c) with
  | (c', Returned _) => (persisted s (set_data c' (data c') None), Returned tt)
  | (c', Threw e) => (with_conn s (set_data c' (data c) None), Threw e)
  end.
Proof.
  intros H Ho Hs. unfold transaction, try_catch.
  assert (R : require_db s = (s, Returned c)) by (unfold require_db; now rewrite H).
  rewrite (bind_returned _ _ _ _ _ R).
  rewrite (bind_returned _ _ _ _ _ (BEGIN_conn s c H Ho Hs)).
  set (c1 := begun c).
  assert (Ho1 : open c1 = true) by exact Ho.
  destruct (body_run_keeps fn c1 Ho1) as (Ho2 & Hs2 & _).
  pose proof (call_body_conn fn (with_conn s c1) c1 eq_refl) as CB.
  rewrite with_conn_twice in CB.
  destruct (body_run fn c1) as [c2 [[]|e]]; cbn in Ho2, Hs2, CB.
  - rewrite (bind_returned _ _ _ _ _ CB).
    unfold bind, _db_run, db_run, set_dirty, persist, _db_export, db_export,
      _saveToIDB, persisted, with_conn; cbn.
    rewrite Ho2, Hs2; cbn. rewrite Ho2. reflexivity.
  - rewrite (bind_threw _ _ _ _ _ CB).
    unfold bind, _db_run, db_run, throw, with_conn; cbn.
    rewrite Ho2, Hs2; cbn. reflexivity.
Qed.

Lemma body_outcome_conn (fn : TxBody) (s : Engine) (c : Conn) :
  _db s = Some c -> open c = true -> saved c = None ->
  body_outcome fn s = snd (body_run fn (begun c)).
Proof.
  intros H Ho Hs. unfold body_outcome.
  rewrite (bind_returned _ _ _ _ _ (BEGIN_conn s c H Ho Hs)).
  now rewrite (call_body_conn fn (with_conn s (begun c)) (begun c) eq_refl).
Qed.

(** [run] on an open handle. *)
Lemma run_conn (q : Stmt) (s : Engine) (c : Conn) :
  _db s = Some c -> open c = true ->
  run q s =
  match db_run (Statement q) c with
  | (c', Returned _) => (persisted s c', Returned (result_of c'))
  | (c', Threw e) => (with_conn s c', Threw e)
  end.
Proof.
  intros H Ho. unfold run.
  assert (R : require_db s = (s, Returned c)) by (unfold require_db; now rewrite H).
  rewrite (bind_returned _ _ _ _ _ R).
  pose proof (_db_run_conn (Statement q) s c H) as E.
  destruct (db_run_statement_keeps q c Ho) as (Ho' & _ & _).
  destruct (db_run (Statement q) c) as [c' [[]|e]]; cbn in E, Ho'.
  - rewrite (bind_returned _ _ _ _ _ E).
    unfold bind, set_dirty, run_result, require_db, persist, _db_export, db_export,
      _saveToIDB, ret, persisted, with_conn; cbn.
    rewrite Ho'. reflexivity.
  - now rewrite (bind_threw _ _ _ _ _ E).
Qed.

(** *** The operations on a live engine *)

Section LiveEngine.

Variables (s : Engine) (d : Database).
Hypothesis Hlive : live s = Some d.

Lemma live_conn :
  exists c, _db s = Some c /\ open c = true /\ saved c = None /\ data c = d.
Proof.
  unfold live in Hlive. destruct (_db s) as [c|]; [|discriminate].
  destruct (saved c) eqn:Hs; [discriminate|].
  destruct (open c) eqn:Ho; [|discriminate].
  injection Hlive as <-. now exists c.
Qed.

Lemma query_live {A} (select : Database -> list A) :
  query select s = (s, Returned (select d)).
Proof.
  destruct live_conn as (c & Hc & Ho & _ & Hd).
  unfold query, bind, require_db, ret. now rewrite Hc, Ho, Hd.
Qed.

Lemma run_live (q : Stmt) (d' : Database) (n : Z) (r : option Z) :
  exec (pragma s) q d = Done d' n r ->
  exists s' res,
    run q s = (s', Returned res)
    /\ live s' = Some d'
    /\ idb s' = Some (Image d')
    /\ (forall i, r = Some i -> lastInsertRowid res = i).
Proof.
  intros E. destruct live_conn as (c & Hc & Ho & Hs & Hd).
  unfold pragma in E. rewrite Hc, <- Hd in E.
  destruct (db_run_done q c _ _ _ Ho E) as (c' & R & D' & O' & S' & _ & I').
  rewrite (run_conn q s c Hc Ho), R.
  do 2 eexists. split; [reflexivity|].
  unfold live; cbn. rewrite S', Hs, O', D'. repeat split. exact I'.
Qed.

(** A body of two statements that does not look at what they return. *)
Lemma transaction_two (d1 d2 : Database) (q1 q2 : Stmt)
      (n1 n2 : Z) (r1 r2 : option Z) :
  exec (pragma s) q1 d = Done d1 n1 r1 ->
  exec (pragma s) q2 d1 = Done d2 n2 r2 ->
  exists s',
    transaction (Tx q1 (fun _ => Tx q2 (fun _ => Return))) s = (s', Returned tt)
    /\ live s' = Some d2 /\ idb s' = Some (Image d2).
Proof.
  intros E1 E2. destruct live_conn as (c & Hc & Ho & Hs & Hd).
  unfold pragma in E1, E2. rewrite Hc in E1, E2.
  rewrite (transaction_conn _ _ _ Hc Ho Hs).
  assert (E1' : exec (foreign_keys (begun c)) q1 (data (begun c)) = Done d1 n1 r1)
    by (unfold begun; cbn; now rewrite Hd).
  destruct (db_run_done q1 (begun c) _ _ _ Ho E1') as (c1 & R1 & D1 & O1 & S1 & F1 & _).
  assert (E2' : exec (foreign_keys c1) q2 (data c1) = Done d2 n2 r2)
    by (now rewrite F1, D1).
  destruct (db_run_done q2 c1 _ _ _ O1 E2') as (c2 & R2 & D2 & O2 & S2 & F2 & _).
  cbn [body_run]. rewrite R1, R2.
  eexists. split; [reflexivity|].
  unfold live; cbn. rewrite O2, D2. auto.
Qed.

Lemma getBook_live (id : Z) :
  getBook id s = (s, Returned (find (fun bk => bk_id bk =? id) (books d))).
Proof.
  unfold getBook. rewrite (bind_returned _ _ _ _ _ (query_live _)).
  unfold ret, book_by_id. now rewrite hd_error_filter.
Qed.

Lemma recordReturn_result (borrowId bookId : Z) (returnDate : string) :
  exists s',
    recordReturn borrowId bookId returnDate s = (s', Returned tt)
    /\ live s' = Some
         (with_books
            (with_borrows d
               (update (fun b => b_id b =? borrowId)
                       (fun b => set_return_date b (Some returnDate)) (borrows d)))
            (update (fun bk => bk_id bk =? bookId)
                    (fun bk => set_copies bk (copies bk + 1)) (books d)))
    /\ idb s' = Some (Image
         (with_books
            (with_borrows d
               (update (fun b => b_id b =? borrowId)
                       (fun b => set_return_date b (Some returnDate)) (borrows d)))
            (update (fun bk => bk_id bk =? bookId)
                    (fun bk => set_copies bk (copies bk + 1)) (books d)))).
Proof.
  unfold recordReturn.
  refine (transaction_two _ _ _ _ _ _ _ _ _ _); reflexivity.
Qed.

Lemma recordBorrow_result (bookId : Z) (who dateOut dueDate : string) :
  match find (fun bk => bk_id bk =? bookId) (books d) with
  | None =>
      recordBorrow bookId who dateOut dueDate s = (s, Threw (Err "Book not found."))
  | Some book =>
      if copies book <? 1
      then recordBorrow bookId who dateOut dueDate s
           = (s, Threw (Err "No copies available."))
      else
        exists s',
          recordBorrow bookId who dateOut dueDate s = (s', Returned tt)
          /\ live s' = Some
               (with_books
                  (with_borrows d (borrows d ++
                     [{| b_id := next_id (map b_id (borrows d)); book_id := bookId;
                         borrower := who; date_out := dateOut; due_date := dueDate;
                         return_date := None |}]))
                  (update (fun bk => bk_id bk =? bookId)
                          (fun bk => set_copies bk (copies bk - 1)) (books d)))
          /\ idb s' = Some (Image
               (with_books
                  (with_borrows d (borrows d ++
                     [{| b_id := next_id (map b_id (borrows d)); book_id := bookId;
                         borrower := who; date_out := dateOut; due_date := dueDate;
                         return_date := None |}]))
                  (update (fun bk => bk_id bk =? bookId)
                          (fun bk => set_copies bk (copies bk - 1)) (books d))))
  end.
Proof.
  unfold recordBorrow.
  rewrite (bind_returned _ _ _ _ _ (getBook_live bookId)).
  destruct (find (fun bk => bk_id bk =? bookId) (books d)) as [book|] eqn:F;
    [|reflexivity].
  destruct (copies book <? 1); [reflexivity|].
  assert (Hb : existsb (fun bk => bk_id bk =? bookId) (books d) = true).
  { apply existsb_exists. exists book. exact (find_some _ _ F). }
  assert (E1 : exec (pragma s) (InsertBorrow bookId who dateOut dueDate) d
               = Done (with_borrows d (borrows d ++
                   [{| b_id := next_id (map b_id (borrows d)); book_id := bookId;
                       borrower := who; date_out := dateOut; due_date := dueDate;
                       return_date := None |}])) 1
                   (Some (next_id (map b_id (borrows d))))).
  { cbn. unfold has_book. rewrite Hb.
    now destruct (if pragma s then borrows_fk d else None). }
  refine (transaction_two _ _ _ _ _ _ _ _ E1 _); reflexivity.
Qed.

Lemma updateCategory_result (id : Z) (newName : string) :
  match other_category_named newName id d with
  | _ :: _ =>
      updateCategory id newName s = (s, Threw (Err "Category name already exists."))
  | [] =>
      match find (fun c => cat_id c =? id) (categories d) with
      | None => updateCategory id newName s = (s, Threw (Err "Category not found."))
      | Some old =>
          exists s',
            updateCategory id newName s = (s', Returned tt)
            /\ live s' = Some (renamed id newName (name old) d)
            /\ idb s' = Some (Image (renamed id newName (name old) d))
      end
  end.
Proof.
  unfold updateCategory.
  rewrite (bind_returned _ _ _ _ _ (query_live _)).
  destruct (other_category_named newName id d); [|reflexivity].
  rewrite (bind_returned _ _ _ _ _ (query_live _)).
  unfold category_name.
  induction (categories d) as [|c l IH]; cbn; [reflexivity|].
  destruct (cat_id c =? id); cbn; [|exact IH].
  refine (transaction_two _ _ _ _ _ _ _ _ _ _); reflexivity.
Qed.

Lemma getAllBorrows_live (search : option string) :
  getAllBorrows search s
  = (s, Returned (history ("%" ++ match search with Some x => x | None => "" end ++ "%") d)).
Proof. unfold getAllBorrows. exact (query_live _). Qed.

Lemma getStats_live (today : string) :
  getStats today s
  = (s, Returned
          {| totalCopies := fold_right Z.add 0 (map copies (books d));
             totalTitles := Z.of_nat (List.length (books d));
             activeLoans := count is_open (borrows d);
             returnedLoans := count (fun b => negb (is_open b)) (borrows d);
             overdueCount := count (is_overdue today) (borrows d);
             topBooks := top_books d;
             dueToday := due_on today d |}).
Proof.
  unfold getStats.
  repeat rewrite (bind_returned _ _ _ _ _ (query_live _)).
  reflexivity.
Qed.

End LiveEngine.

(** *** Transactions *)

(** C2.  When the body of a transaction raises [e], after any number of
    its statements have run, [transaction] throws that same [e], and
    afterwards the live database is the one from before the transaction,
    no transaction is left open, and the persisted blob (with the dirty
    flag) is untouched. *)
Theorem transaction_rolls_back (s : Engine) (d : Database) (fn : TxBody) (e : Error) :
  live s = Some d ->
  body_outcome fn s = Threw e ->
  exists s',
    transaction fn s = (s', Threw e)
    /\ live s' = Some d
    /\ idb s' = idb s
    /\ _dirty s' = _dirty s.
Proof.
  intros H O.
  destruct (live_conn s d H) as (c & Hc & Ho & Hs & Hd).
  rewrite (body_outcome_conn fn s c Hc Ho Hs) in O.
  rewrite (transaction_conn fn s c Hc Ho Hs).
  assert (Ho1 : open (begun c) = true) by exact Ho.
  destruct (body_run_keeps fn _ Ho1) as (Ho2 & _ & _).
  destruct (body_run fn (begun c)) as [c2 r].
  cbn in O, Ho2. subst r.
  eexists. split; [reflexivity|].
  unfold live; cbn. rewrite Ho2, Hd. auto.
Qed.

(** The body inserts a loan, decrements the copies, and then fails. *)
Lemma transaction_rolls_back_witness :
  live Example.s0 = Some Example.seed
  /\ body_outcome
       (Tx (InsertBorrow 1 "Ada" "2025-01-01" "2025-01-15") (fun _ =>
        Tx (UpdateCopies (-1) 1) (fun _ =>
        Raise (Err "interrupted")))) Example.s0 = Threw (Err "interrupted")
  /\ exists s',
       transaction
         (Tx (InsertBorrow 1 "Ada" "2025-01-01" "2025-01-15") (fun _ =>
          Tx (UpdateCopies (-1) 1) (fun _ =>
          Raise (Err "interrupted")))) Example.s0 = (s', Threw (Err "interrupted"))
       /\ live s' = Some Example.seed
       /\ idb s' = idb Example.s0
       /\ _dirty s' = _dirty Example.s0.
Proof.
  split; [reflexivity|]. split; [reflexivity|].
  apply (transaction_rolls_back Example.s0 Example.seed); reflexivity.
Defined.

(** A statement that SQLite rejects ends the body in the same way: with
    the foreign key declared, a loan for a book that does not exist. *)
Example transaction_rolls_back_on_sql_error :
  let s :=
    Example.started (with_borrows
       {| books := books Example.seed; categories := categories Example.seed;
          borrows := []; settings := []; borrows_fk := Some Restrict |}
       Example.loans) in
  let r :=
    transaction
      (Tx (UpdateCopies 5 1) (fun _ =>
       Tx (InsertBorrow 7 "Ada" "2025-01-01" "2025-01-15") (fun _ =>
       Return))) s in
  snd r = Threw (Err "FOREIGN KEY constraint failed")
  /\ live (fst r) = live s
  /\ idb (fst r) = idb s.
Proof. repeat split. Qed.

(** *** Restore *)

(** Whatever live database is installed, a blob that does not parse costs
    the engine its handle. *)
Lemma restoreDB_malformed (s : Engine) (d : Database) (bytes : string) :
  live s = Some d -> _SQL s = true ->
  exists s',
    restoreDB (Malformed bytes) s = (s', Threw (Err "file is not a database"))
    /\ live s' = None
    /\ (exists c, _db s' = Some c /\ open c = false)
    /\ idb s' = idb s.
Proof.
  intros H Hq. destruct (live_conn s d H) as (c & Hc & Ho & Hs & Hd).
  unfold restoreDB, bind, set_db. rewrite Hc. cbn. rewrite Hq.
  eexists. split; [reflexivity|]. unfold live; cbn.
  split; [reflexivity|]. split; [|reflexivity].
  eexists. split; reflexivity.
Qed.


(** *** Books *)









(** On the example the two calls leave one row for Solaris, with 4 copies. *)
Example addBooks_on_seed :
  option_map (fun d => map copies (filter (same_title_isbn "solaris" "") (books d)))
    (live (fst (addBooks
         [ {| a_title := "Solaris"; a_author := "Stanislaw Lem"; a_isbn := None;
              a_category := "Sci-Fi"; a_copies := None |};
           {| a_title := "  SOLARIS "; a_author := "S. Lem"; a_isbn := Some "  ";
              a_category := "Sci-Fi"; a_copies := Some 3 |} ] Example.s0)))
  = Some [4].
Proof. reflexivity. Qed.



(** With the key declared and enforced the same call does something else:
    under [ON DELETE RESTRICT] (or no action) the closed loan of Dune blocks
    the deletion, under [ON DELETE CASCADE] it is deleted with the book. *)
Example deleteBook_under_restrict :
  deleteBook 1 (Example.started (with_borrows
                  {| books := books Example.seed;
                     categories := categories Example.seed;
                     borrows := []; settings := [];
                     borrows_fk := Some Restrict |} Example.loans))
  = (Example.started (with_borrows
                  {| books := books Example.seed;
                     categories := categories Example.seed;
                     borrows := []; settings := [];
                     borrows_fk := Some Restrict |} Example.loans),
     Threw (Err "FOREIGN KEY constraint failed")).
Proof. reflexivity. Qed.

Example deleteBook_under_cascade :
  option_map (fun d => map b_id (borrows d))
    (live (fst (deleteBook 1 (Example.started (with_borrows
                  {| books := books Example.seed;
                     categories := categories Example.seed;
                     borrows := []; settings := [];
                     borrows_fk := Some Cascade |} Example.loans)))))
  = Some [1; 3; 4].
Proof. reflexivity. Qed.

(** *** Categories *)



(** On the example, "classics " on Emma is matched by "Classics". *)
Example updateCategory_on_seed :
  option_map books (live (fst (updateCategory 2 "Novels" Example.s0)))
  = Some [Example.dune; set_category Example.emma "Novels"].
Proof. reflexivity. Qed.

(** The two operations that write names keep them unique. *)
Lemma updateCategory_keeps_names_unique (s s' : Engine) (d d' : Database)
      (id : Z) (newName : string) :
  live s = Some d -> names_unique d ->
  updateCategory id newName s = (s', Returned tt) ->
  live s' = Some d' -> names_unique d'.
Proof.
  intros H U T L'.
  pose proof (updateCategory_result s d H id newName) as R.
  destruct (other_category_named newName id d) eqn:O;
    [|rewrite T in R; discriminate R].
  destruct (find (fun c => cat_id c =? id) (categories d)) as [old|];
    [|rewrite T in R; discriminate R].
  destruct R as (s1 & T1 & L1 & _). rewrite T in T1. injection T1 as <-.
  rewrite L' in L1. injection L1 as ->.
  assert (Hother : forall c, In c (categories d) -> cat_id c <> id ->
                             normalized (name c) <> normalized newName).
  { intros c Hc Hid Hn. unfold other_category_named in O.
    apply map_eq_nil in O.
    assert (Hin : In c (filter (fun c => (normalized (name c) =? normalized newName)%string
                                         && negb (cat_id c =? id)) (categories d))).
    { apply filter_In. split; [exact Hc|].
      rewrite Hn, String.eqb_refl. cbn. apply negb_true_iff. now apply Z.eqb_neq. }
    rewrite O in Hin. destruct Hin. }
  intros c1 c2 H1 H2 Hn. cbn in H1, H2. unfold update in H1, H2.
  apply in_map_iff in H1. destruct H1 as (x1 & <- & Hx1).
  apply in_map_iff in H2. destruct H2 as (x2 & <- & Hx2).
  destruct (Z.eqb_spec (cat_id x1) id) as [E1|N1];
    destruct (Z.eqb_spec (cat_id x2) id) as [E2|N2]; cbn in *.
  - congruence.
  - exfalso. apply (Hother x2 Hx2 N2). now symmetry.
  - exfalso. now apply (Hother x1 Hx1 N1).
  - now apply U.
Qed.

Lemma addCategory_keeps_names_unique (s s' : Engine) (d d' : Database)
      (n : string) (id : Z) :
  live s = Some d -> names_unique d ->
  addCategory n s = (s', Returned id) ->
  live s' = Some d' -> names_unique d'.
Proof.
  intros H U T L'. unfold addCategory in T.
  rewrite (bind_returned _ _ _ _ _ (query_live s d H _)) in T.
  destruct (category_named n d) eqn:O; [|discriminate T].
  destruct (run_live s d H (InsertCategory n) _ _ _ eq_refl)
    as (s1 & res & R & L1 & _ & _).
  rewrite (bind_returned _ _ _ _ _ R) in T. unfold ret in T.
  injection T as <- _. rewrite L' in L1. injection L1 as ->.
  assert (Hnew : forall c, In c (categories d) -> normalized (name c) <> normalized n).
  { intros c Hc Hn. unfold category_named in O. apply map_eq_nil in O.
    assert (Hin : In c (filter (fun c => (normalized (name c) =? normalized n)%string)
                               (categories d))).
    { apply filter_In. split; [exact Hc|]. now rewrite Hn, String.eqb_refl. }
    rewrite O in Hin. destruct Hin. }
  intros c1 c2 H1 H2 Hn. cbn in H1, H2.
  apply in_app_or in H1. apply in_app_or in H2.
  destruct H1 as [H1|[<-|[]]]; destruct H2 as [H2|[<-|[]]]; cbn in *.
  - now apply U.
  - exfalso. now apply (Hnew c1 H1).
  - exfalso. apply (Hnew c2 H2). now symmetry.
  - reflexivity.
Qed.



(** Without that invariant the check can fire on a second row of the same
    name. *)
Example updateCategory_on_duplicated_names :
  snd (updateCategory 1 "a"
         (Example.started
            (with_categories Example.seed
               [ {| cat_id := 1; name := "A" |}; {| cat_id := 2; name := "a" |} ])))
  = Threw (Err "Category name already exists.").
Proof. reflexivity. Qed.

(** *** Loans *)





Example recordReturn_twice_on_seed :
  option_map (fun d => (map copies (books d), map return_date (borrows d)))
    (live (fst (recordReturn 2 1 "2025-02-01" Example.s0)))
  = Some ([3; 0], [None; Some "2025-02-01"; Some "2024-12-10"; None]).
Proof. reflexivity. Qed.

(** C5.  After a [recordBorrow] that succeeded on a live engine, a
    [recordReturn] of the loan it created, with the same [bookId], succeeds
    and leaves the books table, hence the copies of that book, exactly as it
    was before the borrow. *)
Theorem borrow_then_return_restores_copies (s s1 : Engine) (d : Database)
        (bookId : Z) (who dateOut dueDate returnDate : string) :
  live s = Some d ->
  recordBorrow bookId who dateOut dueDate s = (s1, Returned tt) ->
  exists d1 loan,
    live s1 = Some d1
    /\ borrows d1 = (borrows d ++ [loan])%list
    /\ book_id loan = bookId
    /\ return_date loan = None
    /\ exists s2 d2,
         recordReturn (b_id loan) bookId returnDate s1 = (s2, Returned tt)
         /\ live s2 = Some d2
         /\ books d2 = books d
         /\ find (fun bk => bk_id bk =? bookId) (books d2)
            = find (fun bk => bk_id bk =? bookId) (books d).
Proof.
  intros H B.
  pose proof (recordBorrow_result s d H bookId who dateOut dueDate) as R.
  destruct (find (fun bk => bk_id bk =? bookId) (books d)) as [book|] eqn:F;
    [|rewrite B in R; discriminate R].
  destruct (copies book <? 1); [rewrite B in R; discriminate R|].
  destruct R as (s' & T & L & _).
  rewrite B in T. injection T as <-.
  do 2 eexists. split; [exact L|]. split; [reflexivity|]. split; [reflexivity|].
  split; [reflexivity|].
  destruct (recordReturn_result s1 _ L (next_id (map b_id (borrows d))) bookId
              returnDate) as (s2 & T2 & L2 & _).
  exists s2. eexists. split; [exact T2|]. split; [exact L2|].
  assert (E : update (fun bk => bk_id bk =? bookId)
                (fun bk => set_copies bk (copies bk + 1))
                (update (fun bk => bk_id bk =? bookId)
                   (fun bk => set_copies bk (copies bk - 1)) (books d)) = books d).
  { rewrite update_update by reflexivity.
    apply update_id. intros bk _. apply set_copies_back. }
  split; [exact E|].
  rewrite <- F. apply (f_equal (find (fun bk => bk_id bk =? bookId))). exact E.
Qed.

Lemma borrow_then_return_restores_copies_witness :
  live Example.s0 = Some Example.seed
  /\ exists s1,
       recordBorrow 1 "Ada" "2025-01-01" "2025-01-15" Example.s0 = (s1, Returned tt)
       /\ exists d1 loan,
            live s1 = Some d1
            /\ borrows d1 = (Example.loans ++ [loan])%list
            /\ book_id loan = 1
            /\ return_date loan = None
            /\ exists s2 d2,
                 recordReturn (b_id loan) 1 "2025-01-10" s1 = (s2, Returned tt)
                 /\ live s2 = Some d2
                 /\ books d2 = [Example.dune; Example.emma]
                 /\ find (fun bk => bk_id bk =? 1) (books d2)
                    = find (fun bk => bk_id bk =? 1) [Example.dune; Example.emma].
Proof.
  split; [reflexivity|].
  eexists. split; [reflexivity|].
  apply (borrow_then_return_restores_copies Example.s0 _ Example.seed 1
           "Ada" "2025-01-01" "2025-01-15" "2025-01-10"); reflexivity.
Defined.

(** *** Loans whose book is gone *)

Lemma join_skips_dangling (d : Database) (pre post : list Borrow) (b : Borrow) :
  borrows d = (pre ++ b :: post)%list ->
  (forall bk, In bk (books d) -> bk_id bk <> book_id b) ->
  borrows_join_books d = borrows_join_books (with_borrows d (pre ++ post)).
Proof.
  intros E Hno. unfold borrows_join_books. cbn [borrows books with_borrows].
  rewrite E, !flat_map_app. cbn [flat_map].
  rewrite (filter_nil (fun bk => bk_id bk =? book_id b) (books d)); [reflexivity|].
  intros bk Hbk. apply Z.eqb_neq. now apply Hno.
Qed.

(** Every row of the history listing comes from a borrow row and a book
    row that carries its [book_id]. *)
Lemma history_joined (t : string) (d : Database) (h : HistoryRow) :
  In h (history t d) ->
  exists b bk,
    In b (borrows d) /\ In bk (books d) /\ bk_id bk = book_id b
    /\ h_id h = b_id b /\ h_book_id h = bk_id bk.
Proof.
  unfold history. intros H. apply in_map_iff in H.
  destruct H as ([b bk] & <- & H). apply order_by_In in H.
  apply filter_In in H. destruct H as [H _].
  unfold borrows_join_books in H. apply in_flat_map in H.
  destruct H as (b' & Hb' & H). apply in_map_iff in H.
  destruct H as (bk' & E & H). injection E as -> ->.
  apply filter_In in H. destruct H as [Hbk Heq].
  exists b, bk. cbn. repeat split; auto. now apply Z.eqb_eq.
Qed.

(** C9.  Let [b] be a borrow row whose [book_id] is the id of no book row.
    For any search term, [getAllBorrows] returns exactly what it returns
    on the database without [b], and none of its rows is for [b]'s book id;
    [getStats] gives the same [topBooks] and [dueToday] as without [b];
    but [b] is counted: in [activeLoans] when it is open, in
    [returnedLoans] when it is closed, and in [overdueCount] when it is
    open and due before today. *)
Theorem dangling_borrow_visibility (s s' : Engine) (d : Database)
        (pre post : list Borrow) (b : Borrow) (today : string)
        (search : option string) :
  live s = Some d ->
  borrows d = (pre ++ b :: post)%list ->
  (forall bk, In bk (books d) -> bk_id bk <> book_id b) ->
  live s' = Some (with_borrows d (pre ++ post)) ->
  exists rows st st',
    getAllBorrows search s = (s, Returned rows)
    /\ getAllBorrows search s' = (s', Returned rows)
    /\ (forall h, In h rows -> h_book_id h <> book_id b)
    /\ getStats today s = (s, Returned st)
    /\ getStats today s' = (s', Returned st')
    /\ topBooks st = topBooks st'
    /\ dueToday st = dueToday st'
    /\ activeLoans st = activeLoans st' + (if is_open b then 1 else 0)
    /\ returnedLoans st = returnedLoans st' + (if is_open b then 0 else 1)
    /\ overdueCount st = overdueCount st' + (if is_overdue today b then 1 else 0).
Proof.
  intros H E Hno H'.
  pose proof (join_skips_dangling d pre post b E Hno) as J.
  do 3 eexists.
  split; [exact (getAllBorrows_live s d H search)|].
  split.
  { rewrite (getAllBorrows_live s' _ H' search). unfold history. now rewrite J. }
  split.
  { intros h Hh. destruct (history_joined _ _ _ Hh) as (b0 & bk & _ & Hbk & _ & _ & ->).
    now apply Hno. }
  split; [exact (getStats_live s d H today)|].
  split; [exact (getStats_live s' _ H' today)|].
  cbn [topBooks dueToday activeLoans returnedLoans overdueCount borrows with_borrows].
  unfold top_books, due_on. rewrite J, E.
  split; [reflexivity|]. split; [reflexivity|].
  rewrite !count_middle. destruct (is_open b); repeat split.
Qed.

Lemma dangling_borrow_visibility_witness :
  live Example.s0 = Some Example.seed
  /\ live (Example.started (with_borrows Example.seed (firstn 3 Example.loans ++ [])))
     = Some (with_borrows Example.seed (firstn 3 Example.loans ++ []))
  /\ exists rows st st',
       getAllBorrows (Some "Di") Example.s0 = (Example.s0, Returned rows)
       /\ getAllBorrows (Some "Di")
            (Example.started (with_borrows Example.seed (firstn 3 Example.loans ++ [])))
          = (Example.started (with_borrows Example.seed (firstn 3 Example.loans ++ [])),
             Returned rows)
       /\ (forall h, In h rows ->
                     h_book_id h
                     <> book_id
                          {| b_id := 4; book_id := 9; borrower := "Di";
                             date_out := "2024-12-05"; due_date := "2024-12-19";
                             return_date := None |})
       /\ getStats "2025-01-20" Example.s0 = (Example.s0, Returned st)
       /\ getStats "2025-01-20"
            (Example.started (with_borrows Example.seed (firstn 3 Example.loans ++ [])))
          = (Example.started (with_borrows Example.seed (firstn 3 Example.loans ++ [])),
             Returned st')
       /\ topBooks st = topBooks st'
       /\ dueToday st = dueToday st'
       /\ activeLoans st = activeLoans st' + 1
       /\ returnedLoans st = returnedLoans st' + 0
       /\ overdueCount st = overdueCount st' + 1.
Proof.
  split; [reflexivity|]. split; [reflexivity|].
  apply (dangling_borrow_visibility Example.s0 _ Example.seed
           (firstn 3 Example.loans) []
           {| b_id := 4; book_id := 9; borrower := "Di"; date_out := "2024-12-05";
              due_date := "2024-12-19"; return_date := None |}
           "2025-01-20" (Some "Di")).
  - reflexivity.
  - reflexivity.
  - intros bk [<-|[<-|[]]]; cbn; lia.
  - reflexivity.
Defined.

(** On the example: loans 3 and 4 are in neither list; loan 4 is one of
    the two active loans and the only overdue one, loan 3 one of the two
    returned ones. *)
Example stats_on_seed :
  snd (getAllBorrows None Example.s0)
  = Returned
      [ {| h_id := 1; h_borrower := "Ben"; h_date_out := "2025-01-02";
           h_due_date := "2025-01-20"; h_return_date := None;
           h_book_title := "Emma"; h_book_id := 2 |};
        {| h_id := 2; h_borrower := "Ada"; h_date_out := "2025-01-01";
           h_due_date := "2025-01-15"; h_return_date := Some "2025-01-10";
           h_book_title := "Dune"; h_book_id := 1 |} ]
  /\ snd (getStats "2025-01-20" Example.s0)
     = Returned
         {| totalCopies := 2; totalTitles := 2; activeLoans := 2; returnedLoans := 2;
            overdueCount := 1;
            topBooks := [ {| top_title := "Dune"; top_author := "Frank Herbert";
                             borrow_count := 1 |};
                          {| top_title := "Emma"; top_author := "Jane Austen";
                             borrow_count := 1 |} ];
            dueToday := [ {| due_borrower := "Ben"; due_title := "Emma" |} ] |}.
Proof. split; reflexivity. Qed.


(** ** Further properties of the engine *)

Lemma with_conn_same (s : Engine) (c : Conn) : _db s = Some c -> with_conn s c = s.
Proof. intros H. destruct s; cbn in *. unfold with_conn; cbn. now rewrite H. Qed.

(** X1.  Before [init] has installed a handle, [query], [run] and
    [transaction] throw "[DB] Not initialised." and leave the engine as it
    is, and so do the operations of the repository, which start with one of
    them; [persist] returns without doing anything. *)
Theorem not_initialised_throws (s : Engine) (q : Stmt) (fn : TxBody)
        (id : Z) (t : string) :
  _db s = None ->
  query (book_by_id id) s = (s, Threw (Err "[DB] Not initialised."))
  /\ run q s = (s, Threw (Err "[DB] Not initialised."))
  /\ transaction fn s = (s, Threw (Err "[DB] Not initialised."))
  /\ persist s = (s, Returned tt)
  /\ recordBorrow id t t t s = (s, Threw (Err "[DB] Not initialised."))
  /\ recordReturn id id t s = (s, Threw (Err "[DB] Not initialised."))
  /\ deleteBook id s = (s, Threw (Err "[DB] Not initialised."))
  /\ snd (addBook t t None t None s) = Threw (Err "[DB] Not initialised.")
  /\ snd (getStats t s) = Threw (Err "[DB] Not initialised.").
Proof.
  intros H.
  assert (Q : forall A (sel : Database -> list A),
             query sel s = (s, Threw (Err "[DB] Not initialised."))).
  { intros A sel. unfold query, bind, require_db. now rewrite H. }
  assert (R : require_db s = (s, Threw (Err "[DB] Not initialised.")))
    by (unfold require_db; now rewrite H).
  repeat split.
  - apply Q.
  - unfold run. now rewrite (bind_threw _ _ _ _ _ R).
  - unfold transaction. now rewrite (bind_threw _ _ _ _ _ R).
  - unfold persist. now rewrite H.
  - unfold recordBorrow, getBook.
    now rewrite (bind_threw _ _ _ _ _ (bind_threw _ _ _ _ _ (Q _ _))).
  - unfold recordReturn, transaction. now rewrite (bind_threw _ _ _ _ _ R).
  - unfold deleteBook. now rewrite (bind_threw _ _ _ _ _ (Q _ _)).
  - unfold addBook. now rewrite (bind_threw _ _ _ _ _ (Q _ _)).
  - unfold getStats. now rewrite (bind_threw _ _ _ _ _ (Q _ _)).
Qed.

Lemma not_initialised_throws_witness :
  _db Example.unstarted = None
  /\ run (UpdateCopies 1 1) Example.unstarted
     = (Example.unstarted, Threw (Err "[DB] Not initialised."))
  /\ recordBorrow 1 "Ada" "Ada" "Ada" Example.unstarted
     = (Example.unstarted, Threw (Err "[DB] Not initialised.")).
Proof.
  split; [reflexivity|].
  pose proof (not_initialised_throws Example.unstarted (UpdateCopies 1 1) Return
                1 "Ada" eq_refl) as H.
  split; [exact (proj1 (proj2 H))|].
  exact (proj1 (proj2 (proj2 (proj2 (proj2 H))))).
Defined.

Lemma body_run_statements (qs : list Stmt) :
  forall c : Conn,
    open c = true ->
    match exec_all (foreign_keys c) qs (data c) with
    | Returned d' =>
        exists c', body_run (statements qs) c = (c', Returned tt) /\ data c' = d'
    | Threw e => exists c', body_run (statements qs) c = (c', Threw e)
    end.
Proof.
  induction qs as [|q qs IH]; intros c Ho; cbn.
  - now exists c.
  - destruct (exec (foreign_keys c) q (data c)) as [d1 n r|msg] eqn:E.
    + destruct (db_run_done q c _ _ _ Ho E) as (c1 & R & D1 & O1 & _ & F1 & _).
      rewrite R. specialize (IH c1 O1). now rewrite F1, D1 in IH.
    + unfold db_run. rewrite Ho, E. cbn. now exists c.
Qed.

(** X2.  A transaction over a list of statements is all or nothing.  If
    SQLite accepts them all, [transaction] returns, the live database is the
    result of applying them in order, and that database has been persisted
    (the engine is clean).  If one is rejected, [transaction] throws
    SQLite's error, the live database is the one from before, the effect of
    the statements that preceded the rejected one included, and nothing has
    been written. *)
Theorem transaction_all_or_nothing (s : Engine) (d : Database) (qs : list Stmt) :
  live s = Some d ->
  match exec_all (pragma s) qs d with
  | Returned d' =>
      exists s',
        transaction (statements qs) s = (s', Returned tt)
        /\ live s' = Some d'
        /\ idb s' = Some (Image d')
        /\ _dirty s' = false
  | Threw e =>
      exists s',
        transaction (statements qs) s = (s', Threw e)
        /\ live s' = Some d
        /\ idb s' = idb s
        /\ _dirty s' = _dirty s
  end.
Proof.
  intros H. destruct (live_conn s d H) as (c & Hc & Ho & Hs & Hd).
  assert (Ho1 : open (begun c) = true) by exact Ho.
  pose proof (body_run_statements qs (begun c) Ho1) as B.
  destruct (body_run_keeps (statements qs) _ Ho1) as (Ho2 & _ & _).
  unfold pragma. rewrite Hc.
  replace (exec_all (foreign_keys (begun c)) qs (data (begun c)))
    with (exec_all (foreign_keys c) qs d) in B by (unfold begun; cbn; now rewrite Hd).
  rewrite (transaction_conn _ s c Hc Ho Hs).
  destruct (exec_all (foreign_keys c) qs d) as [d'|e].
  - destruct B as (c' & B & D'). rewrite B in *. cbn in Ho2.
    eexists. split; [reflexivity|]. unfold live; cbn. rewrite Ho2, D'. auto.
  - destruct B as (c' & B). rewrite B in *. cbn in Ho2.
    eexists. split; [reflexivity|]. unfold live; cbn. rewrite Ho2, Hd. auto.
Qed.

(** Three statements accepted; then the same three with a loan for a book
    that does not exist, under the declared foreign key. *)
Lemma transaction_all_or_nothing_witness :
  live Example.s0 = Some Example.seed
  /\ (exists s',
        transaction (statements [UpdateCopies 2 1; UpdateReturnDate "2025-02-02" 1;
                                 UpdateCategoryName "SF" 1]) Example.s0
        = (s', Returned tt)
        /\ live s' = Some
             (with_categories
                (with_borrows
                   (with_books Example.seed [set_copies Example.dune 4; Example.emma])
                   (update (fun b => b_id b =? 1)
                           (fun b => set_return_date b (Some "2025-02-02"))
                           Example.loans))
                [ {| cat_id := 1; name := "SF" |};
                  {| cat_id := 2; name := "Classics" |} ])
        /\ idb s' = Some (Image
             (with_categories
                (with_borrows
                   (with_books Example.seed [set_copies Example.dune 4; Example.emma])
                   (update (fun b => b_id b =? 1)
                           (fun b => set_return_date b (Some "2025-02-02"))
                           Example.loans))
                [ {| cat_id := 1; name := "SF" |};
                  {| cat_id := 2; name := "Classics" |} ]))
        /\ _dirty s' = false)
  /\ (exists s',
        transaction (statements [UpdateCopies 2 1;
                                 InsertBorrow 7 "Ada" "2025-01-01" "2025-01-15"])
                    (Example.started (Example.seed_fk Restrict))
        = (s', Threw (Err "FOREIGN KEY constraint failed"))
        /\ live s' = Some (Example.seed_fk Restrict)
        /\ idb s' = idb (Example.started (Example.seed_fk Restrict))
        /\ _dirty s' = _dirty (Example.started (Example.seed_fk Restrict))).
Proof.
  split; [reflexivity|]. split.
  - exact (transaction_all_or_nothing Example.s0 Example.seed
             [UpdateCopies 2 1; UpdateReturnDate "2025-02-02" 1;
              UpdateCategoryName "SF" 1] eq_refl).
  - exact (transaction_all_or_nothing (Example.started (Example.seed_fk Restrict))
             (Example.seed_fk Restrict)
             [UpdateCopies 2 1; InsertBorrow 7 "Ada" "2025-01-01" "2025-01-15"]
             eq_refl).
Defined.

(** X3.  [run] on a live engine.  A statement that SQLite accepts is
    applied, the result is persisted at once and the engine is clean; the
    object returned carries the number of rows changed and, after an INSERT,
    the id of the new row.  A statement that SQLite rejects makes [run]
    throw SQLite's error with the engine exactly as it was. *)
Theorem run_commits_or_leaves (s : Engine) (d : Database) (q : Stmt) :
  live s = Some d ->
  match exec (pragma s) q d with
  | Done d' n r =>
      exists s' res,
        run q s = (s', Returned res)
        /\ live s' = Some d'
        /\ idb s' = Some (Image d')
        /\ _dirty s' = false
        /\ changes res = n
        /\ (forall i, r = Some i -> lastInsertRowid res = i)
  | Failed msg => run q s = (s, Threw (Err msg))
  end.
Proof.
  intros H. destruct (live_conn s d H) as (c & Hc & Ho & Hs & Hd).
  unfold pragma. rewrite Hc, <- Hd.
  rewrite (run_conn q s c Hc Ho).
  destruct (exec (foreign_keys c) q (data c)) as [d' n r|msg] eqn:E.
  - unfold db_run. rewrite Ho, E. cbn.
    do 2 eexists. split; [reflexivity|].
    unfold live; cbn. rewrite Hs. repeat split. now intros i ->.
  - unfold db_run. rewrite Ho, E. cbn. now rewrite (with_conn_same s c Hc).
Qed.

Lemma run_commits_or_leaves_witness :
  live Example.s0 = Some Example.seed
  /\ (exists s' res,
        run (InsertCategory "Poetry") Example.s0 = (s', Returned res)
        /\ live s' = Some (with_categories Example.seed
                             (categories Example.seed
                              ++ [ {| cat_id := 3; name := "Poetry" |} ]))
        /\ idb s' = Some (Image (with_categories Example.seed
                             (categories Example.seed
                              ++ [ {| cat_id := 3; name := "Poetry" |} ])))
        /\ _dirty s' = false
        /\ changes res = 1
        /\ (forall i, Some 3 = Some i -> lastInsertRowid res = i))
  /\ run (DeleteBook 1) (Example.started (Example.seed_fk Restrict))
     = (Example.started (Example.seed_fk Restrict),
        Threw (Err "FOREIGN KEY constraint failed")).
Proof.
  split; [reflexivity|]. split.
  - exact (run_commits_or_leaves Example.s0 Example.seed (InsertCategory "Poetry")
             eq_refl).
  - exact (run_commits_or_leaves (Example.started (Example.seed_fk Restrict))
             (Example.seed_fk Restrict) (DeleteBook 1) eq_refl).
Defined.



(** *** The date that [today] prints *)

Lemma four_digits (y : Z) :
  1000 <= y <= 9999 ->
  JS.Number_toString y
  = String (JS.digit (y / 1000))
      (String (JS.digit (y / 100 mod 10))
         (String (JS.digit (y / 10 mod 10))
            (String (JS.digit (y mod 10)) EmptyString))).
Proof.
  intros H. unfold JS.Number_toString.
  destruct (Z.ltb_spec y 0) as [?|_]; [lia|].
  pose proof (Z.log2_le_mono 1000 y (proj1 H)) as L.
  change (Z.log2 1000) with 9 in L.
  destruct (Z.to_nat (Z.log2 y)) as [|[|[|k]]] eqn:E; try lia.
  cbn [JS.digits].
  assert (E1 : y / 10 / 10 = y / 100) by (Z.to_euclidean_division_equations; lia).
  assert (E2 : y / 10 / 10 / 10 = y / 1000) by (Z.to_euclidean_division_equations; lia).
  destruct (Z.ltb_spec y 10) as [?|_]; [lia|].
  destruct (Z.ltb_spec (y / 10) 10) as [?|_];
    [Z.to_euclidean_division_equations; lia|].
  destruct (Z.ltb_spec (y / 10 / 10) 10) as [?|_];
    [Z.to_euclidean_division_equations; lia|].
  destruct (Z.ltb_spec (y / 10 / 10 / 10) 10) as [_|?];
    [|Z.to_euclidean_division_equations; lia].
  now rewrite E2, E1.
Qed.

Lemma two_digits (n : Z) :
  0 <= n <= 99 ->
  JS.padStart 2 "0" (JS.Number_toString n)
  = String (JS.digit (n / 10)) (String (JS.digit (n mod 10)) EmptyString).
Proof.
  intros H. unfold JS.Number_toString.
  destruct (Z.ltb_spec n 0) as [?|_]; [lia|].
  destruct (Z.ltb_spec n 10) as [S|B].
  - cbn [JS.digits]. destruct (Z.ltb_spec n 10) as [_|?]; [|lia].
    rewrite Z.div_small, Z.mod_small by lia. reflexivity.
  - pose proof (Z.log2_le_mono 10 n B) as L.
    change (Z.log2 10) with 3 in L.
    destruct (Z.to_nat (Z.log2 n)) as [|k] eqn:E; try lia.
    cbn [JS.digits].
    destruct (Z.ltb_spec n 10) as [?|_]; [lia|].
    destruct (Z.ltb_spec (n / 10) 10) as [_|?];
      [|Z.to_euclidean_division_equations; lia].
    reflexivity.
Qed.

Lemma digit_compare (a b : Z) :
  0 <= a <= 9 -> 0 <= b <= 9 ->
  Ascii.compare (JS.digit a) (JS.digit b) = (a ?= b).
Proof.
  intros Ha Hb. unfold Ascii.compare, JS.digit.
  rewrite !N_ascii_embedding by lia.
  rewrite Z2N.inj_compare by lia. apply Z.add_compare_mono_l.
Qed.

(** The text of a calendar date: four digits, two and two. *)
Lemma today_shape (d : Date) :
  calendar d ->
  today d
  = String (JS.digit (getFullYear d / 1000))
      (String (JS.digit (getFullYear d / 100 mod 10))
         (String (JS.digit (getFullYear d / 10 mod 10))
            (String (JS.digit (getFullYear d mod 10))
               (String "-"
                  (String (JS.digit ((getMonth d + 1) / 10))
                     (String (JS.digit ((getMonth d + 1) mod 10))
                        (String "-"
                           (String (JS.digit (getDate d / 10))
                              (String (JS.digit (getDate d mod 10))
                                 EmptyString))))))))).
Proof.
  intros (Hy & Hm & Hd). unfold today.
  rewrite (four_digits _ Hy), (two_digits (getMonth d + 1)), (two_digits (getDate d))
    by lia.
  reflexivity.
Qed.

Ltac digit_step :=
  rewrite digit_compare by (Z.to_euclidean_division_equations; lia);
  match goal with
  | |- context [?a ?= ?b] => destruct (Z.compare_spec a b)
  end.

(** X5.  For dates of the calendar with a four-digit year, [today] prints
    ten characters, and the order of the printed texts, which is the one
    the overdue comparisons [due_date < ?] use, is the order of the days:
    the text of one date is below that of another exactly when the day is
    earlier. *)
Theorem today_orders_days (d1 d2 : Date) :
  calendar d1 -> calendar d2 ->
  String.length (today d1) = 10%nat
  /\ (String.ltb (today d1) (today d2) = true <-> earlier d1 d2).
Proof.
  intros C1 C2. rewrite (today_shape d1 C1), (today_shape d2 C2).
  split; [reflexivity|].
  destruct C1 as (Hy1 & Hm1 & Hd1), C2 as (Hy2 & Hm2 & Hd2).
  unfold String.ltb, earlier. cbn [String.compare].
  change (Ascii.compare "-" "-") with Eq. cbv beta iota.
  do 4 (digit_step; [| split; [intros _|reflexivity];
                        Z.to_euclidean_division_equations; lia
                     | split; [discriminate|];
                        Z.to_euclidean_division_equations; lia]).
  do 2 (digit_step; [| split; [intros _|reflexivity];
                        Z.to_euclidean_division_equations; lia
                     | split; [discriminate|];
                        Z.to_euclidean_division_equations; lia]).
  do 2 (digit_step; [| split; [intros _|reflexivity];
                        Z.to_euclidean_division_equations; lia
                     | split; [discriminate|];
                        Z.to_euclidean_division_equations; lia]).
  split; [discriminate|]. Z.to_euclidean_division_equations; lia.
Qed.

(** The ninth of January is before the tenth, in the calendar and in the
    text, thanks to the padding. *)
Lemma today_orders_days_witness :
  calendar {| getFullYear := 2025; getMonth := 0; getDate := 9 |}
  /\ calendar {| getFullYear := 2025; getMonth := 0; getDate := 10 |}
  /\ today {| getFullYear := 2025; getMonth := 0; getDate := 9 |} = "2025-01-09"
  /\ (String.ltb (today {| getFullYear := 2025; getMonth := 0; getDate := 9 |})
                 (today {| getFullYear := 2025; getMonth := 0; getDate := 10 |}) = true
      <-> earlier {| getFullYear := 2025; getMonth := 0; getDate := 9 |}
                  {| getFullYear := 2025; getMonth := 0; getDate := 10 |}).
Proof.
  assert (C1 : calendar {| getFullYear := 2025; getMonth := 0; getDate := 9 |})
    by (unfold calendar; cbn; lia).
  assert (C2 : calendar {| getFullYear := 2025; getMonth := 0; getDate := 10 |})
    by (unfold calendar; cbn; lia).
  split; [exact C1|]. split; [exact C2|]. split; [reflexivity|].
  exact (proj2 (today_orders_days _ _ C1 C2)).
Defined.

(** ** Further properties of the repository *)

Lemma run_cases (s : Engine) (d : Database) (q : Stmt) :
  live s = Some d ->
  match exec (pragma s) q d with
  | Done d' n r =>
      exists s' res,
        run q s = (s', Returned res)
        /\ live s' = Some d'
        /\ idb s' = Some (Image d')
        /\ (forall i, r = Some i -> lastInsertRowid res = i)
  | Failed msg => run q s = (s, Threw (Err msg))
  end.
Proof.
  intros H. destruct (live_conn s d H) as (c & Hc & Ho & Hs & Hd).
  unfold pragma. rewrite Hc, <- Hd.
  rewrite (run_conn q s c Hc Ho).
  destruct (exec (foreign_keys c) q (data c)) as [d' n r|msg] eqn:E.
  - unfold db_run. rewrite Ho, E. cbn.
    do 2 eexists. split; [reflexivity|].
    unfold live; cbn. rewrite Hs. repeat split. now intros i ->.
  - unfold db_run. rewrite Ho, E. cbn. now rewrite (with_conn_same s c Hc).
Qed.

Lemma hd_error_map {A B} (f : A -> B) (l : list A) :
  hd_error (map f l) = option_map f (hd_error l).
Proof. now destruct l. Qed.

(** *** Categories *)

Lemma category_name_find (id : Z) (d : Database) :
  hd_error (category_name id d)
  = option_map name (find (fun c => cat_id c =? id) (categories d)).
Proof. unfold category_name. now rewrite hd_error_map, hd_error_filter. Qed.

Lemma deleteCategory_result (s : Engine) (d : Database) (id : Z) :
  live s = Some d ->
  match find (fun c => cat_id c =? id) (categories d) with
  | None => deleteCategory id s = (s, Threw (Err "Category not found."))
  | Some cat =>
      if existsb (fun bk => (normalized (category bk) =? normalized (name cat))%string)
                 (books d)
      then deleteCategory id s
           = (s, Threw (Err "Category is used by one or more books."))
      else
        exists s',
          deleteCategory id s = (s', Returned tt)
          /\ live s' = Some (with_categories d
                               (delete (fun c => cat_id c =? id) (categories d)))
          /\ idb s' = Some (Image (with_categories d
                               (delete (fun c => cat_id c =? id) (categories d))))
  end.
Proof.
  intros H. unfold deleteCategory.
  rewrite (bind_returned _ _ _ _ _ (query_live s d H _)).
  pose proof (category_name_find id d) as F.
  destruct (find (fun c => cat_id c =? id) (categories d)) as [cat|];
    destruct (category_name id d) as [|nm rest]; cbn in F; try discriminate F;
    [|reflexivity].
  injection F as ->.
  rewrite (bind_returned _ _ _ _ _ (query_live s d H _)).
  unfold book_in_category.
  induction (books d) as [|bk l IH]; cbn.
  - destruct (run_live s d H (DeleteCategory id) _ _ _ eq_refl)
      as (s' & res & R & L & P & _).
    rewrite (bind_returned _ _ _ _ _ R). unfold ret. now exists s'.
  - destruct (normalized (category bk) =? normalized (name cat))%string; cbn;
      [reflexivity|exact IH].
Qed.

(** X6.  [deleteCategory(id)] on a live engine: with no category of that
    id it throws "Category not found."; when some book's category equals
    the category's name under [LOWER(TRIM(.))] it throws "Category is used
    by one or more books."; in both cases the engine is untouched.
    Otherwise, and only then, the category rows of that id are removed,
    everything else is kept, and the result is persisted. *)
Theorem deleteCategory_cases (s : Engine) (d : Database) (id : Z) :
  live s = Some d ->
  (find (fun c => cat_id c =? id) (categories d) = None ->
   deleteCategory id s = (s, Threw (Err "Category not found.")))
  /\ (forall cat,
        find (fun c => cat_id c =? id) (categories d) = Some cat ->
        ((exists bk, In bk (books d)
                     /\ normalized (category bk) = normalized (name cat)) ->
         deleteCategory id s
         = (s, Threw (Err "Category is used by one or more books.")))
        /\ ((forall bk, In bk (books d) ->
                        normalized (category bk) <> normalized (name cat)) ->
            exists s' d',
              deleteCategory id s = (s', Returned tt)
              /\ live s' = Some d'
              /\ idb s' = Some (Image d')
              /\ categories d' = filter (fun c => negb (cat_id c =? id)) (categories d)
              /\ books d' = books d
              /\ borrows d' = borrows d
              /\ settings d' = settings d)).
Proof.
  intros H. pose proof (deleteCategory_result s d id H) as R. split.
  - intros F. now rewrite F in R.
  - intros cat F. rewrite F in R. split.
    + intros (bk & Hbk & Hn).
      assert (E : existsb (fun bk => (normalized (category bk)
                                      =? normalized (name cat))%string) (books d) = true).
      { apply existsb_exists. exists bk. split; [exact Hbk|].
        now apply String.eqb_eq. }
      now rewrite E in R.
    + intros Hno.
      assert (E : existsb (fun bk => (normalized (category bk)
                                      =? normalized (name cat))%string) (books d) = false).
      { apply not_true_is_false. intros E. apply existsb_exists in E.
        destruct E as (bk & Hbk & Hn). apply String.eqb_eq in Hn.
        exact (Hno bk Hbk Hn). }
      rewrite E in R. destruct R as (s' & T & L & P).
      exists s'. eexists. split; [exact T|]. split; [exact L|]. split; [exact P|].
      repeat split.
Qed.

Lemma deleteCategory_cases_witness :
  live Example.s0 = Some Example.seed
  /\ deleteCategory 7 Example.s0 = (Example.s0, Threw (Err "Category not found."))
  /\ deleteCategory 2 Example.s0
     = (Example.s0, Threw (Err "Category is used by one or more books."))
  /\ exists s' d',
       deleteCategory 2 (Example.started (with_books Example.seed [Example.dune]))
       = (s', Returned tt)
       /\ live s' = Some d'
       /\ idb s' = Some (Image d')
       /\ categories d' = filter (fun c => negb (cat_id c =? 2))
                                 (categories (with_books Example.seed [Example.dune]))
       /\ books d' = books (with_books Example.seed [Example.dune])
       /\ borrows d' = borrows (with_books Example.seed [Example.dune])
       /\ settings d' = settings (with_books Example.seed [Example.dune]).
Proof.
  split; [reflexivity|]. split; [|split].
  - exact (proj1 (deleteCategory_cases Example.s0 Example.seed 7 eq_refl) eq_refl).
  - apply (proj1 (proj2 (deleteCategory_cases Example.s0 Example.seed 2 eq_refl)
                    {| cat_id := 2; name := "Classics" |} eq_refl)).
    exists Example.emma. split; [right; now left|reflexivity].
  - apply (proj2 (proj2 (deleteCategory_cases
                           (Example.started (with_books Example.seed [Example.dune]))
                           (with_books Example.seed [Example.dune]) 2 eq_refl)
                    {| cat_id := 2; name := "Classics" |} eq_refl)).
    intros bk [<-|[]]. discriminate.
Defined.

Lemma fold_max_ge (l : list Z) (a x : Z) :
  In x (a :: l) -> x <= fold_right Z.max a l.
Proof.
  induction l as [|k rest IH]; cbn.
  - intros [->|[]]. lia.
  - intros [->|[->|H]].
    + specialize (IH (or_introl eq_refl)). lia.
    + lia.
    + specialize (IH (or_intror H)). lia.
Qed.

(** An inserted row gets an id above all the ids in the table. *)
Lemma next_id_fresh (ids : list Z) (i : Z) : In i ids -> i < next_id ids.
Proof.
  unfold next_id. destruct ids as [|j rest]; [intros []|].
  intros H. pose proof (fold_max_ge rest j i H). lia.
Qed.

Lemma addCategory_result (s : Engine) (d : Database) (n : string) :
  live s = Some d ->
  match category_named n d with
  | _ :: _ => addCategory n s = (s, Threw (Err "Category already exists."))
  | [] =>
      exists s',
        addCategory n s = (s', Returned (next_id (map cat_id (categories d))))
        /\ live s' = Some (with_categories d
             (categories d ++ [{| cat_id := next_id (map cat_id (categories d));
                                  name := n |}]))
        /\ idb s' = Some (Image (with_categories d
             (categories d ++ [{| cat_id := next_id (map cat_id (categories d));
                                  name := n |}])))
  end.
Proof.
  intros H. unfold addCategory.
  rewrite (bind_returned _ _ _ _ _ (query_live s d H _)).
  destruct (category_named n d); [|reflexivity].
  destruct (run_live s d H (InsertCategory n) _ _ _ eq_refl)
    as (s' & res & R & L & P & I).
  rewrite (bind_returned _ _ _ _ _ R). unfold ret.
  rewrite (I _ eq_refl). now exists s'.
Qed.

(** X7.  [addCategory(name)] on a live engine: when a category already
    carries the name under [LOWER(TRIM(.))] it throws "Category already
    exists." and the engine is untouched; otherwise one row with the name as
    given is appended and persisted, and the id returned is the id of that
    row, an id that no category had before. *)
Theorem addCategory_cases (s : Engine) (d : Database) (n : string) :
  live s = Some d ->
  ((exists c, In c (categories d) /\ normalized (name c) = normalized n) ->
   addCategory n s = (s, Threw (Err "Category already exists.")))
  /\ ((forall c, In c (categories d) -> normalized (name c) <> normalized n) ->
      exists s' d' id,
        addCategory n s = (s', Returned id)
        /\ live s' = Some d'
        /\ idb s' = Some (Image d')
        /\ categories d' = (categories d ++ [{| cat_id := id; name := n |}])%list
        /\ (forall c, In c (categories d) -> cat_id c <> id)
        /\ books d' = books d
        /\ borrows d' = borrows d).
Proof.
  intros H. pose proof (addCategory_result s d n H) as R.
  unfold category_named in R. split.
  - intros (c & Hc & Hn).
    assert (Hin : In c (filter (fun c => (normalized (name c) =? normalized n)%string)
                               (categories d))).
    { apply filter_In. split; [exact Hc|]. now apply String.eqb_eq. }
    destruct (filter (fun c => (normalized (name c) =? normalized n)%string)
                     (categories d)); [destruct Hin|exact R].
  - intros Hno. rewrite filter_nil in R.
    2:{ intros c Hc. apply String.eqb_neq. now apply Hno. }
    destruct R as (s' & T & L & P).
    exists s'. do 2 eexists. split; [exact T|]. split; [exact L|]. split; [exact P|].
    repeat split.
    intros c Hc E.
    pose proof (next_id_fresh (map cat_id (categories d)) (cat_id c)
                  (in_map cat_id _ _ Hc)). lia.
Qed.

Lemma addCategory_cases_witness :
  live Example.s0 = Some Example.seed
  /\ addCategory " sci-fi" Example.s0
     = (Example.s0, Threw (Err "Category already exists."))
  /\ exists s' d' id,
       addCategory "Poetry" Example.s0 = (s', Returned id)
       /\ live s' = Some d'
       /\ idb s' = Some (Image d')
       /\ categories d' = (categories Example.seed ++ [{| cat_id := id; name := "Poetry" |}])%list
       /\ (forall c, In c (categories Example.seed) -> cat_id c <> id)
       /\ books d' = books Example.seed
       /\ borrows d' = borrows Example.seed.
Proof.
  split; [reflexivity|]. split.
  - apply (proj1 (addCategory_cases Example.s0 Example.seed " sci-fi" eq_refl)).
    exists {| cat_id := 1; name := "Sci-Fi" |}. split; [now left|reflexivity].
  - apply (proj2 (addCategory_cases Example.s0 Example.seed "Poetry" eq_refl)).
    intros c [<-|[<-|[]]]; discriminate.
Defined.

(** *** What the operations keep *)

Lemma map_update_same {A B} (g : A -> B) (p : A -> bool) (f : A -> A) (l : list A) :
  (forall x, g (f x) = g x) -> map g (update p f l) = map g l.
Proof.
  intros H. unfold update. rewrite map_map. apply map_ext.
  intros x. destruct (p x); [apply H|reflexivity].
Qed.

Lemma NoDup_map_filter {A B} (g : A -> B) (p : A -> bool) (l : list A) :
  NoDup (map g l) -> NoDup (map g (filter p l)).
Proof.
  induction l as [|x l IH]; cbn; intros H; [constructor|].
  inversion H as [|? ? Hx Hl]; subst.
  destruct (p x); cbn; [constructor|]; auto.
  intros Hin. apply Hx. apply in_map_iff in Hin. destruct Hin as (y & E & Hy).
  apply filter_In in Hy. apply in_map_iff. exists y. tauto.
Qed.

Lemma NoDup_map_snoc {A B} (g : A -> B) (l : list A) (y : A) :
  NoDup (map g l) -> (forall x, In x l -> g x <> g y) -> NoDup (map g (l ++ [y])).
Proof.
  intros H Hy. rewrite map_app. cbn.
  apply NoDup_app; [exact H|repeat constructor; intros []|].
  intros b Hb [<-|[]]. apply in_map_iff in Hb. destruct Hb as (x & E & Hx).
  exact (Hy x Hx E).
Qed.

Lemma NoDup_next_id {A} (g : A -> Z) (l : list A) (y : A) :
  NoDup (map g l) -> g y = next_id (map g l) -> NoDup (map g (l ++ [y])).
Proof.
  intros H E. apply NoDup_map_snoc; [exact H|].
  intros x Hx. pose proof (next_id_fresh (map g l) (g x) (in_map g _ _ Hx)). lia.
Qed.

(** With unique ids, the row that [find] returns is the only one of its id. *)
Lemma find_unique (id : Z) (l : list Book) (book bk : Book) :
  NoDup (map bk_id l) ->
  find (fun x => bk_id x =? id) l = Some book ->
  In bk l -> bk_id bk = id -> bk = book.
Proof.
  induction l as [|x l IH]; cbn; intros N F Hin E; [destruct Hin|].
  inversion N as [|? ? Hx Hl]; subst.
  destruct (Z.eqb_spec (bk_id x) (bk_id bk)) as [Ex|Nx].
  - injection F as <-. destruct Hin as [->|Hin]; [reflexivity|].
    exfalso. apply Hx. rewrite Ex. now apply in_map.
  - destruct Hin as [->|Hin]; [congruence|]. now apply IH.
Qed.

Lemma exec_keeps_ids (fk : bool) (q : Stmt) (d d' : Database) (n : Z) (r : option Z) :
  ids_unique d -> exec fk q d = Done d' n r -> ids_unique d'.
Proof.
  intros (Nb & Nc & Nl) E. unfold ids_unique.
  destruct q; cbn in E.
  - injection E as <- _ _. cbn. repeat split; auto. now apply NoDup_next_id.
  - injection E as <- _ _. cbn. repeat split; auto.
    now rewrite map_update_same.
  - injection E as <- _ _. cbn. repeat split; auto.
    now rewrite map_update_same.
  - unfold delete_books in E.
    destruct (if fk then borrows_fk d else None) as [[|]|];
      [destruct (existsb _ _); [discriminate|]| |];
      injection E as <- _ _; cbn; repeat split; auto;
      now apply NoDup_map_filter.
  - injection E as <- _ _. cbn. repeat split; auto. now apply NoDup_next_id.
  - injection E as <- _ _. cbn. repeat split; auto.
    now rewrite map_update_same.
  - injection E as <- _ _. cbn. repeat split; auto.
    now rewrite map_update_same.
  - injection E as <- _ _. cbn. repeat split; auto. now apply NoDup_map_filter.
  - destruct (if fk then borrows_fk d else None);
      [destruct (has_book bk d); [|discriminate]|];
      injection E as <- _ _; cbn; repeat split; auto; now apply NoDup_next_id.
  - injection E as <- _ _. cbn. repeat split; auto.
    now rewrite map_update_same.
Qed.

Lemma addBook_result (s : Engine) (d : Database) (a : BookArgs) :
  live s = Some d ->
  match books_like (a_title a) (isbn_of a) d with
  | existing :: _ =>
      exists s',
        addBook (a_title a) (a_author a) (a_isbn a) (a_category a) (a_copies a) s
        = (s', Returned {| added_id := bk_id existing; added_merged := true;
                           added_copies := copies existing + copies_of a |})
        /\ live s' = Some (with_books d
             (update (fun bk => bk_id bk =? bk_id existing)
                     (fun bk => set_copies bk (copies bk + copies_of a)) (books d)))
        /\ idb s' = Some (Image (with_books d
             (update (fun bk => bk_id bk =? bk_id existing)
                     (fun bk => set_copies bk (copies bk + copies_of a)) (books d))))
  | [] =>
      exists s',
        addBook (a_title a) (a_author a) (a_isbn a) (a_category a) (a_copies a) s
        = (s', Returned {| added_id := next_id (map bk_id (books d));
                           added_merged := false; added_copies := copies_of a |})
        /\ live s' = Some (with_books d (books d ++
             [{| bk_id := next_id (map bk_id (books d)); title := a_title a;
                 author := a_author a; isbn := Some (isbn_of a);
                 category := a_category a; copies := copies_of a |}]))
        /\ idb s' = Some (Image (with_books d (books d ++
             [{| bk_id := next_id (map bk_id (books d)); title := a_title a;
                 author := a_author a; isbn := Some (isbn_of a);
                 category := a_category a; copies := copies_of a |}])))
  end.
Proof.
  intros H. unfold addBook. fold (isbn_of a). fold (copies_of a).
  rewrite (bind_returned _ _ _ _ _ (query_live s d H _)).
  destruct (books_like (a_title a) (isbn_of a) d) as [|existing rest].
  - destruct (run_live s d H
                (InsertBook (a_title a) (a_author a) (isbn_of a) (a_category a)
                            (copies_of a)) _ _ _ eq_refl)
      as (s' & res & R & L & P & I).
    rewrite (bind_returned _ _ _ _ _ R). unfold ret.
    rewrite (I _ eq_refl). now exists s'.
  - destruct (run_live s d H (UpdateCopies (copies_of a) (bk_id existing)) _ _ _ eq_refl)
      as (s' & res & R & L & P & _).
    rewrite (bind_returned _ _ _ _ _ R). unfold ret. now exists s'.
Qed.

Lemma updateBook_result (s : Engine) (d : Database) (id : Z) (t a c : string) :
  live s = Some d ->
  exists s',
    updateBook id t a c s = (s', Returned tt)
    /\ live s' = Some (with_books d
         (update (fun bk => bk_id bk =? id)
                 (fun bk => {| bk_id := bk_id bk; title := t; author := a;
                               isbn := isbn bk; category := c; copies := copies bk |})
                 (books d)))
    /\ idb s' = Some (Image (with_books d
         (update (fun bk => bk_id bk =? id)
                 (fun bk => {| bk_id := bk_id bk; title := t; author := a;
                               isbn := isbn bk; category := c; copies := copies bk |})
                 (books d)))).
Proof.
  intros H. unfold updateBook.
  destruct (run_live s d H (UpdateBook t a c id) _ _ _ eq_refl)
    as (s' & res & R & L & P & _).
  rewrite (bind_returned _ _ _ _ _ R). unfold ret. now exists s'.
Qed.

Lemma deleteBook_result (s : Engine) (d : Database) (id : Z) :
  live s = Some d ->
  match active_loan_of id d with
  | _ :: _ =>
      deleteBook id s
      = (s, Threw (Err "Book has active loans — return all copies first."))
  | [] =>
      match exec (pragma s) (DeleteBook id) d with
      | Done d' _ _ =>
          exists s',
            deleteBook id s = (s', Returned tt)
            /\ live s' = Some d' /\ idb s' = Some (Image d')
      | Failed msg => deleteBook id s = (s, Threw (Err msg))
      end
  end.
Proof.
  intros H. unfold deleteBook.
  rewrite (bind_returned _ _ _ _ _ (query_live s d H _)).
  destruct (active_loan_of id d); [|reflexivity].
  pose proof (run_cases s d (DeleteBook id) H) as R.
  destruct (exec (pragma s) (DeleteBook id) d) as [d' n r|msg].
  - destruct R as (s' & res & R & L & P & _).
    rewrite (bind_returned _ _ _ _ _ R). unfold ret. now exists s'.
  - now rewrite (bind_threw _ _ _ _ _ R).
Qed.

Lemma names_unique_categories (d d' : Database) :
  categories d' = categories d -> names_unique d -> names_unique d'.
Proof. intros E U c1 c2. rewrite E. apply U. Qed.

Lemma names_unique_filter (d d' : Database) (p : Category -> bool) :
  categories d' = filter p (categories d) -> names_unique d -> names_unique d'.
Proof.
  intros E U c1 c2 H1 H2. rewrite E in H1, H2.
  apply filter_In in H1, H2. apply U; tauto.
Qed.

Lemma copies_nonneg_update (l : list Book) (p : Book -> bool) (f : Book -> Book) :
  (forall bk, In bk l -> 0 <= copies bk) ->
  (forall bk, In bk l -> p bk = true -> 0 <= copies (f bk)) ->
  forall bk, In bk (update p f l) -> 0 <= copies bk.
Proof.
  intros Hl Hf bk Hin. unfold update in Hin. apply in_map_iff in Hin.
  destruct Hin as (x & <- & Hx). destruct (p x) eqn:E; auto.
Qed.

(** One call on a live engine with consistent tables leaves a live engine
    with consistent tables, whether it returns or throws; and what is
    persisted stays the image of what is live. *)
Lemma perform_keeps (c : Call) (s : Engine) (d : Database) :
  live s = Some d -> consistent d -> sensible c ->
  exists d',
    live (fst (perform c s)) = Some d'
    /\ consistent d'
    /\ (idb s = Some (Image d) -> idb (fst (perform c s)) = Some (Image d')).
Proof.
  intros H (I & C & U) S.
  assert (Same : forall e : Error,
             exists d', live (fst (s, @Threw unit e)) = Some d'
                        /\ consistent d'
                        /\ (idb s = Some (Image d)
                            -> idb (fst (s, @Threw unit e)) = Some (Image d'))).
  { intros e. exists d. cbn. split; [exact H|]. split; [exact (conj I (conj C U))|auto]. }
  destruct c as [a|id t a c|id|n|id n|id|bk who out due|b bk r]; cbn [perform].
  - (* addBook *)
    pose proof (addBook_result s d a H) as R. cbn in S.
    destruct (books_like (a_title a) (isbn_of a) d) as [|existing rest];
      destruct R as (s' & T & L & P);
      rewrite (bind_returned _ _ _ _ _ T); unfold ret; cbn [fst];
      eexists; (split; [exact L|]); (split; [|intros _; exact P]).
    + split; [|split].
      * exact (exec_keeps_ids false (InsertBook _ _ _ _ _) d _ _ _ I eq_refl).
      * intros x Hx. cbn in Hx. apply in_app_or in Hx.
        destruct Hx as [Hx|[<-|[]]]; [now apply C|exact S].
      * now apply (names_unique_categories d).
    + split; [|split].
      * exact (exec_keeps_ids false (UpdateCopies _ _) d _ _ _ I eq_refl).
      * intros x Hx. cbn in Hx. revert x Hx. apply copies_nonneg_update; [exact C|].
        intros x Hx _. cbn. specialize (C x Hx). lia.
      * now apply (names_unique_categories d).
  - (* updateBook *)
    destruct (updateBook_result s d id t a c H) as (s' & T & L & P).
    rewrite T. cbn [fst]. eexists. split; [exact L|]. split; [|intros _; exact P].
    split; [|split].
    + exact (exec_keeps_ids false (UpdateBook _ _ _ _) d _ _ _ I eq_refl).
    + intros x Hx. cbn in Hx. revert x Hx. apply copies_nonneg_update; [exact C|].
      intros x Hx _. cbn. now apply C.
    + now apply (names_unique_categories d).
  - (* deleteBook *)
    pose proof (deleteBook_result s d id H) as R.
    destruct (active_loan_of id d); [|rewrite R; apply Same].
    destruct (exec (pragma s) (DeleteBook id) d) as [d' n r|msg] eqn:E;
      [|rewrite R; apply Same].
    destruct R as (s' & T & L & P). rewrite T. cbn [fst].
    exists d'. split; [exact L|]. split; [|intros _; exact P].
    split; [exact (exec_keeps_ids _ _ _ _ _ _ I E)|].
    cbn in E. unfold delete_books in E.
    destruct (if pragma s then borrows_fk d else None) as [[|]|];
      [destruct (existsb _ _); [discriminate|]| |];
      injection E as <- _ _; (split; [|now apply (names_unique_categories d)]);
      intros x Hx; cbn in Hx; apply filter_In in Hx; now apply C.
  - (* addCategory *)
    pose proof (addCategory_result s d n H) as R.
    destruct (category_named n d) eqn:E;
      [|rewrite (bind_threw _ _ _ _ _ R); apply Same].
    destruct R as (s' & T & L & P).
    rewrite (bind_returned _ _ _ _ _ T). unfold ret. cbn [fst].
    eexists. split; [exact L|]. split; [|intros _; exact P].
    split; [|split].
    + exact (exec_keeps_ids false (InsertCategory _) d _ _ _ I eq_refl).
    + intros x Hx. now apply C.
    + exact (addCategory_keeps_names_unique s s' d _ n _ H U T L).
  - (* updateCategory *)
    pose proof (updateCategory_result s d H id n) as R.
    destruct (other_category_named n id d); [|rewrite R; apply Same].
    destruct (find (fun c => cat_id c =? id) (categories d)) as [old|];
      [|rewrite R; apply Same].
    destruct R as (s' & T & L & P). rewrite T. cbn [fst].
    eexists. split; [exact L|]. split; [|intros _; exact P].
    split; [|split].
    + eapply (exec_keeps_ids false (UpdateBooksCategory n (name old)));
        [eapply (exec_keeps_ids false (UpdateCategoryName n id));
         [exact I|reflexivity]|reflexivity].
    + intros x Hx. cbn in Hx. revert x Hx. apply copies_nonneg_update; [exact C|].
      intros x Hx _. cbn. now apply C.
    + exact (updateCategory_keeps_names_unique s s' d _ id n H U T L).
  - (* deleteCategory *)
    pose proof (deleteCategory_result s d id H) as R.
    destruct (find (fun c => cat_id c =? id) (categories d)) as [cat|];
      [|rewrite R; apply Same].
    destruct (existsb _ (books d)); [rewrite R; apply Same|].
    destruct R as (s' & T & L & P). rewrite T. cbn [fst].
    eexists. split; [exact L|]. split; [|intros _; exact P].
    split; [|split].
    + exact (exec_keeps_ids false (DeleteCategory _) d _ _ _ I eq_refl).
    + intros x Hx. now apply C.
    + now apply (names_unique_filter d _ (fun c => negb (cat_id c =? id))).
  - (* recordBorrow *)
    pose proof (recordBorrow_result s d H bk who out due) as R.
    destruct (find (fun x => bk_id x =? bk) (books d)) as [book|] eqn:F;
      [|rewrite R; apply Same].
    destruct (Z.ltb_spec (copies book) 1) as [|Hge]; [rewrite R; apply Same|].
    destruct R as (s' & T & L & P). rewrite T. cbn [fst].
    eexists. split; [exact L|]. split; [|intros _; exact P].
    split; [|split].
    + eapply (exec_keeps_ids false (UpdateCopies (-1) bk));
        [eapply (exec_keeps_ids false (InsertBorrow bk who out due));
         [exact I|reflexivity]|reflexivity].
    + intros x Hx. cbn in Hx. revert x Hx. apply copies_nonneg_update; [exact C|].
      intros x Hx Hid. apply Z.eqb_eq in Hid. cbn.
      rewrite (find_unique bk (books d) book x (proj1 I) F Hx Hid). lia.
    + now apply (names_unique_categories d).
  - (* recordReturn *)
    destruct (recordReturn_result s d H b bk r) as (s' & T & L & P).
    rewrite T. cbn [fst]. eexists. split; [exact L|]. split; [|intros _; exact P].
    split; [|split].
    + eapply (exec_keeps_ids false (UpdateCopies 1 bk));
        [eapply (exec_keeps_ids false (UpdateReturnDate r b));
         [exact I|reflexivity]|reflexivity].
    + intros x Hx. cbn in Hx. revert x Hx. apply copies_nonneg_update; [exact C|].
      intros x Hx _. cbn. specialize (C x Hx). lia.
    + now apply (names_unique_categories d).
Qed.

(** X8.  Any sequence of calls of the mutating operations, in which no
    book is added with a negative number of copies, started on a live
    engine whose tables have unique ids, no negative copies and unique
    category names, ends on a live engine whose tables still have them,
    whichever calls returned and whichever threw: the engine is never left
    closed or inside a transaction, and no book ever has a negative number
    of copies.  If the persisted blob was the image of the live database at
    the start, it is at the end. *)
Theorem session_keeps_consistent (calls : list Call) (s : Engine) (d : Database) :
  live s = Some d -> consistent d -> Forall sensible calls ->
  exists d',
    live (session calls s) = Some d'
    /\ consistent d'
    /\ (idb s = Some (Image d) -> idb (session calls s) = Some (Image d')).
Proof.
  revert s d. induction calls as [|c calls IH]; intros s d H K S.
  - exists d. cbn. auto.
  - inversion S as [|? ? Sc Sr]; subst.
    destruct (perform_keeps c s d H K Sc) as (d1 & L1 & K1 & P1).
    destruct (IH _ d1 L1 K1 Sr) as (d2 & L2 & K2 & P2).
    exists d2. cbn [session fold_left]. split; [exact L2|]. split; [exact K2|].
    intros P. apply P2, P1, P.
Qed.

Lemma consistent_seed : consistent Example.seed.
Proof.
  split; [|split].
  - unfold ids_unique; cbn.
    repeat split; repeat (constructor; [cbn; intuition discriminate|]); constructor.
  - intros bk [<-|[<-|[]]]; cbn; lia.
  - intros c1 c2 [<-|[<-|[]]] [<-|[<-|[]]]; cbn; intros E;
      try reflexivity; discriminate E.
Qed.

Lemma session_keeps_consistent_witness :
  live Example.s0 = Some Example.seed
  /\ consistent Example.seed
  /\ Forall sensible
       [ Call_recordBorrow 1 "Ada" "2025-01-01" "2025-01-15";
         Call_recordBorrow 1 "Ben" "2025-01-02" "2025-01-16";
         Call_recordBorrow 1 "Cy" "2025-01-03" "2025-01-17";
         Call_deleteBook 1;
         Call_addBook {| a_title := "dune"; a_author := "F. H."; a_isbn := Some "123";
                         a_category := "Sci-Fi"; a_copies := None |};
         Call_addCategory "sci-fi";
         Call_recordReturn 5 1 "2025-01-10" ]
  /\ exists d',
       live (session
               [ Call_recordBorrow 1 "Ada" "2025-01-01" "2025-01-15";
                 Call_recordBorrow 1 "Ben" "2025-01-02" "2025-01-16";
                 Call_recordBorrow 1 "Cy" "2025-01-03" "2025-01-17";
                 Call_deleteBook 1;
                 Call_addBook {| a_title := "dune"; a_author := "F. H.";
                                 a_isbn := Some "123"; a_category := "Sci-Fi";
                                 a_copies := None |};
                 Call_addCategory "sci-fi";
                 Call_recordReturn 5 1 "2025-01-10" ] Example.s0) = Some d'
       /\ consistent d'
       /\ (idb Example.s0 = Some (Image Example.seed) ->
           idb (session
                  [ Call_recordBorrow 1 "Ada" "2025-01-01" "2025-01-15";
                    Call_recordBorrow 1 "Ben" "2025-01-02" "2025-01-16";
                    Call_recordBorrow 1 "Cy" "2025-01-03" "2025-01-17";
                    Call_deleteBook 1;
                    Call_addBook {| a_title := "dune"; a_author := "F. H.";
                                    a_isbn := Some "123"; a_category := "Sci-Fi";
                                    a_copies := None |};
                    Call_addCategory "sci-fi";
                    Call_recordReturn 5 1 "2025-01-10" ] Example.s0)
           = Some (Image d')).
Proof.
  assert (F : Forall sensible
       [ Call_recordBorrow 1 "Ada" "2025-01-01" "2025-01-15";
         Call_recordBorrow 1 "Ben" "2025-01-02" "2025-01-16";
         Call_recordBorrow 1 "Cy" "2025-01-03" "2025-01-17";
         Call_deleteBook 1;
         Call_addBook {| a_title := "dune"; a_author := "F. H."; a_isbn := Some "123";
                         a_category := "Sci-Fi"; a_copies := None |};
         Call_addCategory "sci-fi";
         Call_recordReturn 5 1 "2025-01-10" ]).
  { repeat constructor. cbn. lia. }
  split; [reflexivity|]. split; [exact consistent_seed|]. split; [exact F|].
  exact (session_keeps_consistent _ Example.s0 Example.seed eq_refl consistent_seed F).
Defined.

(** The third borrow of Dune finds no copy, the deletion finds open loans
    and the category exists: three of the seven calls throw.  The second
    "dune" is merged into the first, and Dune ends with two copies. *)
Example session_on_seed :
  option_map (fun d => (map copies (books d), List.length (borrows d),
                        List.length (categories d)))
    (live (session
             [ Call_recordBorrow 1 "Ada" "2025-01-01" "2025-01-15";
               Call_recordBorrow 1 "Ben" "2025-01-02" "2025-01-16";
               Call_recordBorrow 1 "Cy" "2025-01-03" "2025-01-17";
               Call_deleteBook 1;
               Call_addBook {| a_title := "dune"; a_author := "F. H.";
                               a_isbn := Some "123"; a_category := "Sci-Fi";
                               a_copies := None |};
               Call_addCategory "sci-fi";
               Call_recordReturn 5 1 "2025-01-10" ] Example.s0))
  = Some ([2; 0], 6%nat, 2%nat).
Proof. reflexivity. Qed.

(** *** Copies on the shelf and copies on loan *)

Lemma update_none {A} (p : A -> bool) (f : A -> A) (l : list A) :
  (forall x, In x l -> p x = false) -> update p f l = l.
Proof.
  intros H. unfold update. induction l as [|x l IH]; cbn; [reflexivity|].
  rewrite (H x (or_introl eq_refl)), IH; [reflexivity|].
  intros y Hy. apply H. now right.
Qed.

Lemma filter_id_unique (id : Z) (l : list Book) (book : Book) :
  NoDup (map bk_id l) ->
  find (fun x => bk_id x =? id) l = Some book ->
  filter (fun x => bk_id x =? id) l = [book].
Proof.
  induction l as [|x l IH]; cbn; intros N F; [discriminate|].
  inversion N as [|? ? Hx Hl]; subst.
  destruct (Z.eqb_spec (bk_id x) id) as [E|E].
  - injection F as <-. f_equal. apply filter_nil.
    intros y Hy. apply Z.eqb_neq. intros Ey. apply Hx. rewrite E, <- Ey.
    now apply in_map.
  - now apply IH.
Qed.

Lemma find_none_filter {A} (p : A -> bool) (l : list A) :
  find p l = None -> filter p l = [].
Proof. intros F. apply filter_nil. now apply find_none_iff. Qed.

(** The copies on the shelf of each book after [copies + delta] on the
    rows of id [bookId]. *)
Lemma on_shelf_update (d : Database) (bookId delta id : Z) (book : Book) :
  NoDup (map bk_id (books d)) ->
  find (fun x => bk_id x =? bookId) (books d) = Some book ->
  fold_right Z.add 0
    (map copies
       (filter (fun bk => bk_id bk =? id)
          (update (fun bk => bk_id bk =? bookId)
                  (fun bk => set_copies bk (copies bk + delta)) (books d))))
  = on_shelf id d + (if id =? bookId then delta else 0).
Proof.
  intros N F. unfold on_shelf. rewrite filter_update by reflexivity.
  destruct (Z.eqb_spec id bookId) as [->|Ne].
  - rewrite (filter_id_unique bookId _ book N F). unfold update. cbn.
    rewrite (proj2 (find_some _ _ F)). cbn. lia.
  - rewrite update_none; [lia|].
    intros x Hx. apply filter_In in Hx. destruct Hx as [_ Hx].
    apply Z.eqb_eq in Hx. apply Z.eqb_neq. congruence.
Qed.

Lemma count_update_unique (q : Borrow -> bool) (f : Borrow -> Borrow)
      (l : list Borrow) (loan : Borrow) :
  NoDup (map b_id l) -> In loan l ->
  count q (update (fun b => b_id b =? b_id loan) f l)
  = count q l - (if q loan then 1 else 0) + (if q (f loan) then 1 else 0).
Proof.
  unfold count, update.
  induction l as [|x l IH]; cbn; intros N Hin; [destruct Hin|].
  inversion N as [|? ? Hx Hl]; subst.
  destruct Hin as [->|Hin].
  - rewrite Z.eqb_refl.
    assert (E : map (fun r => if b_id r =? b_id loan then f r else r) l = l).
    { apply (update_none (fun b => b_id b =? b_id loan) f).
      intros y Hy. apply Z.eqb_neq. intros Ey. apply Hx. rewrite <- Ey.
      now apply in_map. }
    rewrite E. destruct (q loan), (q (f loan)); cbn [List.length]; lia.
  - destruct (Z.eqb_spec (b_id x) (b_id loan)) as [E|E].
    + exfalso. apply Hx. rewrite E. now apply in_map.
    + specialize (IH Hl Hin). destruct (q x); cbn [List.length]; lia.
Qed.

(** X9.  On a live engine whose rows have unique ids, the loan cycle
    conserves, for every book, the copies on the shelf plus the copies out
    on loan: a [recordBorrow] that returns moves one copy of its book from
    the shelf to the loans, and a [recordReturn] of an open loan, with the
    loan's own book id, moves it back.  A [recordReturn] of a loan that is
    already closed has nothing to move back and adds one copy to the shelf
    of the book named, out of nothing. *)
Theorem loans_conserve_stock (s : Engine) (d : Database) :
  live s = Some d -> ids_unique d ->
  (forall bookId who out due s1,
      recordBorrow bookId who out due s = (s1, Returned tt) ->
      exists d1,
        live s1 = Some d1
        /\ on_shelf bookId d1 = on_shelf bookId d - 1
        /\ on_loan bookId d1 = on_loan bookId d + 1
        /\ forall id, on_shelf id d1 + on_loan id d1 = on_shelf id d + on_loan id d)
  /\ (forall loan book ret,
        In loan (borrows d) ->
        find (fun x => bk_id x =? book_id loan) (books d) = Some book ->
        exists s1 d1,
          recordReturn (b_id loan) (book_id loan) ret s = (s1, Returned tt)
          /\ live s1 = Some d1
          /\ forall id,
               on_shelf id d1 + on_loan id d1
               = on_shelf id d + on_loan id d
                 + (if (id =? book_id loan) && negb (is_open loan) then 1 else 0)).
Proof.
  intros H (Nb & _ & Nl). split.
  - intros bookId who out due s1 B.
    pose proof (recordBorrow_result s d H bookId who out due) as R.
    destruct (find (fun bk => bk_id bk =? bookId) (books d)) as [book|] eqn:F;
      [|rewrite B in R; discriminate R].
    destruct (copies book <? 1); [rewrite B in R; discriminate R|].
    destruct R as (s' & T & L & _). rewrite B in T. injection T as <-.
    eexists. split; [exact L|].
    assert (S : forall id,
               on_shelf id (with_books
                  (with_borrows d (borrows d ++
                     [{| b_id := next_id (map b_id (borrows d)); book_id := bookId;
                         borrower := who; date_out := out; due_date := due;
                         return_date := None |}]))
                  (update (fun bk => bk_id bk =? bookId)
                          (fun bk => set_copies bk (copies bk - 1)) (books d)))
               = on_shelf id d + (if id =? bookId then -1 else 0)).
    { intros id. exact (on_shelf_update d bookId (-1) id book Nb F). }
    assert (O : forall id,
               on_loan id (with_books
                  (with_borrows d (borrows d ++
                     [{| b_id := next_id (map b_id (borrows d)); book_id := bookId;
                         borrower := who; date_out := out; due_date := due;
                         return_date := None |}]))
                  (update (fun bk => bk_id bk =? bookId)
                          (fun bk => set_copies bk (copies bk - 1)) (books d)))
               = on_loan id d + (if id =? bookId then 1 else 0)).
    { intros id. unfold on_loan. cbn [borrows with_books with_borrows].
      unfold count. rewrite filter_app, length_app. cbn.
      rewrite (Z.eqb_sym bookId id).
      destruct (id =? bookId); cbn [List.length]; lia. }
    split; [rewrite S, Z.eqb_refl; lia|].
    split; [rewrite O, Z.eqb_refl; lia|].
    intros id. rewrite S, O. destruct (id =? bookId); lia.
  - intros loan book ret Hin F.
    destruct (recordReturn_result s d H (b_id loan) (book_id loan) ret)
      as (s1 & T & L & _).
    exists s1. eexists. split; [exact T|]. split; [exact L|].
    intros id.
    assert (S : on_shelf id (with_books
                  (with_borrows d
                     (update (fun b => b_id b =? b_id loan)
                             (fun b => set_return_date b (Some ret)) (borrows d)))
                  (update (fun bk => bk_id bk =? book_id loan)
                          (fun bk => set_copies bk (copies bk + 1)) (books d)))
                = on_shelf id d + (if id =? book_id loan then 1 else 0))
      by exact (on_shelf_update d (book_id loan) 1 id book Nb F).
    rewrite S. unfold on_loan. cbn [borrows with_books with_borrows].
    rewrite (count_update_unique _ _ _ loan Nl Hin). cbn.
    unfold is_open at 2 4. 
    rewrite (Z.eqb_sym (book_id loan) id).
    destruct (id =? book_id loan), (is_null (return_date loan)); cbn; lia.
Qed.

Lemma loans_conserve_stock_witness :
  live Example.s0 = Some Example.seed
  /\ ids_unique Example.seed
  /\ ((forall bookId who out due s1,
          recordBorrow bookId who out due Example.s0 = (s1, Returned tt) ->
          exists d1,
            live s1 = Some d1
            /\ on_shelf bookId d1 = on_shelf bookId Example.seed - 1
            /\ on_loan bookId d1 = on_loan bookId Example.seed + 1
            /\ forall id,
                 on_shelf id d1 + on_loan id d1
                 = on_shelf id Example.seed + on_loan id Example.seed)
      /\ (forall loan book ret,
            In loan (borrows Example.seed) ->
            find (fun x => bk_id x =? book_id loan) (books Example.seed) = Some book ->
            exists s1 d1,
              recordReturn (b_id loan) (book_id loan) ret Example.s0 = (s1, Returned tt)
              /\ live s1 = Some d1
              /\ forall id,
                   on_shelf id d1 + on_loan id d1
                   = on_shelf id Example.seed + on_loan id Example.seed
                     + (if (id =? book_id loan) && negb (is_open loan)
                        then 1 else 0))).
Proof.
  split; [reflexivity|]. split; [exact (proj1 consistent_seed)|].
  exact (loans_conserve_stock Example.s0 Example.seed eq_refl (proj1 consistent_seed)).
Defined.

(** *** A book after [addBook] and after [updateBook] *)

Lemma find_snoc {A} (p : A -> bool) (l : list A) (x : A) :
  find p l = None -> find p (l ++ [x]) = if p x then Some x else None.
Proof.
  induction l as [|y l IH]; cbn; [reflexivity|].
  destruct (p y); [discriminate|exact IH].
Qed.

Lemma find_update {A} (p : A -> bool) (f : A -> A) (l : list A) :
  (forall x, p (f x) = p x) ->
  find p (update p f l) = option_map f (find p l).
Proof.
  intros Hp. unfold update. induction l as [|x l IH]; cbn; [reflexivity|].
  destruct (p x) eqn:E; [now rewrite Hp, E|now rewrite E].
Qed.

Lemma find_update_other {A} (p q : A -> bool) (f : A -> A) (l : list A) :
  (forall x, p (f x) = p x) -> (forall x, p x = true -> q x = false) ->
  find p (update q f l) = find p l.
Proof.
  intros Hp Hq. unfold update. induction l as [|x l IH]; cbn; [reflexivity|].
  destruct (p x) eqn:E.
  - now rewrite (Hq x E), E.
  - destruct (q x); [rewrite Hp|]; now rewrite E.
Qed.

Lemma find_In_unique (l : list Book) (bk : Book) :
  NoDup (map bk_id l) -> In bk l ->
  find (fun x => bk_id x =? bk_id bk) l = Some bk.
Proof.
  intros N Hin.
  destruct (find (fun x => bk_id x =? bk_id bk) l) as [y|] eqn:F.
  - f_equal. symmetry. exact (find_unique _ l y bk N F Hin eq_refl).
  - pose proof (find_none _ _ F bk Hin) as E. cbn in E.
    rewrite Z.eqb_refl in E. discriminate E.
Qed.

Lemma same_title_isbn_refl (t i a c : string) (id n : Z) :
  same_title_isbn t i
    {| bk_id := id; title := t; author := a; isbn := Some i; category := c;
       copies := n |} = true.
Proof. unfold same_title_isbn. cbn. now rewrite !String.eqb_refl. Qed.

(** X10.  What [addBook] returns can be read back.  On a live engine with
    unique book ids, [getBook] on the id returned finds a book that carries
    the title and isbn given, under [LOWER(TRIM(.))], and exactly the number
    of copies returned.  When the book is new it has the four fields as
    given, the isbn left out stored as the empty text; when it was merged,
    it is a book of the catalogue with only its copies changed: the author
    and the category given are dropped. *)
Theorem addBook_then_getBook (s s1 : Engine) (d : Database) (a : BookArgs) (r : Added) :
  live s = Some d ->
  NoDup (map bk_id (books d)) ->
  addBook (a_title a) (a_author a) (a_isbn a) (a_category a) (a_copies a) s
  = (s1, Returned r) ->
  exists bk,
    getBook (added_id r) s1 = (s1, Returned (Some bk))
    /\ copies bk = added_copies r
    /\ same_title_isbn (a_title a) (isbn_of a) bk = true
    /\ (added_merged r = false ->
        bk = {| bk_id := added_id r; title := a_title a; author := a_author a;
                isbn := Some (isbn_of a); category := a_category a;
                copies := copies_of a |}
        /\ forall old, In old (books d) ->
                       same_title_isbn (a_title a) (isbn_of a) old = false
                       /\ bk_id old <> added_id r)
    /\ (added_merged r = true ->
        exists old, In old (books d)
                    /\ bk = set_copies old (copies old + copies_of a)).
Proof.
  intros H N A. pose proof (addBook_result s d a H) as R.
  destruct (books_like (a_title a) (isbn_of a) d) as [|existing rest] eqn:B;
    destruct R as (s' & E & L & _); rewrite A in E; injection E as <- ->.
  - eexists. rewrite (getBook_live s1 _ L). cbn [added_id books with_books].
    rewrite find_snoc.
    + cbn [bk_id]. rewrite Z.eqb_refl. split; [reflexivity|].
      split; [reflexivity|]. split; [apply same_title_isbn_refl|].
      split; [|discriminate]. intros _. split; [reflexivity|].
      intros old Hold. split.
      * destruct (same_title_isbn (a_title a) (isbn_of a) old) eqn:S; [|reflexivity].
        assert (I : In old (books_like (a_title a) (isbn_of a) d))
          by (apply filter_In; now split).
        rewrite B in I. destruct I.
      * pose proof (next_id_fresh _ _ (in_map bk_id _ _ Hold)). cbn. lia.
    + apply find_none_iff. intros x Hx. apply Z.eqb_neq.
      pose proof (next_id_fresh _ _ (in_map bk_id _ _ Hx)). lia.
  - assert (I : In existing (books_like (a_title a) (isbn_of a) d))
      by (rewrite B; now left).
    apply filter_In in I. destruct I as [Hin S].
    exists (set_copies existing (copies existing + copies_of a)).
    rewrite (getBook_live s1 _ L). cbn [added_id books with_books].
    rewrite find_update by reflexivity.
    rewrite (find_In_unique _ _ N Hin). cbn [option_map].
    split; [reflexivity|]. split; [reflexivity|].
    split; [exact S|]. split; [discriminate|].
    intros _. exists existing. now split.
Qed.

Lemma addBook_then_getBook_witness :
  live Example.s0 = Some Example.seed
  /\ NoDup (map bk_id (books Example.seed))
  /\ addBook "dune " "?" (Some "123") "Unfiled" (Some 3) Example.s0
     = (fst (addBook "dune " "?" (Some "123") "Unfiled" (Some 3) Example.s0),
        Returned {| added_id := 1; added_merged := true; added_copies := 5 |})
  /\ exists bk,
       getBook 1 (fst (addBook "dune " "?" (Some "123") "Unfiled" (Some 3) Example.s0))
       = (fst (addBook "dune " "?" (Some "123") "Unfiled" (Some 3) Example.s0),
          Returned (Some bk))
       /\ copies bk = 5
       /\ same_title_isbn "dune " "123" bk = true
       /\ (true = false ->
           bk = {| bk_id := 1; title := "dune "; author := "?"; isbn := Some "123";
                   category := "Unfiled"; copies := 3 |}
           /\ forall old, In old (books Example.seed) ->
                          same_title_isbn "dune " "123" old = false
                          /\ bk_id old <> 1)
       /\ (true = true ->
           exists old, In old (books Example.seed)
                       /\ bk = set_copies old (copies old + 3)).
Proof.
  split; [reflexivity|].
  split; [exact (proj1 (proj1 consistent_seed))|].
  split; [reflexivity|].
  exact (addBook_then_getBook Example.s0 _ Example.seed
           {| a_title := "dune "; a_author := "?"; a_isbn := Some "123";
              a_category := "Unfiled"; a_copies := Some 3 |}
           {| added_id := 1; added_merged := true; added_copies := 5 |}
           eq_refl (proj1 (proj1 consistent_seed)) eq_refl).
Defined.

(** X11.  [updateBook] on a live engine always returns.  A book that
    [getBook] found before is found afterwards with the title, author and
    category given, as given (the category need not be one of the categories
    table), and with its isbn and copies as they were; every other id reads
    as before.  For an id that no book has, the call returns all the same
    and the database is the one from before. *)
Theorem updateBook_then_getBook (s : Engine) (d : Database) (id : Z) (t a c : string) :
  live s = Some d ->
  exists s1 d1,
    updateBook id t a c s = (s1, Returned tt)
    /\ live s1 = Some d1
    /\ getBook id s1
       = (s1, Returned
                (option_map
                   (fun bk => {| bk_id := id; title := t; author := a; isbn := isbn bk;
                                 category := c; copies := copies bk |})
                   (find (fun bk => bk_id bk =? id) (books d))))
    /\ (forall other, other <> id ->
          getBook other s1
          = (s1, Returned (find (fun bk => bk_id bk =? other) (books d))))
    /\ categories d1 = categories d
    /\ borrows d1 = borrows d
    /\ (find (fun bk => bk_id bk =? id) (books d) = None -> d1 = d).
Proof.
  intros H. destruct (updateBook_result s d id t a c H) as (s1 & U & L & _).
  exists s1. eexists. split; [exact U|]. split; [exact L|].
  rewrite !(getBook_live s1 _ L). cbn [books with_books categories borrows].
  split; [|split; [|split; [reflexivity|split; [reflexivity|]]]].
  - rewrite find_update by reflexivity.
    destruct (find (fun bk => bk_id bk =? id) (books d)) as [bk|] eqn:F;
      [|reflexivity].
    cbn. apply find_some in F. destruct F as [_ F]. apply Z.eqb_eq in F.
    now rewrite F.
  - intros other Ne. rewrite (getBook_live s1 _ L). cbn [books with_books].
    rewrite find_update_other; [reflexivity|reflexivity|].
    intros x E. apply Z.eqb_eq in E. apply Z.eqb_neq. congruence.
  - intros F. rewrite update_none; [now destruct d|].
    now apply find_none_iff.
Qed.

Lemma updateBook_then_getBook_witness :
  live Example.s0 = Some Example.seed
  /\ exists s1 d1,
       updateBook 2 "Emma." "J. Austen" "Novels" Example.s0 = (s1, Returned tt)
       /\ live s1 = Some d1
       /\ getBook 2 s1
          = (s1, Returned
                   (option_map
                      (fun bk => {| bk_id := 2; title := "Emma."; author := "J. Austen";
                                    isbn := isbn bk; category := "Novels";
                                    copies := copies bk |})
                      (find (fun bk => bk_id bk =? 2) (books Example.seed))))
       /\ (forall other, other <> 2 ->
             getBook other s1
             = (s1, Returned (find (fun bk => bk_id bk =? other) (books Example.seed))))
       /\ categories d1 = categories Example.seed
       /\ borrows d1 = borrows Example.seed
       /\ (find (fun bk => bk_id bk =? 2) (books Example.seed) = None
           -> d1 = Example.seed).
Proof.
  split; [reflexivity|].
  exact (updateBook_then_getBook Example.s0 Example.seed 2 "Emma." "J. Austen" "Novels"
           eq_refl).
Defined.

(** *** The listing of open loans *)

Lemma insert_sorted_In_rev {A} (before : A -> A -> bool) (x y : A) (l : list A) :
  x = y \/ In x l -> In x (insert_sorted before y l).
Proof.
  induction l as [|z l IH]; cbn.
  - intros [->|[]]. now left.
  - destruct (before z y); cbn.
    + intros [->|[->|H]]; [right; apply IH; now left|now left|right; apply IH; now right].
    + intros [->|H]; [now left|now right].
Qed.

Lemma In_order_by {A} (before : A -> A -> bool) (x : A) (l : list A) :
  In x l -> In x (order_by before l).
Proof.
  unfold order_by. induction l as [|y l IH]; cbn; [auto|].
  intros [->|H]; apply insert_sorted_In_rev; [now left|right; now apply IH].
Qed.

Lemma In_join (d : Database) (b : Borrow) (bk : Book) :
  In (b, bk) (borrows_join_books d)
  <-> In b (borrows d) /\ In bk (books d) /\ bk_id bk = book_id b.
Proof.
  unfold borrows_join_books. rewrite in_flat_map. split.
  - intros (b' & Hb & Hin). apply in_map_iff in Hin.
    destruct Hin as (bk' & E & Hbk). injection E as -> ->.
    apply filter_In in Hbk. destruct Hbk as [Hbk I]. apply Z.eqb_eq in I. auto.
  - intros (Hb & Hbk & I). exists b. split; [exact Hb|].
    apply in_map. apply filter_In. split; [exact Hbk|now apply Z.eqb_eq].
Qed.

Lemma In_active_borrows (d : Database) (r : ActiveRow) :
  In r (active_borrows d)
  <-> exists b bk, In b (borrows d) /\ In bk (books d) /\ bk_id bk = book_id b
                   /\ return_date b = None /\ r = active_row (b, bk).
Proof.
  unfold active_borrows. rewrite in_map_iff. split.
  - intros ([b bk] & E & Hin). apply order_by_In, filter_In in Hin.
    destruct Hin as [J O]. apply In_join in J. destruct J as (Hb & Hbk & I).
    exists b, bk. cbn in O. unfold is_open in O.
    destruct (return_date b); [discriminate|]. auto.
  - intros (b & bk & Hb & Hbk & I & O & ->). exists (b, bk). split; [reflexivity|].
    apply In_order_by, filter_In. split; [now apply In_join|].
    cbn. unfold is_open. now rewrite O.
Qed.

Lemma In_update {A} (p : A -> bool) (f : A -> A) (l : list A) (y : A) :
  In y (update p f l) <-> exists x, In x l /\ y = if p x then f x else x.
Proof.
  unfold update. rewrite in_map_iff. split.
  - intros (x & E & H). exists x. now split.
  - intros (x & H & E). exists x. now split.
Qed.

(** X12.  The listing of open loans follows the loan cycle.  On a live
    engine, after a [recordBorrow] that returns, [getActiveBorrows] lists the
    new loan, under the id that no loan had before, with the borrower and
    the dates as given and the title of the book, and it still lists every
    loan it listed before.  After [recordReturn], no row of the listing
    carries the id of the loan returned, and the listing has no row that it
    did not have before. *)
Theorem active_borrows_follow_loans (s : Engine) (d : Database) :
  live s = Some d ->
  (forall bookId who out due s1,
      recordBorrow bookId who out due s = (s1, Returned tt) ->
      exists book,
        find (fun bk => bk_id bk =? bookId) (books d) = Some book
        /\ exists rows,
             getActiveBorrows s1 = (s1, Returned rows)
             /\ In {| act_id := next_id (map b_id (borrows d)); act_borrower := who;
                      act_date_out := out; act_due_date := due;
                      act_book_id := bookId; act_book_title := title book |} rows
             /\ (forall r, In r (active_borrows d) -> In r rows)
             /\ (forall r, In r (active_borrows d) ->
                           act_id r <> next_id (map b_id (borrows d))))
  /\ (forall borrowId bookId ret,
        exists s1 rows,
          recordReturn borrowId bookId ret s = (s1, Returned tt)
          /\ getActiveBorrows s1 = (s1, Returned rows)
          /\ (forall r, In r rows -> act_id r <> borrowId)
          /\ (forall r, In r rows -> In r (active_borrows d))
          /\ (forall r, In r (active_borrows d) -> act_id r <> borrowId -> In r rows)).
Proof.
  intros H. split.
  - intros bookId who out due s1 B.
    pose proof (recordBorrow_result s d H bookId who out due) as R.
    destruct (find (fun bk => bk_id bk =? bookId) (books d)) as [book|] eqn:F;
      [|rewrite B in R; discriminate R].
    destruct (copies book <? 1); [rewrite B in R; discriminate R|].
    destruct R as (s' & T & L & _). rewrite B in T. injection T as <-.
    exists book. split; [reflexivity|]. eexists.
    split; [exact (query_live s1 _ L _)|].
    destruct (find_some _ _ F) as [Hin I]. apply Z.eqb_eq in I.
    split; [|split].
    + apply In_active_borrows.
      eexists. exists (set_copies book (copies book - 1)).
      cbn [books borrows with_books with_borrows].
      split; [apply in_or_app; right; now left|].
      split; [apply In_update; exists book; split;
              [exact Hin|now rewrite (proj2 (Z.eqb_eq _ _) I)]|].
      split; [exact I|]. split; [reflexivity|]. unfold active_row. cbn.
      now rewrite I.
    + intros r Hr. apply In_active_borrows in Hr.
      destruct Hr as (b & bk & Hb & Hbk & J & O & ->).
      apply In_active_borrows.
      exists b, (if bk_id bk =? bookId then set_copies bk (copies bk - 1) else bk).
      cbn [books borrows with_books with_borrows].
      split; [apply in_or_app; now left|].
      split; [apply In_update; now exists bk|].
      destruct (bk_id bk =? bookId); auto.
    + intros r Hr. apply In_active_borrows in Hr.
      destruct Hr as (b & bk & Hb & _ & _ & _ & ->). cbn.
      pose proof (next_id_fresh _ _ (in_map b_id _ _ Hb)). lia.
  - intros borrowId bookId ret.
    destruct (recordReturn_result s d H borrowId bookId ret) as (s1 & T & L & _).
    exists s1. eexists. split; [exact T|].
    split; [exact (query_live s1 _ L _)|].
    split; [|split].
    + intros r Hr. apply In_active_borrows in Hr.
      destruct Hr as (b & bk & Hb & _ & _ & O & ->).
      cbn [books borrows with_books with_borrows] in Hb.
      apply In_update in Hb. destruct Hb as (b0 & _ & ->). cbn.
      destruct (Z.eqb_spec (b_id b0) borrowId) as [E|E]; [discriminate O|exact E].
    + intros r Hr. apply In_active_borrows in Hr.
      destruct Hr as (b & bk & Hb & Hbk & J & O & ->).
      cbn [books borrows with_books with_borrows] in Hb, Hbk.
      apply In_update in Hb. destruct Hb as (b0 & Hb0 & ->).
      apply In_update in Hbk. destruct Hbk as (bk0 & Hbk0 & ->).
      destruct (b_id b0 =? borrowId); [discriminate O|].
      apply In_active_borrows. exists b0, bk0.
      split; [exact Hb0|]. split; [exact Hbk0|].
      destruct (bk_id bk0 =? bookId); auto.
    + intros r Hr Ne. apply In_active_borrows in Hr.
      destruct Hr as (b & bk & Hb & Hbk & J & O & ->). cbn in Ne.
      apply In_active_borrows.
      exists b, (if bk_id bk =? bookId then set_copies bk (copies bk + 1) else bk).
      cbn [books borrows with_books with_borrows].
      split; [apply In_update; exists b; split; [exact Hb|];
              now rewrite (proj2 (Z.eqb_neq _ _) Ne)|].
      split; [apply In_update; now exists bk|].
      destruct (bk_id bk =? bookId); auto.
Qed.

Lemma active_borrows_follow_loans_witness :
  live Example.s0 = Some Example.seed
  /\ ((forall bookId who out due s1,
          recordBorrow bookId who out due Example.s0 = (s1, Returned tt) ->
          exists book,
            find (fun bk => bk_id bk =? bookId) (books Example.seed) = Some book
            /\ exists rows,
                 getActiveBorrows s1 = (s1, Returned rows)
                 /\ In {| act_id := next_id (map b_id (borrows Example.seed));
                          act_borrower := who; act_date_out := out;
                          act_due_date := due; act_book_id := bookId;
                          act_book_title := title book |} rows
                 /\ (forall r, In r (active_borrows Example.seed) -> In r rows)
                 /\ (forall r, In r (active_borrows Example.seed) ->
                               act_id r <> next_id (map b_id (borrows Example.seed))))
      /\ (forall borrowId bookId ret,
            exists s1 rows,
              recordReturn borrowId bookId ret Example.s0 = (s1, Returned tt)
              /\ getActiveBorrows s1 = (s1, Returned rows)
              /\ (forall r, In r rows -> act_id r <> borrowId)
              /\ (forall r, In r rows -> In r (active_borrows Example.seed))
              /\ (forall r, In r (active_borrows Example.seed) ->
                            act_id r <> borrowId -> In r rows))).
Proof.
  split; [reflexivity|].
  exact (active_borrows_follow_loans Example.s0 Example.seed eq_refl).
Defined.

(** Ben's open loan of Emma is listed; Di's open loan is not, its book being
    gone.  After Ada borrows Dune both are listed, the earlier due date
    first. *)
Example active_borrows_on_seed :
  snd (getActiveBorrows Example.s0)
  = Returned [ {| act_id := 1; act_borrower := "Ben"; act_date_out := "2025-01-02";
                  act_due_date := "2025-01-20"; act_book_id := 2;
                  act_book_title := "Emma" |} ]
  /\ snd (getActiveBorrows
            (fst (recordBorrow 1 "Ada" "2025-01-05" "2025-01-19" Example.s0)))
     = Returned [ {| act_id := 5; act_borrower := "Ada"; act_date_out := "2025-01-05";
                     act_due_date := "2025-01-19"; act_book_id := 1;
                     act_book_title := "Dune" |};
                  {| act_id := 1; act_borrower := "Ben"; act_date_out := "2025-01-02";
                     act_due_date := "2025-01-20"; act_book_id := 2;
                     act_book_title := "Emma" |} ].
Proof. split; reflexivity. Qed.

(** *** [ORDER BY] *)

Lemma insert_sorted_Permutation {A} (before : A -> A -> bool) (x : A) (l : list A) :
  Permutation (insert_sorted before x l) (x :: l).
Proof.
  induction l as [|y l IH]; cbn; [reflexivity|].
  destruct (before y x); [|reflexivity].
  rewrite IH. apply perm_swap.
Qed.

Lemma order_by_Permutation {A} (before : A -> A -> bool) (l : list A) :
  Permutation (order_by before l) l.
Proof.
  unfold order_by. induction l as [|x l IH]; cbn; [reflexivity|].
  rewrite insert_sorted_Permutation. now constructor.
Qed.

Lemma insert_sorted_HdRel {A} (before : A -> A -> bool) (a x : A) (l : list A) :
  before x a = false -> HdRel (fun u v => before v u = false) a l ->
  HdRel (fun u v => before v u = false) a (insert_sorted before x l).
Proof.
  intros Hx Hl. destruct l as [|y l]; cbn; [now constructor|].
  destruct (before y x); constructor; [now inversion Hl|exact Hx].
Qed.

Lemma insert_sorted_Sorted {A} (before : A -> A -> bool) (x : A) (l : list A) :
  (forall u v, before u v = true -> before v u = false) ->
  Sorted (fun u v => before v u = false) l ->
  Sorted (fun u v => before v u = false) (insert_sorted before x l).
Proof.
  intros Asym. induction l as [|y l IH]; cbn; intros S.
  - repeat constructor.
  - inversion S as [|? ? Sl Hd]; subst.
    destruct (before y x) eqn:B.
    + constructor; [now apply IH|].
      apply insert_sorted_HdRel; [now apply Asym|exact Hd].
    + constructor; [exact S|now constructor].
Qed.

(** What [ORDER BY] gives is in order, whatever it does with ties: no row
    is followed by one that must come strictly before it. *)
Lemma order_by_Sorted {A} (before : A -> A -> bool) (l : list A) :
  (forall u v, before u v = true -> before v u = false) ->
  Sorted (fun u v => before v u = false) (order_by before l).
Proof.
  intros Asym. unfold order_by. induction l as [|x l IH]; cbn; [constructor|].
  now apply insert_sorted_Sorted.
Qed.

Lemma ltb_asym (a b : string) : String.ltb a b = true -> String.ltb b a = false.
Proof.
  unfold String.ltb. rewrite (String.compare_antisym a b).
  destruct (String.compare b a); cbn; congruence.
Qed.

Lemma ltb_false_leb (a b : string) : String.ltb b a = false <-> String.leb a b = true.
Proof.
  unfold String.ltb, String.leb. rewrite (String.compare_antisym a b).
  destruct (String.compare b a); cbn; split; congruence.
Qed.

Lemma Sorted_impl {A} (R Q : A -> A -> Prop) (l : list A) :
  (forall x y, R x y -> Q x y) -> Sorted R l -> Sorted Q l.
Proof.
  intros I. induction 1 as [|x l S IH Hd]; constructor; [exact IH|].
  destruct Hd; constructor. now apply I.
Qed.

Lemma order_by_text_Sorted {A} (key : A -> string) (l : list A) :
  Sorted (fun x y => String.leb (key x) (key y) = true)
         (order_by (fun x y => String.ltb (key x) (key y)) l).
Proof.
  apply (Sorted_impl (fun u v => String.ltb (key v) (key u) = false)).
  - intros x y. apply ltb_false_leb.
  - apply (order_by_Sorted (fun x y => String.ltb (key x) (key y))).
    intros u v. apply ltb_asym.
Qed.

(** X13.  [getAllBooks] and [getAllCategories] on a live engine return
    every row of their table, each as often as the table has it, in
    ascending order of the title, respectively the name.  The order is that
    of the bytes of the text: an upper-case letter comes before every
    lower-case one. *)
Theorem listings_are_sorted_tables (s : Engine) (d : Database) :
  live s = Some d ->
  exists bs cs,
    getAllBooks s = (s, Returned bs)
    /\ Permutation bs (books d)
    /\ Sorted (fun x y => String.leb (title x) (title y) = true) bs
    /\ getAllCategories s = (s, Returned cs)
    /\ Permutation cs (categories d)
    /\ Sorted (fun x y => String.leb (name x) (name y) = true) cs.
Proof.
  intros H. exists (all_books d), (all_categories d).
  split; [exact (query_live s d H _)|].
  split; [apply order_by_Permutation|].
  split; [apply (order_by_text_Sorted title)|].
  split; [exact (query_live s d H _)|].
  split; [apply order_by_Permutation|apply (order_by_text_Sorted name)].
Qed.

Lemma listings_are_sorted_tables_witness :
  live Example.s0 = Some Example.seed
  /\ exists bs cs,
       getAllBooks Example.s0 = (Example.s0, Returned bs)
       /\ Permutation bs (books Example.seed)
       /\ Sorted (fun x y => String.leb (title x) (title y) = true) bs
       /\ getAllCategories Example.s0 = (Example.s0, Returned cs)
       /\ Permutation cs (categories Example.seed)
       /\ Sorted (fun x y => String.leb (name x) (name y) = true) cs.
Proof.
  split; [reflexivity|].
  exact (listings_are_sorted_tables Example.s0 Example.seed eq_refl).
Defined.

Example getAllCategories_on_seed :
  snd (getAllCategories Example.s0)
  = Returned [ {| cat_id := 2; name := "Classics" |};
               {| cat_id := 1; name := "Sci-Fi" |} ]
  /\ snd (getAllCategories (fst (addCategory "art" Example.s0)))
     = Returned [ {| cat_id := 2; name := "Classics" |};
                  {| cat_id := 1; name := "Sci-Fi" |};
                  {| cat_id := 3; name := "art" |} ].
Proof. split; reflexivity. Qed.

(** *** Borrowers *)

Lemma Sorted_strict (l : list string) :
  NoDup l -> Sorted (fun x y => String.leb x y = true) l ->
  Sorted (fun x y => String.ltb x y = true) l.
Proof.
  induction l as [|x l IH]; intros N S; [constructor|].
  inversion N as [|? ? Hx Hl]; subst. inversion S as [|? ? Sl Hd]; subst.
  constructor; [now apply IH|].
  destruct Hd as [|y l' L]; constructor.
  unfold String.leb in L. unfold String.ltb.
  destruct (String.compare x y) eqn:C; [|reflexivity|discriminate L].
  apply String.compare_eq_iff in C. subst. exfalso. apply Hx. now left.
Qed.

(** X14.  [getUniqueBorrowers] on a live engine returns the borrowers of
    the open loans: a name is listed exactly when some loan without a return
    date carries it, character for character, it is listed once, and the
    names are in strictly ascending order. *)
Theorem getUniqueBorrowers_lists_open_loans (s : Engine) (d : Database) :
  live s = Some d ->
  exists names,
    getUniqueBorrowers s = (s, Returned names)
    /\ (forall n, In n names
                  <-> exists b, In b (borrows d) /\ return_date b = None
                                /\ borrower b = n)
    /\ NoDup names
    /\ Sorted (fun x y => String.ltb x y = true) names.
Proof.
  intros H. exists (open_borrowers d).
  split; [exact (query_live s d H _)|].
  assert (N : NoDup (open_borrowers d)).
  { unfold open_borrowers.
    apply (Permutation_NoDup (Permutation_sym (order_by_Permutation _ _))).
    apply NoDup_nodup. }
  split; [|split; [exact N|]].
  - intros n. unfold open_borrowers. split.
    + intros I. apply order_by_In, nodup_In, in_map_iff in I.
      destruct I as (b & E & I). apply filter_In in I. destruct I as [I O].
      exists b. unfold is_open in O. destruct (return_date b); [discriminate|]. auto.
    + intros (b & I & O & E). apply In_order_by, nodup_In, in_map_iff.
      exists b. split; [exact E|]. apply filter_In. split; [exact I|].
      unfold is_open. now rewrite O.
  - apply Sorted_strict; [exact N|].
    exact (order_by_text_Sorted (fun x : string => x) _).
Qed.

Lemma getUniqueBorrowers_lists_open_loans_witness :
  live Example.s0 = Some Example.seed
  /\ exists names,
       getUniqueBorrowers Example.s0 = (Example.s0, Returned names)
       /\ (forall n, In n names
                     <-> exists b, In b (borrows Example.seed) /\ return_date b = None
                                   /\ borrower b = n)
       /\ NoDup names
       /\ Sorted (fun x y => String.ltb x y = true) names.
Proof.
  split; [reflexivity|].
  exact (getUniqueBorrowers_lists_open_loans Example.s0 Example.seed eq_refl).
Defined.

Lemma In_active_borrows_of (who : string) (d : Database) (r : ActiveRow) :
  In r (active_borrows_of who d) <-> In r (active_borrows d) /\ act_borrower r = who.
Proof.
  unfold active_borrows_of, active_borrows. rewrite !in_map_iff. split.
  - intros ([b bk] & E & I). apply order_by_In, filter_In in I.
    destruct I as [J O]. cbn in O. apply andb_true_iff in O. destruct O as [O W].
    apply String.eqb_eq in W. split.
    + exists (b, bk). split; [exact E|]. apply In_order_by, filter_In. now split.
    + now rewrite <- E.
  - intros (([b bk] & E & I) & W). apply order_by_In, filter_In in I.
    destruct I as [J O]. exists (b, bk). split; [exact E|].
    apply In_order_by, filter_In. split; [exact J|]. cbn in O |- *.
    rewrite O. rewrite <- E in W. cbn in W. now apply String.eqb_eq.
Qed.

(** X15.  [getActiveBorrowsByBorrower] on a live engine returns the rows
    of [getActiveBorrows] whose borrower is the text given, compared as it
    is: neither case nor surrounding spaces are folded, unlike the names of
    categories.  A borrower that [getUniqueBorrowers] lists gets no row when
    the books of all their open loans are gone. *)
Theorem getActiveBorrowsByBorrower_selects (s : Engine) (d : Database) (who : string) :
  live s = Some d ->
  exists rows,
    getActiveBorrowsByBorrower who s = (s, Returned rows)
    /\ (forall r, In r rows <-> In r (active_borrows d) /\ act_borrower r = who)
    /\ Sorted (fun x y => String.leb (act_due_date x) (act_due_date y) = true) rows
    /\ ((forall b, In b (borrows d) -> borrower b = who -> return_date b = None ->
                   forall bk, In bk (books d) -> bk_id bk <> book_id b) ->
        rows = []).
Proof.
  intros H. exists (active_borrows_of who d).
  split; [exact (query_live s d H _)|].
  assert (M := In_active_borrows_of who d).
  split; [exact M|]. split.
  - unfold active_borrows_of.
    assert (G : forall l : list (Borrow * Book),
               Sorted (fun x y => String.leb (due_date (fst x)) (due_date (fst y)) = true) l ->
               Sorted (fun x y => String.leb (act_due_date x) (act_due_date y) = true)
                      (map active_row l)).
    { induction 1 as [|x l S IH Hd]; cbn; constructor; [exact IH|].
      destruct Hd; cbn; constructor. assumption. }
    apply G. exact (order_by_text_Sorted (fun r : Borrow * Book => due_date (fst r)) _).
  - intros Gone. destruct (active_borrows_of who d) as [|r rest]; [reflexivity|].
    exfalso. destruct (proj1 (M r) (or_introl eq_refl)) as [I W].
    apply In_active_borrows in I.
    destruct I as (b & bk & Hb & Hbk & J & O & ->). cbn in W.
    exact (Gone b Hb W O bk Hbk J).
Qed.

Lemma getActiveBorrowsByBorrower_selects_witness :
  live Example.s0 = Some Example.seed
  /\ exists rows,
       getActiveBorrowsByBorrower "Di" Example.s0 = (Example.s0, Returned rows)
       /\ (forall r, In r rows
                     <-> In r (active_borrows Example.seed) /\ act_borrower r = "Di")
       /\ Sorted (fun x y => String.leb (act_due_date x) (act_due_date y) = true) rows
       /\ ((forall b, In b (borrows Example.seed) -> borrower b = "Di" ->
                      return_date b = None ->
                      forall bk, In bk (books Example.seed) -> bk_id bk <> book_id b) ->
           rows = []).
Proof.
  split; [reflexivity|].
  exact (getActiveBorrowsByBorrower_selects Example.s0 Example.seed "Di" eq_refl).
Defined.

(** Di has an open loan and is offered as a borrower, but the loan's book is
    gone and the list of Di's loans is empty; "ben" is not "Ben". *)
Example borrowers_on_seed :
  snd (getUniqueBorrowers Example.s0) = Returned ["Ben"; "Di"]
  /\ snd (getActiveBorrowsByBorrower "Di" Example.s0) = Returned []
  /\ snd (getActiveBorrowsByBorrower "ben" Example.s0) = Returned []
  /\ snd (getActiveBorrowsByBorrower "Ben" Example.s0)
     = snd (getActiveBorrows Example.s0).
Proof. repeat split; reflexivity. Qed.

(** *** [LIKE] and the search terms *)

Lemma like_percent (p s : string) :
  like (String "%" p) s
  = like p s || match s with
                | EmptyString => false
                | String _ t => like (String "%" p) t
                end.
Proof. destruct s; reflexivity. Qed.

Lemma like_char (c : ascii) (p s : string) :
  Ascii.eqb c "%" = false ->
  like (String c p) s
  = match s with
    | EmptyString => false
    | String d s' =>
        (Ascii.eqb c "_" || Ascii.eqb (lower_char c) (lower_char d)) && like p s'
    end.
Proof. intros E. cbn. now rewrite E. Qed.

Lemma like_empty (s : string) : like "" s = true -> s = "".
Proof. destruct s; [reflexivity|discriminate]. Qed.

Lemma like_any (s : string) : like "%" s = true.
Proof.
  induction s as [|c s IH]; [reflexivity|].
  rewrite like_percent, IH. apply orb_true_r.
Qed.

(** A pattern followed by [%] matches what the pattern matches, followed by
    anything. *)
Lemma like_then_any (p m post : string) :
  like p m = true -> like (p ++ "%") (m ++ post) = true.
Proof.
  revert m. induction p as [|c p IH]; intros m L.
  - apply like_empty in L. subst. apply like_any.
  - cbn [append]. destruct (Ascii.eqb c "%") eqn:E.
    + apply Ascii.eqb_eq in E. subst c.
      induction m as [|d m IHm].
      * rewrite like_percent in L. rewrite like_percent.
        rewrite orb_false_r in L. now rewrite (IH _ L).
      * rewrite like_percent in L. cbn [append]. rewrite like_percent.
        apply orb_true_iff in L. destruct L as [L|L].
        -- pose proof (IH _ L) as L'. cbn [append] in L'. now rewrite L'.
        -- rewrite (IHm L). apply orb_true_r.
    + rewrite like_char in L by exact E.
      destruct m as [|d m]; [discriminate|].
      cbn [append]. rewrite like_char by exact E.
      apply andb_true_iff in L. destruct L as [C L].
      now rewrite C, (IH _ L).
Qed.

Lemma any_then_like (q pre s : string) :
  like q s = true -> like (String "%" q) (pre ++ s) = true.
Proof.
  intros L. induction pre as [|c pre IH]; cbn [append]; rewrite like_percent.
  - now rewrite L.
  - rewrite IH. apply orb_true_r.
Qed.

(** A text matches itself as a pattern, wild cards or not, and so does any
    text that differs from it in the case of letters. *)
Lemma like_same (p m : string) : LOWER m = LOWER p -> like p m = true.
Proof.
  revert m. induction p as [|c p IH]; intros [|d m] E; try discriminate E;
    [reflexivity|].
  cbn [LOWER] in E. injection E as Ec Em.
  destruct (Ascii.eqb c "%") eqn:P.
  - apply Ascii.eqb_eq in P. subst c.
    rewrite like_percent, (like_percent p m), (IH _ Em).
    rewrite orb_true_l. apply orb_true_r.
  - rewrite like_char by exact P.
    rewrite Ec, Ascii.eqb_refl, orb_true_r. exact (IH _ Em).
Qed.

Lemma occurs_like (term s : string) :
  occurs_in term s -> like ("%" ++ term ++ "%") s = true.
Proof.
  intros (pre & mid & post & -> & E).
  apply any_then_like, like_then_any, like_same, E.
Qed.

Lemma like_percent_inv (q s : string) :
  like (String "%" q) s = true -> exists pre s2, s = pre ++ s2 /\ like q s2 = true.
Proof.
  induction s as [|c s IH]; rewrite like_percent; intros L.
  - rewrite orb_false_r in L. now exists "", "".
  - apply orb_true_iff in L. destruct L as [L|L].
    + now exists "", (String c s).
    + destruct (IH L) as (pre & s2 & -> & L2). now exists (String c pre), s2.
Qed.

Lemma like_plain_prefix (term s : string) :
  has_wildcard term = false ->
  like (term ++ "%") s = true ->
  exists mid post, s = mid ++ post /\ LOWER mid = LOWER term.
Proof.
  revert s. induction term as [|c t IH]; intros s W L.
  - now exists "", s.
  - cbn [has_wildcard] in W. apply orb_false_iff in W. destruct W as [W Wt].
    apply orb_false_iff in W. destruct W as [Wp Wu].
    cbn [append] in L. rewrite like_char in L by exact Wp.
    destruct s as [|d s]; [discriminate|]. rewrite Wu in L. cbn [orb] in L.
    apply andb_true_iff in L. destruct L as [C L]. apply Ascii.eqb_eq in C.
    destruct (IH s Wt L) as (mid & post & -> & E).
    exists (String d mid), post. split; [reflexivity|]. cbn [LOWER]. now rewrite C, E.
Qed.

Lemma like_occurs (term s : string) :
  has_wildcard term = false ->
  like ("%" ++ term ++ "%") s = true -> occurs_in term s.
Proof.
  intros W L. apply like_percent_inv in L. destruct L as (pre & s2 & -> & L).
  destruct (like_plain_prefix term s2 W L) as (mid & post & -> & E).
  now exists pre, mid, post.
Qed.

(** X16.  [searchBooks(term)] on a live engine returns books of the table,
    in ascending order of the title, and among them every book in which the
    term occurs, up to the case of ASCII letters, in the title, the author,
    the isbn or the category.  When the term has neither [%] nor [_] these
    are the only books returned; the two characters are not escaped and
    match as wild cards.  The empty term returns what [getAllBooks]
    returns, books without an isbn included. *)
Theorem searchBooks_finds (s : Engine) (d : Database) (term : string) :
  live s = Some d ->
  exists rows,
    searchBooks term s = (s, Returned rows)
    /\ (forall bk, In bk rows -> In bk (books d))
    /\ (forall bk, In bk (books d) -> book_mentions term bk -> In bk rows)
    /\ (has_wildcard term = false -> forall bk, In bk rows -> book_mentions term bk)
    /\ Sorted (fun x y => String.leb (title x) (title y) = true) rows
    /\ (term = "" -> getAllBooks s = (s, Returned rows)).
Proof.
  intros H. exists (books_matching ("%" ++ term ++ "%") d).
  split; [exact (query_live s d H _)|]. unfold books_matching.
  split; [|split; [|split; [|split]]].
  - intros bk I. now apply order_by_In, filter_In in I.
  - intros bk I M. apply In_order_by, filter_In. split; [exact I|].
    destruct M as [M|[M|[(i & E & M)|M]]]; apply occurs_like in M.
    + now rewrite M.
    + rewrite M. now rewrite orb_true_r.
    + rewrite E. cbn [like_null]. rewrite M. now rewrite orb_true_r.
    + rewrite M. now rewrite orb_true_r.
  - intros W bk I. apply order_by_In, filter_In in I. destruct I as [_ M].
    apply orb_true_iff in M. destruct M as [M|M]; [|right; right; right].
    + apply orb_true_iff in M. destruct M as [M|M]; [|right; right; left].
      * apply orb_true_iff in M. destruct M as [M|M]; [left|right; left];
          now apply like_occurs.
      * destruct (isbn bk) as [i|]; [|discriminate M].
        exists i. split; [reflexivity|]. now apply like_occurs.
    + now apply like_occurs.
  - apply (order_by_text_Sorted title).
  - intros ->. unfold getAllBooks. rewrite (query_live s d H all_books).
    unfold all_books. do 3 f_equal. symmetry. apply forallb_filter_id. apply forallb_forall.
    intros bk _.
    assert (O : occurs_in "" (title bk)) by (now exists "", "", (title bk)).
    now rewrite (occurs_like "" (title bk) O).
Qed.

Lemma searchBooks_finds_witness :
  live Example.s0 = Some Example.seed
  /\ exists rows,
       searchBooks "AUST" Example.s0 = (Example.s0, Returned rows)
       /\ (forall bk, In bk rows -> In bk (books Example.seed))
       /\ (forall bk, In bk (books Example.seed) -> book_mentions "AUST" bk -> In bk rows)
       /\ (has_wildcard "AUST" = false -> forall bk, In bk rows -> book_mentions "AUST" bk)
       /\ Sorted (fun x y => String.leb (title x) (title y) = true) rows
       /\ ("AUST" = "" -> getAllBooks Example.s0 = (Example.s0, Returned rows)).
Proof.
  split; [reflexivity|].
  exact (searchBooks_finds Example.s0 Example.seed "AUST" eq_refl).
Defined.

(** "AUST" finds Jane Austen's book; an underscore stands for any one
    character, so "D_ne" finds Dune and "5_" finds the isbn 456. *)
Example searchBooks_on_seed :
  snd (searchBooks "AUST" Example.s0) = Returned [Example.emma]
  /\ snd (searchBooks "D_ne" Example.s0) = Returned [Example.dune]
  /\ snd (searchBooks "5_" Example.s0) = Returned [Example.emma]
  /\ snd (searchBooks "%" Example.s0) = Returned [Example.dune; Example.emma]
  /\ snd (searchBooks "sci fi" Example.s0) = Returned [].
Proof. repeat split; reflexivity. Qed.

Lemma In_history (t : string) (d : Database) (r : HistoryRow) :
  In r (history t d)
  <-> exists b bk,
        In b (borrows d) /\ In bk (books d) /\ bk_id bk = book_id b
        /\ like t (borrower b) || like t (title bk) || like_null t (isbn bk) = true
        /\ r = {| h_id := b_id b; h_borrower := borrower b; h_date_out := date_out b;
                  h_due_date := due_date b; h_return_date := return_date b;
                  h_book_title := title bk; h_book_id := bk_id bk |}.
Proof.
  unfold history. rewrite in_map_iff. split.
  - intros ([b bk] & E & I). apply order_by_In, filter_In in I.
    destruct I as [J M]. apply In_join in J. destruct J as (Hb & Hbk & J).
    exists b, bk. auto.
  - intros (b & bk & Hb & Hbk & J & M & ->). exists (b, bk). split; [reflexivity|].
    apply In_order_by, filter_In. split; [now apply In_join|exact M].
Qed.

(** X17.  [getAllBorrows(search)] on a live engine lists the loans whose
    book is in the catalogue and in which the term occurs, up to the case of
    ASCII letters, in the borrower, the book's title or the book's isbn:
    every such loan is listed, and for a term without [%] and [_] no other.
    The dates are not searched.  The rows come latest [date_out] first. *)
Theorem getAllBorrows_finds (s : Engine) (d : Database) (term : string) :
  live s = Some d ->
  exists rows,
    getAllBorrows (Some term) s = (s, Returned rows)
    /\ (forall b bk, In b (borrows d) -> In bk (books d) -> bk_id bk = book_id b ->
                     loan_mentions term b bk ->
                     In {| h_id := b_id b; h_borrower := borrower b;
                           h_date_out := date_out b; h_due_date := due_date b;
                           h_return_date := return_date b; h_book_title := title bk;
                           h_book_id := bk_id bk |} rows)
    /\ (has_wildcard term = false ->
        forall r, In r rows ->
                  exists b bk, In b (borrows d) /\ In bk (books d)
                               /\ bk_id bk = book_id b /\ loan_mentions term b bk
                               /\ h_id r = b_id b /\ h_book_id r = bk_id bk
                               /\ h_borrower r = borrower b
                               /\ h_book_title r = title bk
                               /\ h_return_date r = return_date b)
    /\ Sorted (fun x y => String.leb (h_date_out y) (h_date_out x) = true) rows.
Proof.
  intros H. exists (history ("%" ++ term ++ "%") d).
  split; [exact (getAllBorrows_live s d H (Some term))|].
  split; [|split].
  - intros b bk Hb Hbk J M. apply In_history. exists b, bk.
    repeat (split; [assumption|]). split; [|reflexivity].
    destruct M as [M|[M|(i & E & M)]]; apply occurs_like in M.
    + now rewrite M.
    + rewrite M. now rewrite orb_true_r.
    + rewrite E. cbn [like_null]. rewrite M. now rewrite orb_true_r.
  - intros W r I. apply In_history in I.
    destruct I as (b & bk & Hb & Hbk & J & M & ->). exists b, bk.
    repeat (split; [assumption|]). split; [|cbn; auto 6].
    apply orb_true_iff in M. destruct M as [M|M]; [|right; right].
    + apply orb_true_iff in M. destruct M as [M|M]; [left|right; left];
        now apply like_occurs.
    + destruct (isbn bk) as [i|]; [|discriminate M].
      exists i. split; [reflexivity|]. now apply like_occurs.
  - unfold history.
    assert (G : forall l : list (Borrow * Book),
               Sorted (fun x y => String.ltb (date_out (fst x)) (date_out (fst y)) = false) l ->
               Sorted (fun x y => String.leb (h_date_out y) (h_date_out x) = true)
                 (map (fun r : Borrow * Book =>
                         let (b, bk) := r in
                         {| h_id := b_id b; h_borrower := borrower b;
                            h_date_out := date_out b; h_due_date := due_date b;
                            h_return_date := return_date b; h_book_title := title bk;
                            h_book_id := bk_id bk |}) l)).
    { induction 1 as [|[b bk] l S IH Hd]; cbn; constructor; [exact IH|].
      destruct Hd as [|[b' bk'] l' L]; cbn; constructor.
      cbn in L. now apply ltb_false_leb. }
    apply G.
    apply (order_by_Sorted
             (fun x y : Borrow * Book => String.ltb (date_out (fst y)) (date_out (fst x)))).
    intros u v. apply ltb_asym.
Qed.

Lemma getAllBorrows_finds_witness :
  live Example.s0 = Some Example.seed
  /\ exists rows,
       getAllBorrows (Some "ada") Example.s0 = (Example.s0, Returned rows)
       /\ (forall b bk, In b (borrows Example.seed) -> In bk (books Example.seed) ->
                        bk_id bk = book_id b -> loan_mentions "ada" b bk ->
                        In {| h_id := b_id b; h_borrower := borrower b;
                              h_date_out := date_out b; h_due_date := due_date b;
                              h_return_date := return_date b; h_book_title := title bk;
                              h_book_id := bk_id bk |} rows)
       /\ (has_wildcard "ada" = false ->
           forall r, In r rows ->
                     exists b bk, In b (borrows Example.seed) /\ In bk (books Example.seed)
                                  /\ bk_id bk = book_id b /\ loan_mentions "ada" b bk
                                  /\ h_id r = b_id b /\ h_book_id r = bk_id bk
                                  /\ h_borrower r = borrower b
                                  /\ h_book_title r = title bk
                                  /\ h_return_date r = return_date b)
       /\ Sorted (fun x y => String.leb (h_date_out y) (h_date_out x) = true) rows.
Proof.
  split; [reflexivity|].
  exact (getAllBorrows_finds Example.s0 Example.seed "ada" eq_refl).
Defined.

(** *** The figures of the dashboard *)

Lemma count_split {A} (p : A -> bool) (l : list A) :
  count p l + count (fun x => negb (p x)) l = Z.of_nat (List.length l).
Proof.
  unfold count. induction l as [|x l IH]; cbn [filter List.length]; [reflexivity|].
  destruct (p x); cbn [negb List.length]; lia.
Qed.

Lemma count_le {A} (p q : A -> bool) (l : list A) :
  (forall x, p x = true -> q x = true) -> 0 <= count p l <= count q l.
Proof.
  intros I. unfold count. induction l as [|x l IH]; cbn [filter List.length]; [lia|].
  destruct (p x) eqn:P; [rewrite (I x P)|destruct (q x)]; cbn [List.length]; lia.
Qed.

Lemma filter_id_le1 (k : Z) (l : list Book) :
  NoDup (map bk_id l) ->
  (List.length (filter (fun bk => (bk_id bk =? k)%Z) l) <= 1)%nat.
Proof.
  intros N. destruct (find (fun bk => bk_id bk =? k) l) as [bk|] eqn:F.
  - rewrite (filter_id_unique k l bk N F). cbn. lia.
  - rewrite (find_none_filter _ _ F). cbn. lia.
Qed.

Lemma ltb_irrefl (x : string) : String.ltb x x = false.
Proof.
  unfold String.ltb. pose proof (String.compare_antisym x x) as E.
  destruct (String.compare x x); [reflexivity|discriminate E|reflexivity].
Qed.

(** With unique book ids a loan has at most one row in the join, so the
    loans that are overdue and the rows due today are counted among
    different open loans. *)
Lemma overdue_and_due_today (today : string) (d : Database) :
  NoDup (map bk_id (books d)) ->
  count (is_overdue today) (borrows d) + Z.of_nat (List.length (due_on today d))
  <= count is_open (borrows d).
Proof.
  intros N. unfold due_on, borrows_join_books, count. rewrite length_map.
  induction (borrows d) as [|b l IH]; cbn [flat_map filter List.length]; [lia|].
  rewrite filter_app, length_app.
  assert (B : (List.length
                 (filter (fun r : Borrow * Book =>
                            is_open (fst r) && (due_date (fst r) =? today)%string)
                    (map (fun bk => (b, bk))
                         (filter (fun bk => (bk_id bk =? book_id b)%Z) (books d))))
               <= if is_open b && (due_date b =? today)%string then 1 else 0)%nat).
  { pose proof (filter_id_le1 (book_id b) (books d) N) as L.
    induction (filter (fun bk => bk_id bk =? book_id b) (books d)) as [|bk r IHr];
      cbn [map filter List.length fst]; [lia|].
    cbn [List.length] in L.
    destruct (is_open b && (due_date b =? today)%string); cbn [List.length].
    - destruct r; [cbn; lia|cbn in L; lia].
    - apply IHr. lia. }
  unfold is_overdue at 1.
  destruct (is_open b) eqn:O; cbn [andb] in *.
  - destruct (String.eqb_spec (due_date b) today) as [->|_].
    + rewrite ltb_irrefl. cbn [List.length]. lia.
    + destruct (String.ltb (due_date b) today); cbn [List.length]; lia.
  - lia.
Qed.

Lemma firstn_Sorted {A} (R : A -> A -> Prop) (n : nat) (l : list A) :
  Sorted R l -> Sorted R (firstn n l).
Proof.
  intros S. revert n. induction S as [|x l S IH Hd]; intros [|n]; cbn;
    try constructor; [apply IH|].
  destruct Hd; destruct n; cbn; now constructor.
Qed.

Lemma In_firstn {A} (n : nat) (l : list A) (x : A) : In x (firstn n l) -> In x l.
Proof.
  revert n. induction l as [|y l IH]; intros [|n]; cbn; try tauto.
  intros [E|I]; [now left|right; exact (IH n I)].
Qed.

Lemma group_length (k : Z) (bk : Book) (d : Database) :
  filter (fun x => bk_id x =? k) (books d) = [bk] ->
  Z.of_nat (List.length (filter (fun r : Borrow * Book => book_id (fst r) =? k)
                                (borrows_join_books d)))
  = count (fun b => book_id b =? k) (borrows d).
Proof.
  intros F. unfold borrows_join_books, count.
  induction (borrows d) as [|b l IH]; cbn [flat_map filter List.length]; [reflexivity|].
  rewrite filter_app, length_app, Nat2Z.inj_add, IH.
  destruct (Z.eqb_spec (book_id b) k) as [E|Ne].
  - rewrite E, F. cbn. rewrite E, Z.eqb_refl. cbn [List.length]. lia.
  - rewrite filter_nil; [cbn; lia|].
    intros [b' bk'] I. apply in_map_iff in I. destruct I as (x & E & _).
    injection E as <- _. cbn. now apply Z.eqb_neq.
Qed.

Lemma In_top_books (d : Database) (t : TopBook) :
  NoDup (map bk_id (books d)) ->
  In t (top_books d) ->
  exists bk, In bk (books d)
             /\ top_title t = title bk /\ top_author t = author bk
             /\ borrow_count t = count (fun b => book_id b =? bk_id bk) (borrows d)
             /\ 1 <= borrow_count t.
Proof.
  unfold top_books. intros N I. apply In_firstn, order_by_In, in_flat_map in I.
  destruct I as (g & G & I). unfold group_by_book in G. apply in_map_iff in G.
  destruct G as (k & <- & _).
  destruct (filter _ (borrows_join_books d)) as [|[b bk] g] eqn:E; [destruct I|].
  destruct I as [<-|[]].
  assert (J : In (b, bk) (filter (fun r : Borrow * Book => book_id (fst r) =? k)
                                 (borrows_join_books d))) by (rewrite E; now left).
  apply filter_In in J. destruct J as [J K]. cbn in K. apply Z.eqb_eq in K.
  apply In_join in J. destruct J as (_ & Hbk & Ib).
  assert (Ik : bk_id bk = k) by congruence.
  exists bk. cbn [top_title top_author borrow_count].
  assert (L : Z.of_nat (List.length ((b, bk) :: g))
              = count (fun b0 => book_id b0 =? bk_id bk) (borrows d)).
  { rewrite <- E, Ik. apply (group_length k bk). rewrite <- Ik.
    apply filter_id_unique; [exact N|now apply find_In_unique]. }
  split; [exact Hbk|]. split; [reflexivity|]. split; [reflexivity|].
  split; [exact L|]. cbn [List.length]. lia.
Qed.

(** X18.  The figures of [getStats] on a live engine fit together.  Every
    loan is counted once, as active or as returned, and the overdue loans
    are among the active ones.  At most five top books are given, most
    borrowed first.  With unique book ids, each top book is a book of the
    catalogue with the number of its loans, returned ones included, and a
    loan due today is not overdue: the overdue loans and the rows due today
    together are no more than the active loans.  With no negative copies the
    total of copies is not negative. *)
Theorem getStats_figures (s : Engine) (d : Database) (today : string) :
  live s = Some d ->
  exists st,
    getStats today s = (s, Returned st)
    /\ totalTitles st = Z.of_nat (List.length (books d))
    /\ activeLoans st + returnedLoans st = Z.of_nat (List.length (borrows d))
    /\ 0 <= overdueCount st <= activeLoans st
    /\ (List.length (topBooks st) <= 5)%nat
    /\ Sorted (fun x y => borrow_count y <= borrow_count x) (topBooks st)
    /\ (NoDup (map bk_id (books d)) ->
        (forall t, In t (topBooks st) ->
           exists bk, In bk (books d)
                      /\ top_title t = title bk /\ top_author t = author bk
                      /\ borrow_count t
                         = count (fun b => book_id b =? bk_id bk) (borrows d)
                      /\ 1 <= borrow_count t)
        /\ overdueCount st + Z.of_nat (List.length (dueToday st)) <= activeLoans st)
    /\ (copies_nonneg d -> 0 <= totalCopies st).
Proof.
  intros H. eexists. split; [exact (getStats_live s d H today)|].
  cbn [totalTitles activeLoans returnedLoans overdueCount topBooks dueToday totalCopies].
  split; [reflexivity|]. split; [apply count_split|].
  split; [apply count_le; intros x O; unfold is_overdue in O;
          now apply andb_true_iff in O|].
  split; [unfold top_books; apply firstn_le_length|].
  split; [|split].
  - unfold top_books. apply firstn_Sorted.
    apply (Sorted_impl (fun u v : TopBook => (borrow_count u <? borrow_count v) = false)).
    + intros x y L. apply Z.ltb_ge in L. exact L.
    + apply (order_by_Sorted (fun x y : TopBook => borrow_count y <? borrow_count x)).
      intros u v L. apply Z.ltb_lt in L. apply Z.ltb_ge. lia.
  - intros N. split; [intros t; now apply In_top_books|].
    now apply overdue_and_due_today.
  - intros C.
    assert (G : forall l : list Book,
               (forall bk, In bk l -> 0 <= copies bk) ->
               0 <= fold_right Z.add 0 (map copies l)).
    { induction l as [|bk l IH]; cbn; intros P; [lia|].
      assert (0 <= copies bk) by (apply P; now left).
      assert (0 <= fold_right Z.add 0 (map copies l))
        by (apply IH; intros x Hx; apply P; now right).
      lia. }
    apply G, C.
Qed.

Lemma getStats_figures_witness :
  live Example.s0 = Some Example.seed
  /\ exists st,
       getStats "2025-01-20" Example.s0 = (Example.s0, Returned st)
       /\ totalTitles st = Z.of_nat (List.length (books Example.seed))
       /\ activeLoans st + returnedLoans st
          = Z.of_nat (List.length (borrows Example.seed))
       /\ 0 <= overdueCount st <= activeLoans st
       /\ (List.length (topBooks st) <= 5)%nat
       /\ Sorted (fun x y => borrow_count y <= borrow_count x) (topBooks st)
       /\ (NoDup (map bk_id (books Example.seed)) ->
           (forall t, In t (topBooks st) ->
              exists bk, In bk (books Example.seed)
                         /\ top_title t = title bk /\ top_author t = author bk
                         /\ borrow_count t
                            = count (fun b => book_id b =? bk_id bk)
                                    (borrows Example.seed)
                         /\ 1 <= borrow_count t)
           /\ overdueCount st + Z.of_nat (List.length (dueToday st)) <= activeLoans st)
       /\ (copies_nonneg Example.seed -> 0 <= totalCopies st).
Proof.
  split; [reflexivity|].
  exact (getStats_figures Example.s0 Example.seed "2025-01-20" eq_refl).
Defined.

(** On the day Ben's loan is due it is listed as due today and not counted
    as overdue; Di's loan, whose book is gone, is counted as active and as
    overdue but appears in no list. *)
Example getStats_on_seed :
  snd (getStats "2025-01-20" Example.s0)
  = Returned {| totalCopies := 2; totalTitles := 2; activeLoans := 2;
                returnedLoans := 2; overdueCount := 1;
                topBooks := [ {| top_title := "Dune"; top_author := "Frank Herbert";
                                 borrow_count := 1 |};
                              {| top_title := "Emma"; top_author := "Jane Austen";
                                 borrow_count := 1 |} ];
                dueToday := [ {| due_borrower := "Ben"; due_title := "Emma" |} ] |}.
Proof. reflexivity. Qed.

(** *** Reading *)

Lemma query_reads {A} (select : Database -> list A) (s : Engine) :
  fst (query select s) = s
  /\ ((exists rows, snd (query select s) = Returned rows)
      <-> exists c, _db s = Some c /\ open c = true).
Proof.
  unfold query, bind, require_db, ret, throw.
  destruct (_db s) as [c|]; [destruct (open c) eqn:O|]; cbn; split; try reflexivity.
  - split; [intros _; now exists c|intros _; now eexists].
  - split; [intros (r & E); discriminate E|intros (c' & E & O'); congruence].
  - split; [intros (r & E); discriminate E|intros (c' & E & _); discriminate E].
Qed.

Lemma bind_reads {A B} (m : M A) (k : A -> M B) (s : Engine) :
  fst (m s) = s -> (forall a, fst (k a s) = s) -> fst (bind m k s) = s.
Proof.
  intros Hm Hk. unfold bind. destruct (m s) as [s' [a|e]]; cbn in Hm; subst;
    [apply Hk|reflexivity].
Qed.

(** X19.  The ten reading operations of the repository never change the
    engine, whatever state it is in: they do not mark it dirty, write
    nothing to the store and leave the handle as it is, also when they
    throw.  A plain SELECT returns rows exactly when the engine holds an
    open handle. *)
Theorem reads_leave_engine (s : Engine) (id : Z) (term who k today : string)
        (search : option string) :
  fst (getAllBooks s) = s
  /\ fst (getBook id s) = s
  /\ fst (searchBooks term s) = s
  /\ fst (getAllCategories s) = s
  /\ fst (getActiveBorrows s) = s
  /\ fst (getActiveBorrowsByBorrower who s) = s
  /\ fst (getUniqueBorrowers s) = s
  /\ fst (getAllBorrows search s) = s
  /\ fst (getStats today s) = s
  /\ fst (getSetting k s) = s
  /\ ((exists rows, snd (getAllBooks s) = Returned rows)
      <-> exists c, _db s = Some c /\ open c = true).
Proof.
  repeat split; try apply query_reads;
    repeat (apply bind_reads; [apply query_reads|intros ?]); reflexivity.
Qed.

(** ** Further properties of numbers and text *)

Lemma digit_value_digit (k : Z) :
  0 <= k <= 9 -> JS.digit_value 10 (JS.digit k) = Some k.
Proof.
  intros H. unfold JS.digit_value, JS.digit. cbv zeta.
  rewrite N_ascii_embedding by lia. rewrite Z2N.id by lia.
  destruct (Z.leb_spec 48 (48 + k)); [|lia].
  destruct (Z.leb_spec (48 + k) 57); [|lia].
  cbn [andb]. f_equal. lia.
Qed.

(** Reading back the digits that [digits] writes in front of [acc]. *)
Lemma parse_digits_digits (fuel : nat) (n : Z) (acc : string) :
  0 <= n < 10 ^ Z.of_nat (S fuel) ->
  JS.parse_digits 10 (JS.digits (S fuel) n acc) None
  = JS.parse_digits 10 acc (Some n).
Proof.
  revert n acc. induction fuel as [|f IH]; intros n acc H.
  - cbn [JS.digits]. destruct (Z.ltb_spec n 10) as [S|B]; [|cbn in H; lia].
    cbn [JS.parse_digits]. now rewrite digit_value_digit by lia.
  - remember (S f) as g eqn:G. cbn [JS.digits].
    destruct (Z.ltb_spec n 10) as [S|B].
    + cbn [JS.parse_digits]. now rewrite digit_value_digit by lia.
    + subst g. rewrite IH.
      * cbn [JS.parse_digits].
        rewrite digit_value_digit by (Z.to_euclidean_division_equations; lia).
        do 2 f_equal. Z.to_euclidean_division_equations; lia.
      * rewrite (Nat2Z.inj_succ (S f)), Z.pow_succ_r in H by lia.
        Z.to_euclidean_division_equations; lia.
Qed.

Lemma enough_fuel (n : Z) : 0 <= n -> n < 10 ^ Z.of_nat (S (Z.to_nat (Z.log2 n))).
Proof.
  intros H. rewrite Nat2Z.inj_succ, Z2Nat.id by apply Z.log2_nonneg.
  destruct (Z.eq_dec n 0) as [->|Ne]; [cbn; lia|].
  pose proof (Z.log2_spec n ltac:(lia)) as [_ U].
  pose proof (Z.log2_nonneg n) as Lp.
  assert (P : 2 ^ Z.succ (Z.log2 n) <= 10 ^ Z.succ (Z.log2 n))
    by (apply Z.pow_le_mono_l; lia).
  lia.
Qed.

Lemma digits_head (fuel : nat) (n : Z) (acc : string) :
  0 <= n ->
  exists k rest, 0 <= k <= 9
                 /\ (JS.digits (S fuel) n acc = String (JS.digit k) rest)
                 /\ (rest = acc
                     \/ exists j r, 0 <= j <= 9 /\ rest = String (JS.digit j) r).
Proof.
  revert n acc. induction fuel as [|f IH]; intros n acc H.
  - cbn [JS.digits]. destruct (Z.ltb_spec n 10).
    + exists n, acc. repeat split; try lia. now left.
    + exists (n mod 10), acc.
      repeat split; try (Z.to_euclidean_division_equations; lia). now left.
  - cbn [JS.digits]. destruct (Z.ltb_spec n 10) as [S|B].
    + exists n, acc. repeat split; try lia. now left.
    + destruct (IH (n / 10) (String (JS.digit (n mod 10)) acc)) as (k & rest & K & E & R);
        [Z.to_euclidean_division_equations; lia|].
      cbn [JS.digits] in E. exists k, rest. split; [exact K|]. split; [exact E|].
      right. destruct R as [->|R]; [|exact R].
      exists (n mod 10), acc. split; [Z.to_euclidean_division_equations; lia|reflexivity].
Qed.

Lemma digit_cases (k : Z) :
  0 <= k <= 9 ->
  JS.is_white (JS.digit k) = false
  /\ Ascii.eqb (JS.digit k) "-" = false
  /\ Ascii.eqb (JS.digit k) "+" = false
  /\ Ascii.eqb (JS.digit k) "x" = false
  /\ Ascii.eqb (JS.digit k) "X" = false.
Proof.
  intros H.
  assert (C : k = 0 \/ k = 1 \/ k = 2 \/ k = 3 \/ k = 4 \/ k = 5 \/ k = 6 \/ k = 7
              \/ k = 8 \/ k = 9) by lia.
  repeat (destruct C as [->|C]; [repeat split; reflexivity|]).
  subst. repeat split; reflexivity.
Qed.

(** The digits of a natural number, read by [parseInt]. *)
Lemma parseInt_digits (n : Z) :
  0 <= n ->
  JS.parseInt (JS.digits (S (Z.to_nat (Z.log2 n))) n EmptyString) = JS.Int n
  /\ JS.parseInt (String "-" (JS.digits (S (Z.to_nat (Z.log2 n))) n EmptyString))
     = JS.Int (- n).
Proof.
  intros H.
  pose proof (parse_digits_digits (Z.to_nat (Z.log2 n)) n EmptyString
                (conj H (enough_fuel n H))) as P.
  destruct (digits_head (Z.to_nat (Z.log2 n)) n EmptyString H)
    as (k & rest & K & E & R).
  rewrite E in *. destruct (digit_cases k K) as (W & Mi & Pl & _).
  assert (B : match rest with
              | String x r =>
                  if Ascii.eqb (JS.digit k) "0" && (Ascii.eqb x "x" || Ascii.eqb x "X")
                  then (16, r) else (10, String (JS.digit k) rest)
              | EmptyString => (10, String (JS.digit k) rest)
              end = (10, String (JS.digit k) rest)).
  { destruct R as [->|(j & r & J & ->)]; [reflexivity|].
    destruct (digit_cases j J) as (_ & _ & _ & X1 & X2).
    now rewrite X1, X2, andb_false_r. }
  split.
  - unfold JS.parseInt. cbn [JS.skip_white]. rewrite W. cbn [snd fst].
    rewrite Mi, Pl. cbn [snd fst]. rewrite B. cbn [snd fst]. now rewrite P.
  - unfold JS.parseInt. cbn [JS.skip_white].
    change (JS.is_white "-") with false. cbn iota.
    change (Ascii.eqb "-" "-") with true. cbn iota. cbn [snd fst].
    rewrite B. cbn [snd fst]. now rewrite P.
Qed.

(** X20.  What [toString] writes for an integer, [parseInt] reads back: the
    time stamps that the notifier keeps in [localStorage] and the ids that
    the page puts into its forms come back as the numbers they were.  The
    integers are those of the model, the safe range of JavaScript, where a
    number is printed digit for digit. *)
Theorem parseInt_toString (n : Z) : JS.parseInt (JS.Number_toString n) = JS.Int n.
Proof.
  unfold JS.Number_toString. destruct (Z.ltb_spec n 0) as [Neg|Pos].
  - destruct (parseInt_digits (- n) ltac:(lia)) as [_ E]. rewrite E. f_equal. lia.
  - now destruct (parseInt_digits n Pos).
Qed.

(** ** Properties of the notifier *)

Import Notify.

Lemma find_filter_other (k k' : string) (l : list (string * string)) :
  k' <> k ->
  find (fun kv => (fst kv =? k')%string)
       (filter (fun kv => negb (fst kv =? k)%string) l)
  = find (fun kv => (fst kv =? k')%string) l.
Proof.
  intros Ne. induction l as [|[a b] l IH]; cbn; [reflexivity|].
  destruct (String.eqb_spec a k) as [->|Na]; cbn.
  - destruct (String.eqb_spec k k'); [congruence|exact IH].
  - now rewrite IH.
Qed.

Lemma find_filter_same (k : string) (l : list (string * string)) :
  find (fun kv => (fst kv =? k)%string)
       (filter (fun kv => negb (fst kv =? k)%string) l) = None.
Proof.
  apply find_none_iff. intros kv I. apply filter_In in I. destruct I as [_ N].
  now apply negb_true_iff in N.
Qed.

Lemma getItem_setItem (k v : string) (p : Page) : getItem k (setItem k v p) = Some v.
Proof. unfold getItem, setItem. cbn. now rewrite String.eqb_refl. Qed.

Lemma getItem_setItem_other (k k' v : string) (p : Page) :
  k' <> k -> getItem k' (setItem k v p) = getItem k' p.
Proof.
  intros Ne. unfold getItem, setItem. cbn.
  destruct (String.eqb_spec k k'); [congruence|].
  now rewrite find_filter_other.
Qed.

Lemma getItem_removeItem (k : string) (p : Page) : getItem k (removeItem k p) = None.
Proof. unfold getItem, removeItem. cbn. now rewrite find_filter_same. Qed.

Lemma toString_nonempty (n : Z) : exists c r, JS.Number_toString n = String c r.
Proof.
  unfold JS.Number_toString. destruct (n <? 0) eqn:S; [now eexists; eexists|].
  apply Z.ltb_ge in S.
  destruct (digits_head (Z.to_nat (Z.log2 n)) n EmptyString S) as (k & rest & _ & E & _).
  rewrite E. now eexists; eexists.
Qed.

(** A time stamp written with [toString] is the number that the notifier
    reads. *)
Lemma stored_time_written (k : string) (n : Z) (p : Page) :
  getItem k p = Some (JS.Number_toString n) -> stored_time k p = JS.Int n.
Proof.
  intros G. unfold stored_time. rewrite G.
  destruct (toString_nonempty n) as (c & r & E). rewrite E, <- E.
  apply parseInt_toString.
Qed.

Lemma stored_time_same (k : string) (p q : Page) :
  getItem k p = getItem k q -> stored_time k p = stored_time k q.
Proof. intros E. unfold stored_time. now rewrite E. Qed.

(** The counts are counts. *)
Lemma or_zero_id (n : Z) : or_zero n = n.
Proof. unfold or_zero. destruct (Z.eqb_spec n 0); congruence. Qed.

Lemma count_nonneg {A} (p : A -> bool) (l : list A) : 0 <= count p l.
Proof. unfold count. lia. Qed.

Lemma query_open {A} (select : Database -> list A) (s : Engine) (c : Conn) :
  _db s = Some c -> open c = true -> query select s = (s, Returned (select (data c))).
Proof. intros E O. unfold query, bind, require_db, ret. now rewrite E, O. Qed.

Lemma query_shut {A} (select : Database -> list A) (s : Engine) :
  (forall c, _db s = Some c -> open c = false) ->
  exists e, query select s = (s, Threw e).
Proof.
  intros N. unfold query, bind, require_db, throw.
  destruct (_db s) as [c|]; [rewrite (N c eq_refl)|]; now eexists.
Qed.

(** What the notifier counts: with an open handle, the open loans due
    before today and those due after today and no later than [soon]; with
    none, zero and zero, the error being swallowed. *)
Lemma counts_cases (today soon : string) (s : Engine) :
  (exists c, _db s = Some c /\ open c = true
             /\ _getOverdueCount today s = count (is_overdue today) (borrows (data c))
             /\ _getDueSoonCount today soon s
                = count (fun b => is_open b && String.ltb today (due_date b)
                                  && String.leb (due_date b) soon)
                        (borrows (data c)))
  \/ ((forall c, _db s = Some c -> open c = false)
      /\ _getOverdueCount today s = 0 /\ _getDueSoonCount today soon s = 0).
Proof.
  destruct (_db s) as [c|] eqn:E; [destruct (open c) eqn:O|].
  - left. exists c. split; [reflexivity|]. split; [exact O|].
    unfold _getOverdueCount, _getDueSoonCount, getStats.
    repeat rewrite (bind_returned _ _ _ _ _ (query_open _ s c E O)).
    rewrite (query_open _ s c E O). unfold ret. cbn. now rewrite !or_zero_id.
  - right. assert (N : forall c', _db s = Some c' -> open c' = false)
      by (intros c' E'; rewrite E in E'; now injection E' as <-).
    split; [intros c' E'; injection E' as <-; exact O|].
    unfold _getOverdueCount, _getDueSoonCount, getStats.
    destruct (query_shut sum_copies s N) as (e & Q).
    destruct (query_shut (count_due_soon today soon) s N) as (e' & Q').
    rewrite Q'. unfold bind at 1. now rewrite Q.
  - right. assert (N : forall c', _db s = Some c' -> open c' = false)
      by (intros c' E'; rewrite E in E'; discriminate E').
    split; [intros c' E'; discriminate E'|].
    unfold _getOverdueCount, _getDueSoonCount, getStats.
    destruct (query_shut sum_copies s N) as (e & Q).
    destruct (query_shut (count_due_soon today soon) s N) as (e' & Q').
    rewrite Q'. unfold bind at 1. now rewrite Q.
Qed.

Lemma counts_nonneg (today soon : string) (s : Engine) :
  0 <= _getOverdueCount today s /\ 0 <= _getDueSoonCount today soon s.
Proof.
  destruct (counts_cases today soon s) as [(c & _ & _ & -> & ->)|(_ & -> & ->)];
    [split; apply count_nonneg|lia].
Qed.

Lemma title_and_body_some (o d : Z) :
  0 <= o -> 0 <= d -> (o =? 0) && (d =? 0) = false ->
  exists n, title_and_body o d = Some n.
Proof.
  intros Ho Hd N. unfold title_and_body.
  destruct (Z.ltb_spec 0 o); destruct (Z.ltb_spec 0 d); cbn [andb];
    try (now eexists).
  assert (o = 0) by lia. assert (d = 0) by lia. subst. discriminate N.
Qed.

(** The five ways through [_maybeFireNotification]. *)
Lemma maybeFire_cases (s : Engine) (today soon : string) (p : Page) :
  permission (_maybeFireNotification s today soon p) = permission p
  /\ prompt (_maybeFireNotification s today soon p) = prompt p
  /\ button (_maybeFireNotification s today soon p) = button p
  /\ ((notifications (_maybeFireNotification s today soon p) = notifications p
       /\ localStorage (_maybeFireNotification s today soon p) = localStorage p
       /\ (JS.lt (JS.Int (clock p (ticks p))) (stored_time KEYS_MUTED_UNTIL p) = true
           \/ JS.lt (JS.sub (JS.Int (clock p (S (ticks p))))
                            (stored_time KEYS_LAST_FIRED p))
                    (JS.Int HOUR_MS) = true
           \/ (_getOverdueCount today s = 0 /\ _getDueSoonCount today soon s = 0)
           \/ constructible p = false))
      \/ (exists n,
            title_and_body (_getOverdueCount today s) (_getDueSoonCount today soon s)
            = Some n
            /\ notifications (_maybeFireNotification s today soon p)
               = (notifications p ++ [n])%list
            /\ localStorage (_maybeFireNotification s today soon p)
               = localStorage
                   (setItem KEYS_LAST_FIRED
                            (JS.Number_toString (clock p (S (S (ticks p))))) p)
            /\ JS.lt (JS.Int (clock p (ticks p))) (stored_time KEYS_MUTED_UNTIL p) = false
            /\ JS.lt (JS.sub (JS.Int (clock p (S (ticks p))))
                             (stored_time KEYS_LAST_FIRED p))
                     (JS.Int HOUR_MS) = false
            /\ constructible p = true)).
Proof.
  unfold _maybeFireNotification, Date_now.
  change (stored_time KEYS_LAST_FIRED (with_ticks p (S (ticks p))))
    with (stored_time KEYS_LAST_FIRED p).
  destruct (JS.lt (JS.Int (clock p (ticks p))) (stored_time KEYS_MUTED_UNTIL p)) eqn:Mu.
  { cbn. do 3 (split; [reflexivity|]). left. do 2 (split; [reflexivity|]). now left. }
  cbn [clock ticks with_ticks].
  destruct (JS.lt (JS.sub (JS.Int (clock p (S (ticks p)))) (stored_time KEYS_LAST_FIRED p))
                  (JS.Int HOUR_MS)) eqn:Ho.
  { cbn. do 3 (split; [reflexivity|]). left. do 2 (split; [reflexivity|]).
    right. now left. }
  destruct ((_getOverdueCount today s =? 0) && (_getDueSoonCount today soon s =? 0)) eqn:Z0.
  - apply andb_true_iff in Z0. destruct Z0 as [Zo Zd].
    apply Z.eqb_eq in Zo, Zd. cbn. do 3 (split; [reflexivity|]).
    left. do 2 (split; [reflexivity|]). right. right. left. now split.
  - destruct (counts_nonneg today soon s) as [No Nd].
    destruct (title_and_body_some _ _ No Nd Z0) as (n & T).
    unfold _fireNotification. rewrite T. cbn [constructible with_ticks].
    destruct (constructible p) eqn:C.
    + cbn. do 3 (split; [reflexivity|]). right. exists n.
      do 3 (split; [reflexivity|]). now split.
    + cbn. do 3 (split; [reflexivity|]). left. do 2 (split; [reflexivity|]).
      now right; right; right.
Qed.

Lemma updateBellUI_frame (p : Page) :
  localStorage (_updateBellUI p) = localStorage p
  /\ notifications (_updateBellUI p) = notifications p
  /\ prompt (_updateBellUI p) = prompt p
  /\ permission (_updateBellUI p) = permission p
  /\ Notification_in_window (_updateBellUI p) = Notification_in_window p
  /\ constructible (_updateBellUI p) = constructible p
  /\ pages (_updateBellUI p) = pages p.
Proof. unfold _updateBellUI. destruct (button p); cbn; repeat split. Qed.

Lemma getItem_storage (k : string) (p q : Page) :
  localStorage p = localStorage q -> getItem k p = getItem k q.
Proof. intros E. unfold getItem. now rewrite E. Qed.

Lemma title_and_body_news (o d : Z) (n : Notification) :
  title_and_body o d = Some n -> 0 < o \/ 0 < d.
Proof.
  unfold title_and_body.
  destruct (Z.ltb_spec 0 o); destruct (Z.ltb_spec 0 d); cbn [andb];
    intros E; try discriminate E; lia.
Qed.

(** X21.  Muting lasts a day.  [toggleMute] on a page that is not muted
    stores the time of its second clock reading plus twenty-four hours.
    While the clock is below that time, on any page that holds the stored
    value, [_maybeFireNotification] constructs no notification and writes
    nothing, whatever is overdue, and a second [toggleMute] removes the
    stored value again. *)
Theorem toggleMute_mutes_for_a_day (p : Page) :
  JS.lt (JS.Int (clock p (ticks p))) (stored_time KEYS_MUTED_UNTIL p) = false ->
  getItem KEYS_MUTED_UNTIL (toggleMute p)
  = Some (JS.Number_toString (clock p (S (ticks p)) + DAY_MS))
  /\ notifications (toggleMute p) = notifications p
  /\ forall p',
       getItem KEYS_MUTED_UNTIL p' = getItem KEYS_MUTED_UNTIL (toggleMute p) ->
       clock p' (ticks p') < clock p (S (ticks p)) + DAY_MS ->
       (forall s today soon,
           notifications (_maybeFireNotification s today soon p') = notifications p'
           /\ localStorage (_maybeFireNotification s today soon p') = localStorage p')
       /\ getItem KEYS_MUTED_UNTIL (toggleMute p') = None.
Proof.
  intros NotMuted.
  assert (G : getItem KEYS_MUTED_UNTIL (toggleMute p)
              = Some (JS.Number_toString (clock p (S (ticks p)) + DAY_MS))).
  { unfold toggleMute, Date_now. rewrite NotMuted.
    rewrite (getItem_storage _ _ _ (proj1 (updateBellUI_frame _))).
    apply getItem_setItem. }
  split; [exact G|]. split.
  { unfold toggleMute, Date_now. rewrite NotMuted.
    now rewrite (proj1 (proj2 (updateBellUI_frame _))). }
  intros p' E Before. rewrite G in E.
  assert (Muted : JS.lt (JS.Int (clock p' (ticks p'))) (stored_time KEYS_MUTED_UNTIL p')
                  = true).
  { rewrite (stored_time_written _ _ _ E). cbn. apply Z.ltb_lt. exact Before. }
  split.
  - intros s today soon.
    destruct (maybeFire_cases s today soon p')
      as (_ & _ & _ & [(N & L & _)|(n & _ & _ & _ & F & _)]); [now split|congruence].
  - unfold toggleMute, Date_now. rewrite Muted.
    rewrite (getItem_storage _ _ _ (proj1 (updateBellUI_frame _))).
    apply getItem_removeItem.
Qed.

Lemma toggleMute_mutes_for_a_day_witness :
  JS.lt (JS.Int (clock Example.page0 (ticks Example.page0)))
        (stored_time KEYS_MUTED_UNTIL Example.page0) = false
  /\ (getItem KEYS_MUTED_UNTIL (toggleMute Example.page0)
      = Some (JS.Number_toString (clock Example.page0 (S (ticks Example.page0)) + DAY_MS))
      /\ notifications (toggleMute Example.page0) = notifications Example.page0
      /\ forall p',
           getItem KEYS_MUTED_UNTIL p'
           = getItem KEYS_MUTED_UNTIL (toggleMute Example.page0) ->
           clock p' (ticks p') < clock Example.page0 (S (ticks Example.page0)) + DAY_MS ->
           (forall s today soon,
               notifications (_maybeFireNotification s today soon p') = notifications p'
               /\ localStorage (_maybeFireNotification s today soon p') = localStorage p')
           /\ getItem KEYS_MUTED_UNTIL (toggleMute p') = None).
Proof.
  split; [reflexivity|].
  exact (toggleMute_mutes_for_a_day Example.page0 eq_refl).
Defined.

(** X22.  After a notification, an hour of silence.  When
    [_maybeFireNotification] constructs a notification, it is one, with the
    title and body for the two counts, and the time of the third clock
    reading is stored.  On any page that holds the stored value, a call
    whose gate reading is less than an hour after that time constructs
    nothing. *)
Theorem fired_then_quiet_for_an_hour (s : Engine) (today soon : string) (p : Page) :
  notifications (_maybeFireNotification s today soon p) <> notifications p ->
  exists n,
    title_and_body (_getOverdueCount today s) (_getDueSoonCount today soon s) = Some n
    /\ notifications (_maybeFireNotification s today soon p)
       = (notifications p ++ [n])%list
    /\ getItem KEYS_LAST_FIRED (_maybeFireNotification s today soon p)
       = Some (JS.Number_toString (clock p (S (S (ticks p)))))
    /\ forall s' today' soon' p',
         getItem KEYS_LAST_FIRED p'
         = getItem KEYS_LAST_FIRED (_maybeFireNotification s today soon p) ->
         clock p' (S (ticks p')) - clock p (S (S (ticks p))) < HOUR_MS ->
         notifications (_maybeFireNotification s' today' soon' p') = notifications p'.
Proof.
  intros Fired.
  destruct (maybeFire_cases s today soon p)
    as (_ & _ & _ & [(N & _)|(n & T & N & L & _)]); [congruence|].
  assert (G : getItem KEYS_LAST_FIRED (_maybeFireNotification s today soon p)
              = Some (JS.Number_toString (clock p (S (S (ticks p)))))).
  { rewrite (getItem_storage _ _ _ L). apply getItem_setItem. }
  exists n. split; [exact T|]. split; [exact N|]. split; [exact G|].
  intros s' today' soon' p' E Soon. rewrite G in E.
  destruct (maybeFire_cases s' today' soon' p')
    as (_ & _ & _ & [(N' & _)|(n' & _ & _ & _ & _ & Gate & _)]); [exact N'|].
  rewrite (stored_time_written _ _ _ E) in Gate. cbn [JS.sub JS.lt] in Gate.
  apply Z.ltb_ge in Gate. lia.
Qed.

Lemma fired_then_quiet_for_an_hour_witness :
  notifications (_maybeFireNotification Example.s0 "2025-01-21" "2025-01-24" Example.page0)
  <> notifications Example.page0
  /\ exists n,
       title_and_body (_getOverdueCount "2025-01-21" Example.s0)
                      (_getDueSoonCount "2025-01-21" "2025-01-24" Example.s0) = Some n
       /\ notifications
            (_maybeFireNotification Example.s0 "2025-01-21" "2025-01-24" Example.page0)
          = (notifications Example.page0 ++ [n])%list
       /\ getItem KEYS_LAST_FIRED
            (_maybeFireNotification Example.s0 "2025-01-21" "2025-01-24" Example.page0)
          = Some (JS.Number_toString
                    (clock Example.page0 (S (S (ticks Example.page0)))))
       /\ forall s' today' soon' p',
            getItem KEYS_LAST_FIRED p'
            = getItem KEYS_LAST_FIRED
                (_maybeFireNotification Example.s0 "2025-01-21" "2025-01-24"
                                        Example.page0) ->
            clock p' (S (ticks p')) - clock Example.page0 (S (S (ticks Example.page0)))
            < HOUR_MS ->
            notifications (_maybeFireNotification s' today' soon' p') = notifications p'.
Proof.
  split; [discriminate|].
  exact (fired_then_quiet_for_an_hour Example.s0 "2025-01-21" "2025-01-24" Example.page0
           ltac:(discriminate)).
Defined.

(** Two loans of the seed are open and past their due date on 21 January:
    the title is in the plural, and the time of the third reading is
    stored. *)
Example notification_on_seed :
  notifications (init Example.s0 "2025-01-21" "2025-01-24" Example.page0)
  = [ {| n_title := "📚 2 books overdue";
         n_body := "Some loans have passed their due date." |} ]
  /\ localStorage (init Example.s0 "2025-01-21" "2025-01-24" Example.page0)
     = [ (KEYS_LAST_FIRED, "1700000003000") ]
  /\ title_and_body 1 0
     = Some {| n_title := "📚 1 book overdue";
               n_body := "Some loans have passed their due date." |}
  /\ title_and_body 3 1
     = Some {| n_title := "📚 3 overdue · 1 due soon";
               n_body := "Open Gnoke Library to review borrowing records." |}.
Proof. repeat split; reflexivity. Qed.

Lemma maybeShowPrompt_cases (s : Engine) (today soon : string) (p : Page) :
  permission (_maybeShowPrompt s today soon p) = permission p
  /\ notifications (_maybeShowPrompt s today soon p) = notifications p
  /\ localStorage (_maybeShowPrompt s today soon p) = localStorage p
  /\ (prompt (_maybeShowPrompt s today soon p) = prompt p
      \/ (prompt (_maybeShowPrompt s today soon p) = true
          /\ pages p = true
          /\ JS.lt (JS.sub (JS.Int (clock p (ticks p))) (stored_time KEYS_ASKED p))
                   (JS.Int ASK_GAP_MS) = false
          /\ (0 < _getOverdueCount today s \/ 0 < _getDueSoonCount today soon s))).
Proof.
  unfold _maybeShowPrompt, Date_now.
  destruct (JS.lt (JS.sub (JS.Int (clock p (ticks p))) (stored_time KEYS_ASKED p))
                  (JS.Int ASK_GAP_MS)) eqn:Gap;
    [cbn; do 3 (split; [reflexivity|]); now left|].
  destruct ((_getOverdueCount today s =? 0) && (_getDueSoonCount today soon s =? 0)) eqn:Z0;
    [cbn; do 3 (split; [reflexivity|]); now left|].
  unfold _showPrompt. cbn [prompt pages with_ticks].
  destruct (prompt p) eqn:Pr; [cbn; do 3 (split; [reflexivity|]); now left|].
  destruct (pages p) eqn:Pg; cbn; do 3 (split; [reflexivity|]); [|now left].
  right. do 3 (split; [reflexivity|]).
  destruct (counts_nonneg today soon s) as [No Nd].
  apply andb_false_iff in Z0. destruct Z0 as [Z0|Z0]; apply Z.eqb_neq in Z0; lia.
Qed.

(** X23.  [init] alerts only when there is something to report.  It never
    changes the permission.  It constructs at most one notification, and
    one only when the interface is there, the permission is granted and a
    loan is overdue or due soon; it puts the prompt only on a page whose
    permission is still open, that has the element before which the prompt
    goes, and only with a loan overdue or due soon.  With the permission
    denied or without the interface it writes nothing, constructs nothing,
    leaves the prompt alone and hides the button.  When the engine holds no
    open handle, the errors of the counts are swallowed and nothing is
    constructed or shown. *)
Theorem init_alerts_only_with_news (s : Engine) (today soon : string) (p : Page) :
  permission (init s today soon p) = permission p
  /\ (notifications (init s today soon p) = notifications p
      \/ exists n,
           notifications (init s today soon p) = (notifications p ++ [n])%list
           /\ title_and_body (_getOverdueCount today s) (_getDueSoonCount today soon s)
              = Some n
           /\ Notification_in_window p = true
           /\ permission p = granted
           /\ constructible p = true
           /\ (0 < _getOverdueCount today s \/ 0 < _getDueSoonCount today soon s))
  /\ (prompt (init s today soon p) = prompt p
      \/ (prompt (init s today soon p) = true
          /\ Notification_in_window p = true
          /\ permission p = default
          /\ pages p = true
          /\ (0 < _getOverdueCount today s \/ 0 < _getDueSoonCount today soon s)))
  /\ (Notification_in_window p = false \/ permission p = denied ->
      localStorage (init s today soon p) = localStorage p
      /\ notifications (init s today soon p) = notifications p
      /\ prompt (init s today soon p) = prompt p
      /\ forall b, button (init s today soon p) = Some b -> display_none b = true)
  /\ ((forall c, _db s = Some c -> open c = false) ->
      notifications (init s today soon p) = notifications p
      /\ prompt (init s today soon p) = prompt p).
Proof.
  destruct (updateBellUI_frame p) as (L & N & Pr & Pe & W & C & Pg).
  unfold init. rewrite W, Pe.
  destruct (Notification_in_window p) eqn:Win; cbn [negb].
  - destruct (permission p) eqn:Perm.
    + destruct (maybeFire_cases s today soon (_updateBellUI p))
        as (Pe' & Pr' & _ & Cases).
      split; [congruence|].
      split; [|split; [left; congruence|split; [intros [D|D]; discriminate D|]]].
      * destruct Cases as [(N' & _)|(n & T & N' & _ & _ & _ & C')];
          [left; congruence|].
        right. exists n. rewrite N', N. rewrite C in C'.
        repeat (split; [assumption || reflexivity|]).
        exact (title_and_body_news _ _ _ T).
      * intros Shut. split; [|congruence].
        destruct Cases as [(N' & _)|(n & T & _)]; [congruence|].
        apply title_and_body_news in T.
        destruct (counts_cases today soon s) as [(c & E & O & _)|(_ & Zo & Zd)];
          [rewrite (Shut c E) in O; discriminate O|lia].
    + destruct (maybeShowPrompt_cases s today soon (_updateBellUI p))
        as (Pe' & N' & _ & Cases).
      split; [congruence|]. split; [left; congruence|].
      split; [|split; [intros [D|D]; discriminate D|]].
      * destruct Cases as [P'|(P' & Pg' & _ & News)]; [left; congruence|].
        right. rewrite Pg in Pg'. now repeat split.
      * intros Shut. split; [congruence|].
        destruct Cases as [P'|(_ & _ & _ & News)]; [congruence|].
        destruct (counts_cases today soon s) as [(c & E & O & _)|(_ & Zo & Zd)];
          [rewrite (Shut c E) in O; discriminate O|lia].
    + split; [exact Pe|]. split; [now left|]. split; [now left|].
      split; [|now split].
      intros _. repeat (split; [assumption|]).
      intros b. unfold _updateBellUI. destruct (button p) eqn:B; [|intros D; congruence].
      cbn. intros E. injection E as <-. cbn. rewrite Win, Perm. reflexivity.
  - split; [exact Pe|]. split; [now left|]. split; [now left|].
    split; [|now split].
    intros _. repeat (split; [assumption|]).
    intros b. unfold _updateBellUI. destruct (button p) eqn:B; [|intros D; congruence].
    cbn. intros E. injection E as <-. cbn. rewrite Win. reflexivity.
Qed.

(** X24.  The prompt is not pressed on the user.  [dismissPrompt] takes
    the prompt away and stores the time; so does [requestPermission],
    whatever the answer.  On any page without the prompt that holds the
    stored time, [_maybeShowPrompt] leaves the prompt away while less than
    seven days have passed, whatever is overdue. *)
Theorem dismissed_prompt_rests_a_week (p : Page) :
  prompt (dismissPrompt p) = false
  /\ getItem KEYS_ASKED (dismissPrompt p)
     = Some (JS.Number_toString (clock p (ticks p)))
  /\ (forall s today soon p',
        getItem KEYS_ASKED p' = getItem KEYS_ASKED (dismissPrompt p) ->
        prompt p' = false ->
        clock p' (ticks p') - clock p (ticks p) < ASK_GAP_MS ->
        prompt (_maybeShowPrompt s today soon p') = false)
  /\ (forall s today soon answer,
        getItem KEYS_ASKED (requestPermission s today soon answer p)
        = Some (JS.Number_toString (clock p (S (ticks p))))
        /\ prompt (requestPermission s today soon answer p) = false).
Proof.
  assert (G : getItem KEYS_ASKED (dismissPrompt p)
              = Some (JS.Number_toString (clock p (ticks p))))
    by (unfold dismissPrompt, Date_now; apply getItem_setItem).
  split; [reflexivity|]. split; [exact G|]. split.
  - intros s today soon p' E NoPrompt Soon. rewrite G in E.
    destruct (maybeShowPrompt_cases s today soon p')
      as (_ & _ & _ & [P'|(_ & _ & Gap & _)]); [congruence|].
    rewrite (stored_time_written _ _ _ E) in Gap. cbn [JS.sub JS.lt] in Gap.
    apply Z.ltb_ge in Gap. lia.
  - intros s today soon answer. unfold requestPermission, dismissPrompt, Date_now.
    cbn [Notification_in_window setItem with_storage with_ticks with_prompt
         clock ticks permission].
    destruct (Notification_in_window p); [|split; [apply getItem_setItem|reflexivity]].
    assert (K : KEYS_ASKED <> KEYS_LAST_FIRED) by discriminate.
    destruct (match permission p with default => answer | x => x end);
      try (split; [apply getItem_setItem|reflexivity]).
    match goal with
    | |- context [_maybeFireNotification s today soon ?q] =>
        destruct (updateBellUI_frame (_maybeFireNotification s today soon q))
          as (L & _ & Pr & _);
        destruct (maybeFire_cases s today soon q)
          as (_ & Pr' & _ & [(_ & L' & _)|(n & _ & _ & L' & _)])
    end.
    + split; [|now rewrite Pr, Pr'].
      rewrite (getItem_storage _ _ _ L), (getItem_storage _ _ _ L').
      apply getItem_setItem.
    + split; [|now rewrite Pr, Pr'].
      rewrite (getItem_storage _ _ _ L), (getItem_storage _ _ _ L').
      rewrite getItem_setItem_other by exact K. apply getItem_setItem.
Qed.

Lemma count_zero {A} (p : A -> bool) (l : list A) :
  (forall x, In x l -> p x = false) -> count p l = 0.
Proof. intros H. unfold count. now rewrite filter_nil. Qed.

(** X25.  A loan due today is not announced.  On a live engine whose open
    loans are all due today, the notifier counts no loan as overdue and none
    as due soon, the window of three days starting tomorrow: [init]
    constructs no notification and shows no prompt. *)
Theorem due_today_is_silent (s : Engine) (d : Database) (today soon : string) (p : Page) :
  live s = Some d ->
  (forall b, In b (borrows d) -> return_date b = None -> due_date b = today) ->
  _getOverdueCount today s = 0
  /\ _getDueSoonCount today soon s = 0
  /\ notifications (init s today soon p) = notifications p
  /\ prompt (init s today soon p) = prompt p.
Proof.
  intros H Due.
  destruct (live_conn s d H) as (c & E & O & _ & D).
  assert (Zo : _getOverdueCount today s = 0).
  { destruct (counts_cases today soon s) as [(c' & E' & _ & -> & _)|(_ & Zo & _)];
      [|exact Zo].
    rewrite E in E'. injection E' as <-. rewrite D. apply count_zero.
    intros b I. unfold is_overdue, is_open.
    destruct (return_date b) eqn:R; [reflexivity|].
    rewrite (Due b I R). cbn. apply ltb_irrefl. }
  assert (Zd : _getDueSoonCount today soon s = 0).
  { destruct (counts_cases today soon s) as [(c' & E' & _ & _ & ->)|(_ & _ & Zd)];
      [|exact Zd].
    rewrite E in E'. injection E' as <-. rewrite D. apply count_zero.
    intros b I. unfold is_open.
    destruct (return_date b) eqn:R; [reflexivity|].
    rewrite (Due b I R). cbn. now rewrite ltb_irrefl. }
  split; [exact Zo|]. split; [exact Zd|].
  unfold init. destruct (updateBellUI_frame p) as (_ & N & Pr & Pe & W & _).
  rewrite W, Pe. destruct (Notification_in_window p); cbn [negb]; [|now split].
  destruct (permission p).
  - destruct (maybeFire_cases s today soon (_updateBellUI p))
      as (_ & Pr' & _ & [(N' & _)|(n & T & _)]).
    + split; congruence.
    + apply title_and_body_news in T. lia.
  - destruct (maybeShowPrompt_cases s today soon (_updateBellUI p))
      as (_ & N' & _ & [P'|(_ & _ & _ & News)]).
    + split; congruence.
    + lia.
  - now split.
Qed.

Lemma due_today_is_silent_witness :
  live (Example.started Example.due_on_the_20th) = Some Example.due_on_the_20th
  /\ (forall b, In b (borrows Example.due_on_the_20th) -> return_date b = None ->
                due_date b = "2025-01-20")
  /\ _getOverdueCount "2025-01-20" (Example.started Example.due_on_the_20th) = 0
  /\ _getDueSoonCount "2025-01-20" "2025-01-23"
                      (Example.started Example.due_on_the_20th) = 0
  /\ notifications (init (Example.started Example.due_on_the_20th)
                         "2025-01-20" "2025-01-23" Example.page0)
     = notifications Example.page0
  /\ prompt (init (Example.started Example.due_on_the_20th)
                  "2025-01-20" "2025-01-23" Example.page0)
     = prompt Example.page0.
Proof.
  assert (Due : forall b, In b (borrows Example.due_on_the_20th) ->
                          return_date b = None -> due_date b = "2025-01-20").
  { intros b [<-|[<-|[]]]; [reflexivity|discriminate]. }
  split; [reflexivity|]. split; [exact Due|].
  exact (due_today_is_silent (Example.started Example.due_on_the_20th)
           Example.due_on_the_20th "2025-01-20" "2025-01-23" Example.page0
           eq_refl Due).
Defined.

(** ** Properties of the page *)

Import App.

Lemma text_assoc (a b c : string) : (a ++ b) ++ c = a ++ b ++ c.
Proof. induction a as [|x a IH]; cbn; [reflexivity|now rewrite IH]. Qed.

Lemma replace_all_app (c : ascii) (by_ a b : string) :
  JS.replace_all c by_ (a ++ b) = JS.replace_all c by_ a ++ JS.replace_all c by_ b.
Proof.
  induction a as [|x a IH]; cbn; [reflexivity|].
  destruct (Ascii.eqb x c); cbn; rewrite IH; [now rewrite text_assoc|reflexivity].
Qed.

Lemma esc_char_cases (c : ascii) :
  (c = "&"%char /\ esc_char c = "&amp;")
  \/ (c = "<"%char /\ esc_char c = "&lt;")
  \/ (c = ">"%char /\ esc_char c = "&gt;")
  \/ (c = "034"%char /\ esc_char c = "&quot;")
  \/ (esc_char c = String c EmptyString
      /\ Ascii.eqb c "&" = false /\ Ascii.eqb c "<" = false
      /\ Ascii.eqb c ">" = false /\ Ascii.eqb c "034" = false).
Proof.
  unfold esc_char.
  destruct (Ascii.eqb_spec c "&"); [subst; now left|].
  destruct (Ascii.eqb_spec c "<"); [subst; right; now left|].
  destruct (Ascii.eqb_spec c ">"); [subst; right; right; now left|].
  destruct (Ascii.eqb_spec c "034"); [subst; right; right; right; now left|].
  right. right. right. right. now repeat split.
Qed.

(** The four replacements, made one after the other on the whole text, come
    to replacing each character on its own: the ampersands that the later
    replacements write are not replaced again, those of the text being
    replaced first. *)
Lemma esc_cons (c : ascii) (r : string) : esc (String c r) = esc_char c ++ esc r.
Proof.
  assert (R : JS.replace_all "034" "&quot;"
                (JS.replace_all ">" "&gt;"
                   (JS.replace_all "<" "&lt;" (JS.replace_all "&" "&amp;" r)))
              = esc r) by (now destruct r).
  assert (C : JS.replace_all "034" "&quot;"
                (JS.replace_all ">" "&gt;"
                   (JS.replace_all "<" "&lt;"
                      (JS.replace_all "&" "&amp;" (String c EmptyString))))
              = esc_char c).
  { destruct (esc_char_cases c)
      as [[-> ->]|[[-> ->]|[[-> ->]|[[-> ->]|(-> & A & L & G & Q)]]]];
      try reflexivity.
    cbn [JS.replace_all]. rewrite A. cbn [JS.replace_all]. rewrite L.
    cbn [JS.replace_all]. rewrite G. cbn [JS.replace_all]. now rewrite Q. }
  unfold esc at 1.
  change (String c r) with (String c EmptyString ++ r).
  now rewrite !replace_all_app, R, C.
Qed.

Lemma esc_app (a b : string) : esc (a ++ b) = esc a ++ esc b.
Proof.
  induction a as [|c a IH]; [reflexivity|].
  cbn [append]. now rewrite !esc_cons, IH, text_assoc.
Qed.

Lemma occurs_app (c : ascii) (a b : string) :
  occurs c (a ++ b) = occurs c a || occurs c b.
Proof.
  induction a as [|x a IH]; cbn; [reflexivity|].
  rewrite IH. now rewrite orb_assoc.
Qed.

Lemma esc_injective (s1 s2 : string) : esc s1 = esc s2 -> s1 = s2.
Proof.
  revert s2. induction s1 as [|c1 r1 IH]; intros [|c2 r2] E.
  - reflexivity.
  - rewrite esc_cons in E.
    destruct (esc_char_cases c2)
      as [[-> C]|[[-> C]|[[-> C]|[[-> C]|(C & _)]]]]; rewrite C in E;
      discriminate E.
  - rewrite esc_cons in E.
    destruct (esc_char_cases c1)
      as [[-> C]|[[-> C]|[[-> C]|[[-> C]|(C & _)]]]]; rewrite C in E;
      discriminate E.
  - rewrite !esc_cons in E.
    destruct (esc_char_cases c1)
      as [[-> C1]|[[-> C1]|[[-> C1]|[[-> C1]|(C1 & A1 & L1 & G1 & Q1)]]]];
      destruct (esc_char_cases c2)
        as [[-> C2]|[[-> C2]|[[-> C2]|[[-> C2]|(C2 & A2 & L2 & G2 & Q2)]]]];
      rewrite ?C1, ?C2 in E; cbn [append] in E;
      try discriminate E;
      try (injection E as E; f_equal; now apply IH);
      try (injection E as Ec E; subst;
           first [ discriminate A1 | discriminate A2
                 | f_equal; now apply IH ]).
Qed.

(** X26.  [esc] replaces character by character: the text of two pieces is
    the text of the one followed by the text of the other, the ampersand,
    the two angle brackets and the double quote become their entities, and
    every other character stays, the apostrophe among them.  What it returns
    holds no angle bracket and no double quote, and two different texts
    never give the same result. *)
Theorem esc_replaces_each_character (s1 s2 : string) (c : ascii) :
  esc (s1 ++ s2) = esc s1 ++ esc s2
  /\ esc "&" = "&amp;" /\ esc "<" = "&lt;" /\ esc ">" = "&gt;"
  /\ esc (String "034" EmptyString) = "&quot;"
  /\ (Ascii.eqb c "&" || Ascii.eqb c "<" || Ascii.eqb c ">" || Ascii.eqb c "034" = false ->
      esc (String c EmptyString) = String c EmptyString)
  /\ esc "'" = "'"
  /\ occurs "<" (esc s1) = false
  /\ occurs ">" (esc s1) = false
  /\ occurs "034" (esc s1) = false
  /\ (esc s1 = esc s2 -> s1 = s2).
Proof.
  split; [apply esc_app|]. do 4 (split; [reflexivity|]).
  split.
  { intros N. rewrite esc_cons. cbn [esc append].
    destruct (esc_char_cases c)
      as [[-> _]|[[-> _]|[[-> _]|[[-> _]|(C & _)]]]];
      try discriminate N. now rewrite C. }
  split; [reflexivity|].
  assert (F : forall x, x = "<"%char \/ x = ">"%char \/ x = "034"%char ->
                        occurs x (esc s1) = false).
  { intros x X. induction s1 as [|y r IH]; [reflexivity|].
    rewrite esc_cons, occurs_app, IH, orb_false_r.
    destruct (esc_char_cases y)
      as [[-> C]|[[-> C]|[[-> C]|[[-> C]|(C & A & L & G & Q)]]]]; rewrite C;
      destruct X as [-> | [-> | ->]]; try reflexivity;
      cbn [occurs]; rewrite ?L, ?G, ?Q; reflexivity. }
  split; [apply F; now left|]. split; [apply F; right; now left|].
  split; [apply F; right; now right|]. apply esc_injective.
Qed.





(** Ben is offered the loan of Emma; once it is returned, only the empty
    option is left. *)
Example return_form_on_seed :
  snd (handleBorrowerChange "Ben" Example.s0)
  = Returned [ {| opt_value := ""; opt_textContent := "Select Book";
                  opt_bookId := None |};
               {| opt_value := "1"; opt_textContent := "Emma";
                  opt_bookId := Some "2" |} ]
  /\ snd (handleBorrowerChange "Ben"
            (fst (recordReturn 1 2 "2025-01-18" Example.s0)))
     = Returned [ {| opt_value := ""; opt_textContent := "Select Book";
                     opt_bookId := None |} ].
Proof. split; reflexivity. Qed.
